(** * Tableau user export: a shallow embedding of [lamba_function.py]

    The development follows the source file top to bottom: Python values and
    exceptions, the helpers ([_to_bool], [_http_request], [_api_base]), the
    REST client ([signin], [list_site_users]), the CSV writer
    ([write_csv_to_s3]) and the Lambda entry point ([lambda_handler]).

    Conventions.
    - A Python [str] is a [string]; one [ascii] stands for one character.
      What a text cannot show of a Python string (a lone surrogate that
      [json.loads] made of an escape, say) is left to the codec of the
      [Runtime]: [utf8_encode] gives [None] where [str.encode] raises.
    - A Python [int] is a [Z]; a [float] is a [spec_float].
    - A [dict] with string keys is an association list whose keys are
      pairwise distinct; lookup takes the first binding.
    - An exception is a value of [exn]; code that may raise returns
      [result].  Code that talks to the network or to the bucket threads a
      [world] and returns an [outcome].
    - What the program calls but does not define is taken from two classes:
      [Runtime] for the Python libraries ([json.loads], [ET.fromstring],
      [int] on strings, the codecs) and [Platform] for the outside world
      ([urlopen], the environment, the secrets, the bucket).
    - The [while True] loop of [list_site_users] is a [Fixpoint] on a fuel
      argument; running out of fuel is the outcome [OutOfFuel], which is
      neither a return nor an exception. *)

From Stdlib Require Import ZArith List String Ascii Bool Lia.
From Stdlib Require Import Numbers.DecimalString.
From Stdlib Require Numbers.DecimalZ.
From Corelib Require Import SpecFloat.
Import ListNotations.

Set Warnings "-register-all".
Local Open Scope string_scope.
Local Open Scope Z_scope.

(* ------------------------------------------------------------------ *)
(** ** Characters and strings *)

Module Str.

Definition code (c : ascii) : Z := Z.of_nat (nat_of_ascii c).

Definition chr (n : nat) : string := String (ascii_of_nat n) EmptyString.

(** The characters that cannot be written inside a literal. *)
Definition dquote : string := chr 34.
Definition lf : string := chr 10.
Definition cr : string := chr 13.

(** [str.lower()] on the characters the model has (code points 0..255). *)
Definition lower_char (c : ascii) : ascii :=
  let n := code c in
  if ((65 <=? n) && (n <=? 90))
     || ((192 <=? n) && (n <=? 214))
     || ((216 <=? n) && (n <=? 222))
  then ascii_of_nat (nat_of_ascii c + 32) else c.

Fixpoint lower (s : string) : string :=
  match s with
  | EmptyString => EmptyString
  | String c r => String (lower_char c) (lower r)
  end.

(** [s.startswith(p)] *)
Fixpoint startswith (p s : string) : bool :=
  match p, s with
  | EmptyString, _ => true
  | String _ _, EmptyString => false
  | String a p', String b s' => Ascii.eqb a b && startswith p' s'
  end.

(** [sub in s] *)
Fixpoint contains (sub s : string) : bool :=
  startswith sub s ||
  match s with
  | EmptyString => false
  | String _ r => contains sub r
  end.

(** [s[:n]] *)
Fixpoint take (n : nat) (s : string) : string :=
  match n, s with
  | O, _ => EmptyString
  | S _, EmptyString => EmptyString
  | S n', String c r => String c (take n' r)
  end.

(** Characters [str.strip()] removes. *)
Definition is_space (c : ascii) : bool :=
  let n := code c in
  ((9 <=? n) && (n <=? 13)) || ((28 <=? n) && (n <=? 32))
  || (n =? 133) || (n =? 160).

Fixpoint lstrip (s : string) : string :=
  match s with
  | EmptyString => EmptyString
  | String c r => if is_space c then lstrip r else s
  end.

Fixpoint rstrip (s : string) : string :=
  match s with
  | EmptyString => EmptyString
  | String c r =>
      match rstrip r with
      | EmptyString => if is_space c then EmptyString else String c EmptyString
      | r' => String c r'
      end
  end.

Definition strip (s : string) : string := rstrip (lstrip s).

(** [str(n)] for an [int]. *)
Definition of_Z (z : Z) : string := NilZero.string_of_int (Z.to_int z).

Fixpoint chars (s : string) : list string :=
  match s with
  | EmptyString => []
  | String c r => String c EmptyString :: chars r
  end.

Definition strlen (s : string) : Z := Z.of_nat (String.length s).

End Str.

(* ------------------------------------------------------------------ *)
(** ** Python values, exceptions *)

Definition bytes := list Byte.byte.

Inductive pyval : Type :=
| PNone
| PBool (b : bool)
| PInt (z : Z)
| PFloat (f : spec_float)
| PStr (s : string)
| PList (l : list pyval)
| PDict (d : list (string * pyval)).

Inductive exn : Type :=
| RuntimeError (msg : string)
| KeyError (key : string)
| AttributeError
| TypeError
| ValueError
| OverflowError
| JSONDecodeError
| ParseError
| UnicodeDecodeError
| UnicodeEncodeError
| ConnectionError (reason : string)   (* URLError, timeout, TLS failure *)
| ClientError (msg : string).         (* raised by the AWS clients *)

Inductive result (A : Type) : Type :=
| Ok (a : A)
| Raise (e : exn).
Arguments Ok {A} a.
Arguments Raise {A} e.

Definition rbind {A B} (r : result A) (k : A -> result B) : result B :=
  match r with
  | Ok a => k a
  | Raise e => Raise e
  end.

Definition or_raise {A} (o : option A) (e : exn) : result A :=
  match o with
  | Some a => Ok a
  | None => Raise e
  end.

Module Py.

Fixpoint assoc {A} (k : string) (d : list (string * A)) : option A :=
  match d with
  | [] => None
  | (k', v) :: r => if String.eqb k k' then Some v else assoc k r
  end.

(** [v.get(k, default)]; only a [dict] has the method. *)
Definition get (v : pyval) (k : string) (default : pyval) : result pyval :=
  match v with
  | PDict d => Ok (match assoc k d with Some x => x | None => default end)
  | _ => Raise AttributeError
  end.

(** [v[k]] for a string key. *)
Definition getitem (v : pyval) (k : string) : result pyval :=
  match v with
  | PDict d => or_raise (assoc k d) (KeyError k)
  | _ => Raise TypeError
  end.

(** The elements [list.extend(v)] appends. *)
Definition iter (v : pyval) : result (list pyval) :=
  match v with
  | PList l => Ok l
  | PDict d => Ok (map (fun kv => PStr (fst kv)) d)
  | PStr s => Ok (map PStr (Str.chars s))
  | _ => Raise TypeError
  end.

(** [len(v)] *)
Definition len (v : pyval) : result Z :=
  match v with
  | PList l => Ok (Z.of_nat (List.length l))
  | PDict d => Ok (Z.of_nat (List.length d))
  | PStr s => Ok (Str.strlen s)
  | _ => Raise TypeError
  end.

(** [int(f)] for a float: truncation towards zero. *)
Definition int_of_float (f : spec_float) : result Z :=
  match f with
  | S754_zero _ => Ok 0
  | S754_infinity _ => Raise OverflowError
  | S754_nan => Raise ValueError
  | S754_finite s m e =>
      let mag := if 0 <=? e then Zpos m * 2 ^ e else Zpos m / 2 ^ (- e) in
      Ok (if s then - mag else mag)
  end.

Definition is_dict (v : pyval) : bool :=
  match v with PDict _ => true | _ => false end.

End Py.

(* ------------------------------------------------------------------ *)
(** ** ElementTree *)

(** An [xml.etree.ElementTree.Element]: the tag in Clark notation
    ([{uri}local]), the attribute dict and the child elements.  The source
    never reads [text] or [tail]. *)
Inductive element : Type :=
| Element (tag : string) (attrib : list (string * string)) (children : list element).

Module ET.

Definition tag (e : element) : string := let 'Element t _ _ := e in t.
Definition attrib (e : element) : list (string * string) := let 'Element _ a _ := e in a.
Definition children (e : element) : list element := let 'Element _ _ c := e in c.

(** [NS = {"t": "http://tableau.com/api"}]; [t:name] resolves to
    [{http://tableau.com/api}name]. *)
Definition NS_t : string := "http://tableau.com/api".
Definition qname (local : string) : string := "{" ++ NS_t ++ "}" ++ local.

(** All elements strictly below [e], in document order. *)
Fixpoint descendants (e : element) : list element :=
  let 'Element _ _ cs := e in
  (fix go (l : list element) : list element :=
     match l with
     | [] => []
     | c :: r => c :: descendants c ++ go r
     end) cs.

(** [e.find(".//t:name", NS)] *)
Definition find_desc (e : element) (local : string) : option element :=
  List.find (fun x => String.eqb (tag x) (qname local)) (descendants e).

(** [e.find("t:name", NS)] *)
Definition find_child (e : element) (local : string) : option element :=
  List.find (fun x => String.eqb (tag x) (qname local)) (children e).

(** [e.findall("t:name", NS)] *)
Definition findall (e : element) (local : string) : list element :=
  List.filter (fun x => String.eqb (tag x) (qname local)) (children e).

(** [u.attrib] as a Python value. *)
Definition attrib_dict (e : element) : pyval :=
  PDict (map (fun kv => (fst kv, PStr (snd kv))) (attrib e)).

End ET.

(* ------------------------------------------------------------------ *)
(** ** HTTP messages, the bucket, and the state the program runs in *)

Definition headers := list (string * string).

Record request : Type := mkRequest {
  rq_method : string;
  rq_url : string;
  rq_headers : headers;
  rq_body : option bytes
}.

(** What [urllib.request.urlopen] and reading the body do with a request: a
    response is read, [HTTPError] is raised (the server answered with an
    error status) and its body read, or something else is raised (no usable
    answer: DNS, TLS, timeout, a connection lost while the body is read). *)
Inductive urlopen_result : Type :=
| Responded (status : Z) (hdrs : headers) (payload : bytes)
| HTTPError (code : Z) (hdrs : option headers) (payload : bytes)
| Failed (e : exn).

(** What [_http_request] hands back: status, content type, body text. *)
Definition response : Type := Z * string * string.

Record put_call : Type := mkPut {
  Bucket : pyval;
  Key : string;
  Body : bytes;
  ContentType : string
}.

Record secret_value : Type := mkSecret {
  SecretString : option string;
  SecretBinary : option bytes
}.

(** [Message.get(name, default)]: header names compare case-insensitively. *)
Fixpoint headers_get (h : headers) (name default : string) : string :=
  match h with
  | [] => default
  | (k, v) :: r =>
      if String.eqb (Str.lower k) (Str.lower name) then v
      else headers_get r name default
  end.

Inductive outcome (A : Type) : Type :=
| Returns (a : A)
| Raises (e : exn)
| OutOfFuel.
Arguments Returns {A} a.
Arguments Raises {A} e.
Arguments OutOfFuel {A}.

Definition HARD_CODED_PREFIX : string := "tableau".

(** The body [signin] posts, before [.encode("utf-8")]. *)
Definition signin_body (pat_name pat_secret site_content_url : string) : string :=
  "<tsRequest>" ++ Str.lf ++
  "  <credentials personalAccessTokenName=" ++ Str.dquote ++ pat_name ++ Str.dquote ++ Str.lf ++
  "               personalAccessTokenSecret=" ++ Str.dquote ++ pat_secret ++ Str.dquote ++ ">" ++ Str.lf ++
  "    <site contentUrl=" ++ Str.dquote ++ site_content_url ++ Str.dquote ++ "/>" ++ Str.lf ++
  "  </credentials>" ++ Str.lf ++
  "</tsRequest>".

(** The path [list_site_users] appends to the API base. *)
Definition users_path (site_id : string) (page_size page : Z) : string :=
  "/sites/" ++ site_id ++ "/users?pageSize=" ++ Str.of_Z page_size ++
  "&pageNumber=" ++ Str.of_Z page.

Definition json_headers (token : string) : headers :=
  [("X-Tableau-Auth", token); ("Accept", "application/json")].

Definition xml_headers (token : string) : headers :=
  [("X-Tableau-Auth", token); ("Accept", "application/xml")].

(** [status == 200 and (ctype or "").lower().startswith("application/json")] *)
Definition json_ok (status : Z) (ctype : string) : bool :=
  (status =? 200) && Str.startswith "application/json" (Str.lower ctype).

(** [status != 200 or "xml" not in (ctype or "").lower()] *)
Definition xml_bad (status : Z) (ctype : string) : bool :=
  negb (status =? 200) || negb (Str.contains "xml" (Str.lower ctype)).

(** The message of the [RuntimeError] raised by a failed exchange. *)
Definition failure_message (what : string) (status : Z) (ctype text : string) : string :=
  what ++ " failed: HTTP " ++ Str.of_Z status ++ ", Content-Type=" ++ ctype ++
  Str.lf ++ Str.take 400 text.

(** [fields] of [write_csv_to_s3]. *)
Definition fields : list string :=
  ["id"; "name"; "fullName"; "siteRole"; "lastLogin"; "email"].

(* ------------------------------------------------------------------ *)
(** ** A reader for the markup the sign-in body is written in

    What it means for the body to be a well-formed document with given
    attribute values is fixed by this reader: a one-pass automaton over the
    characters for the part of XML 1.0 the exchange uses (elements,
    attributes in either kind of quotes, the five predefined entities,
    character data).  Declarations, comments, processing instructions and
    character references are outside that part and are rejected.  Attribute
    values are normalised as XML prescribes: a literal tab, line feed or
    carriage return reads as a space. *)

Module Markup.

Definition is_ws (c : ascii) : bool :=
  let n := Str.code c in (n =? 32) || (n =? 9) || (n =? 10) || (n =? 13).

Definition is_name_start (c : ascii) : bool :=
  let n := Str.code c in
  ((65 <=? n) && (n <=? 90)) || ((97 <=? n) && (n <=? 122))
  || (n =? 95) || (n =? 58)
  || ((192 <=? n) && (n <=? 214)) || ((216 <=? n) && (n <=? 246)) || (248 <=? n).

Definition is_name_char (c : ascii) : bool :=
  let n := Str.code c in
  is_name_start c || ((48 <=? n) && (n <=? 57)) || (n =? 45) || (n =? 46) || (n =? 183).

(** A character XML allows in a document at all. *)
Definition is_char (c : ascii) : bool :=
  let n := Str.code c in (32 <=? n) || (n =? 9) || (n =? 10) || (n =? 13).

Definition entity (name : string) : option ascii :=
  if String.eqb name "lt" then Some (ascii_of_nat 60)
  else if String.eqb name "gt" then Some (ascii_of_nat 62)
  else if String.eqb name "amp" then Some (ascii_of_nat 38)
  else if String.eqb name "quot" then Some (ascii_of_nat 34)
  else if String.eqb name "apos" then Some (ascii_of_nat 39)
  else None.

Definition snoc (s : string) (c : ascii) : string := s ++ String c EmptyString.

Definition attrs := list (string * string).

Inductive mode : Type :=
| Content
| ContentRef (r : string)
| TagOpen
| StartName (name : string)
| InTag (name : string) (atts : attrs)
| AfterAtt (name : string) (atts : attrs)
| AttName (name : string) (atts : attrs) (an : string)
| AttNameEnd (name : string) (atts : attrs) (an : string)
| AttEq (name : string) (atts : attrs) (an : string)
| AttValue (name : string) (atts : attrs) (an : string) (q : ascii) (v : string)
| AttRef (name : string) (atts : attrs) (an : string) (q : ascii) (v r : string)
| EmptyTagEnd (name : string) (atts : attrs)
| EndName (name : string)
| EndSpace (name : string)
| Broken.

(** An element whose end tag has not been read yet; the children read so
    far are kept newest first. *)
Record frame : Type := mkFrame {
  fr_name : string;
  fr_atts : attrs;
  fr_children : list element
}.

Record state : Type := mkState {
  st_mode : mode;
  st_stack : list frame;
  st_root : option element
}.

Definition initial : state := mkState Content [] None.

Definition broken : state := mkState Broken [] None.

(** The start tag of [name] is complete. *)
Definition open_element (name : string) (atts : attrs) (st : state) : state :=
  match st_stack st, st_root st with
  | [], Some _ => broken
  | stack, root => mkState Content (mkFrame name atts [] :: stack) root
  end.

(** The element [e] is complete; [stack] is what encloses it. *)
Definition finish (e : element) (stack : list frame) (root : option element) : state :=
  match stack, root with
  | [], None => mkState Content [] (Some e)
  | [], Some _ => broken
  | f :: up, _ =>
      mkState Content (mkFrame (fr_name f) (fr_atts f) (e :: fr_children f) :: up) root
  end.

Definition close_element (name : string) (st : state) : state :=
  match st_stack st with
  | f :: up =>
      if String.eqb (fr_name f) name
      then finish (Element (fr_name f) (fr_atts f) (rev (fr_children f))) up (st_root st)
      else broken
  | [] => broken
  end.

Definition has_attr (an : string) (atts : attrs) : bool :=
  existsb (fun kv => String.eqb (fst kv) an) atts.

Definition step (st : state) (c : ascii) : state :=
  let go m := mkState m (st_stack st) (st_root st) in
  let n := Str.code c in
  if negb (is_char c) then broken else
  match st_mode st with
  | Content =>
      if n =? 60 then go TagOpen
      else if is_ws c then st
      else match st_stack st with
           | [] => broken
           | _ => if n =? 38 then go (ContentRef EmptyString) else st
           end
  | ContentRef r =>
      if n =? 59 then match entity r with Some _ => go Content | None => broken end
      else if is_name_char c then go (ContentRef (snoc r c))
      else broken
  | TagOpen =>
      if n =? 47 then go (EndName EmptyString)
      else if is_name_start c then go (StartName (String c EmptyString))
      else broken
  | StartName name =>
      if is_name_char c then go (StartName (snoc name c))
      else if is_ws c then go (InTag name [])
      else if n =? 62 then open_element name [] st
      else if n =? 47 then go (EmptyTagEnd name [])
      else broken
  | InTag name atts =>
      if is_ws c then st
      else if n =? 62 then open_element name atts st
      else if n =? 47 then go (EmptyTagEnd name atts)
      else if is_name_start c then go (AttName name atts (String c EmptyString))
      else broken
  | AfterAtt name atts =>
      if is_ws c then go (InTag name atts)
      else if n =? 62 then open_element name atts st
      else if n =? 47 then go (EmptyTagEnd name atts)
      else broken
  | AttName name atts an =>
      if is_name_char c then go (AttName name atts (snoc an c))
      else if n =? 61 then go (AttEq name atts an)
      else if is_ws c then go (AttNameEnd name atts an)
      else broken
  | AttNameEnd name atts an =>
      if is_ws c then st
      else if n =? 61 then go (AttEq name atts an)
      else broken
  | AttEq name atts an =>
      if is_ws c then st
      else if (n =? 34) || (n =? 39) then go (AttValue name atts an c EmptyString)
      else broken
  | AttValue name atts an q v =>
      if Ascii.eqb c q then
        if has_attr an atts then broken
        else go (AfterAtt name (atts ++ [(an, v)])%list)
      else if n =? 60 then broken
      else if n =? 38 then go (AttRef name atts an q v EmptyString)
      else if is_ws c then go (AttValue name atts an q (snoc v (ascii_of_nat 32)))
      else go (AttValue name atts an q (snoc v c))
  | AttRef name atts an q v r =>
      if n =? 59 then
        match entity r with
        | Some x => go (AttValue name atts an q (snoc v x))
        | None => broken
        end
      else if is_name_char c then go (AttRef name atts an q v (snoc r c))
      else broken
  | EmptyTagEnd name atts =>
      if n =? 62 then
        match st_stack st, st_root st with
        | [], Some _ => broken
        | stack, root => finish (Element name atts []) stack root
        end
      else broken
  | EndName name =>
      if is_name_char c then go (EndName (snoc name c))
      else if is_ws c then go (EndSpace name)
      else if n =? 62 then close_element name st
      else broken
  | EndSpace name =>
      if is_ws c then st
      else if n =? 62 then close_element name st
      else broken
  | Broken => broken
  end.

Fixpoint run (s : string) (st : state) : state :=
  match s with
  | EmptyString => st
  | String c r => run r (step st c)
  end.

(** The document a text holds, if it is a well-formed one. *)
Definition read (s : string) : option element :=
  let st := run s initial in
  match st_mode st, st_stack st with
  | Content, [] => st_root st
  | _, _ => None
  end.

(** A character that stands for itself inside a double-quoted attribute
    value: no quote, no [<], no [&], no control character (tab, line feed and
    carriage return included, which would read as spaces). *)
Definition plain_char (c : ascii) : bool :=
  let n := Str.code c in
  (32 <=? n) && negb (n =? 34) && negb (n =? 60) && negb (n =? 38).

Fixpoint plain (s : string) : bool :=
  match s with
  | EmptyString => true
  | String c r => plain_char c && plain r
  end.

End Markup.

(** The document the sign-in body is meant to be. *)
Definition signin_document (pat_name pat_secret site_content_url : string) : element :=
  Element "tsRequest" []
    [Element "credentials"
       [("personalAccessTokenName", pat_name);
        ("personalAccessTokenSecret", pat_secret)]
       [Element "site" [("contentUrl", site_content_url)] []]].

(* ------------------------------------------------------------------ *)
(** ** The [csv] writer (excel dialect, [QUOTE_MINIMAL]) *)

Module Csv.

Definition comma : ascii := ascii_of_nat 44.
Definition quotechar : ascii := ascii_of_nat 34.

(** A cell is quoted when it holds the delimiter, the quote character or a
    character of the line terminator. *)
Definition special (c : ascii) : bool :=
  Ascii.eqb c comma || Ascii.eqb c quotechar
  || Ascii.eqb c (ascii_of_nat 13) || Ascii.eqb c (ascii_of_nat 10).

Fixpoint has_special (s : string) : bool :=
  match s with
  | EmptyString => false
  | String c r => special c || has_special r
  end.

(** Every quote character is written twice. *)
Fixpoint double_quotes (s : string) : string :=
  match s with
  | EmptyString => EmptyString
  | String c r =>
      if Ascii.eqb c quotechar then String c (String c (double_quotes r))
      else String c (double_quotes r)
  end.

Definition cell (s : string) : string :=
  if has_special s
  then String quotechar (double_quotes s ++ String quotechar EmptyString)
  else s.

Fixpoint join (cells : list string) : string :=
  match cells with
  | [] => EmptyString
  | [c] => c
  | c :: r => c ++ String comma (join r)
  end.

Definition lineterminator : string := Str.cr ++ Str.lf.

(** [writer.writerow(cells)]: a row that is one empty cell is written as
    two quote characters. *)
Definition writerow (cells : list string) : string :=
  match cells with
  | [EmptyString] => String quotechar (String quotechar lineterminator)
  | _ => join (map cell cells) ++ lineterminator
  end.

(** A reader for what the writer writes, to say what the cells of a text
    are: cells are separated by commas and rows end at a carriage return and
    line feed; a cell that starts with a quote runs to the next lone quote,
    two quotes in a row standing for one. *)
Inductive rmode : Type :=
| RowStart      (* nothing of the row read yet *)
| FieldStart    (* just after a comma *)
| Unquoted      (* inside a cell without quotes *)
| Quoted        (* inside a quoted cell *)
| QuoteSeen     (* inside a quoted cell, just after a quote *)
| AfterCR.      (* just after the carriage return that ended a row *)

Record rstate : Type := mkR {
  r_mode : rmode;
  r_cell : string;                 (* the cell being read *)
  r_row : list string;             (* the cells of the row read so far *)
  r_rows : list (list string)      (* the rows read so far *)
}.

Definition snoc (s : string) (c : ascii) : string := s ++ String c EmptyString.

Definition next_cell (st : rstate) : rstate :=
  mkR FieldStart EmptyString (r_row st ++ [r_cell st])%list (r_rows st).

Definition end_row (m : rmode) (st : rstate) : rstate :=
  mkR m EmptyString [] (r_rows st ++ [r_row st ++ [r_cell st]])%list.

Definition is_cr (c : ascii) : bool := Ascii.eqb c (ascii_of_nat 13).
Definition is_lf (c : ascii) : bool := Ascii.eqb c (ascii_of_nat 10).

Definition rstep (st : rstate) (c : ascii) : rstate :=
  let put m := mkR m (snoc (r_cell st) c) (r_row st) (r_rows st) in
  let opening :=
    if Ascii.eqb c quotechar then mkR Quoted (r_cell st) (r_row st) (r_rows st)
    else if Ascii.eqb c comma then next_cell st
    else put Unquoted in
  match r_mode st with
  | RowStart =>
      if is_cr c then mkR AfterCR (r_cell st) (r_row st) (r_rows st)
      else if is_lf c then st
      else opening
  | AfterCR =>
      if is_lf c then mkR RowStart (r_cell st) (r_row st) (r_rows st)
      else if is_cr c then st
      else opening
  | FieldStart =>
      if is_cr c then end_row AfterCR st
      else if is_lf c then end_row RowStart st
      else opening
  | Unquoted =>
      if Ascii.eqb c comma then next_cell st
      else if is_cr c then end_row AfterCR st
      else if is_lf c then end_row RowStart st
      else put Unquoted
  | Quoted =>
      if Ascii.eqb c quotechar then mkR QuoteSeen (r_cell st) (r_row st) (r_rows st)
      else put Quoted
  | QuoteSeen =>
      if Ascii.eqb c quotechar then put Quoted
      else if Ascii.eqb c comma then next_cell st
      else if is_cr c then end_row AfterCR st
      else if is_lf c then end_row RowStart st
      else put Unquoted
  end.

Fixpoint rrun (s : string) (st : rstate) : rstate :=
  match s with
  | EmptyString => st
  | String c r => rrun r (rstep st c)
  end.

(** The modes in which a comma or the end of the line closes the cell. *)
Definition closing (m : rmode) : Prop :=
  m = FieldStart \/ m = Unquoted \/ m = QuoteSeen.

(** The rows of a text. *)
Definition read (s : string) : list (list string) :=
  let st := rrun s (mkR RowStart EmptyString [] []) in
  match r_mode st with
  | RowStart | AfterCR => r_rows st
  | _ => (r_rows st ++ [r_row st ++ [r_cell st]])%list
  end.

End Csv.

(* ------------------------------------------------------------------ *)
(** ** The program *)

(** What the Python runtime and its libraries provide. *)
Class Runtime : Type := {
  (** [json.loads]; [None] when it raises [JSONDecodeError]. *)
  json_loads : string -> option pyval;
  (** [ET.fromstring]; [None] when it raises [ParseError]. *)
  ET_fromstring : string -> option element;
  (** [int(s)] for a [str]; [None] when it raises [ValueError]. *)
  int_of_str : string -> option Z;
  (** [str(v)] for floats, lists and dicts. *)
  str_of_other : pyval -> string;
  (** [s.encode("utf-8")]; [None] when it raises [UnicodeEncodeError], as
      it does on a lone surrogate. *)
  utf8_encode : string -> option bytes;
  (** [b.decode("utf-8", errors="replace")] *)
  utf8_decode_replace : bytes -> string;
  (** [b.decode("utf-8")]; [None] when it raises [UnicodeDecodeError]. *)
  utf8_decode : bytes -> option string
}.

(** The outside world. *)
Class Platform : Type := {
  (** The state of the network and of whatever answers on it. *)
  Net : Type;
  (** [urllib.request.urlopen(req, context, timeout)]; the flag says whether
      certificates are verified. *)
  urlopen : request -> bool -> Z -> Net -> urlopen_result * Net;
  (** [os.environ] *)
  environ : string -> option string;
  (** [secrets.get_secret_value(SecretId=...)] *)
  get_secret_value : string -> result secret_value;
  (** Why [s3.put_object] would refuse a call, if it would. *)
  s3_refuses : put_call -> option exn
}.

Section Program.

Context {R : Runtime} {P : Platform}.

(** The state a run reads and writes: the network, the module globals
    [API_VERSION] and [VERIFY_SSL], the objects put into the bucket (oldest
    first), and a record of every [_http_request] made (oldest first) which
    the program itself never reads. *)
Record world : Type := mkWorld {
  net : Net;
  API_VERSION : string;
  VERIFY_SSL : bool;
  s3_objects : list put_call;
  wire : list (request * result response)
}.

Definition M (A : Type) : Type := world -> outcome A * world.

Definition ret {A} (a : A) : M A := fun w => (Returns a, w).
Definition raise {A} (e : exn) : M A := fun w => (Raises e, w).
Definition out_of_fuel {A} : M A := fun w => (OutOfFuel, w).

Definition bind {A B} (c : M A) (k : A -> M B) : M B :=
  fun w =>
    match c w with
    | (Returns a, w') => k a w'
    | (Raises e, w') => (Raises e, w')
    | (OutOfFuel, w') => (OutOfFuel, w')
    end.

Definition lift {A} (r : result A) : M A :=
  match r with
  | Ok a => ret a
  | Raise e => raise e
  end.

Definition get_world : M world := fun w => (Returns w, w).

Notation "x <- c ;; k" := (bind c (fun x => k))
  (at level 61, c at next level, right associativity).
Notation "' p <- c ;; k" := (bind c (fun x => let 'p := x in k))
  (at level 61, p pattern, c at next level, right associativity).

(** *** Built-ins that need the runtime *)

(** [str(v)], which is also what an f-string does with [{v}]. *)
Definition str (v : pyval) : string :=
  match v with
  | PStr s => s
  | PNone => "None"
  | PBool true => "True"
  | PBool false => "False"
  | PInt z => Str.of_Z z
  | _ => str_of_other v
  end.

(** [int(v)] *)
Definition int (v : pyval) : result Z :=
  match v with
  | PInt z => Ok z
  | PBool b => Ok (if b then 1 else 0)
  | PFloat f => Py.int_of_float f
  | PStr s => or_raise (int_of_str s) ValueError
  | _ => Raise TypeError
  end.

(** [not l] for a list. *)
Definition is_nil {A} (l : list A) : bool :=
  match l with [] => true | _ => false end.

(** [not v] for the values [list.extend] accepts. *)
Definition is_empty (v : pyval) : bool :=
  match v with
  | PList [] | PDict [] | PStr EmptyString => true
  | _ => false
  end.

(** *** helpers *)

(** [not val] for an optional string. *)
Definition no_text (val : option string) : bool :=
  match val with
  | None | Some EmptyString => true
  | Some (String _ _) => false
  end.

Definition _get_secret_json (name_or_arn : string) : result pyval :=
  rbind (get_secret_value name_or_arn) (fun res =>
  let val := SecretString res in
  rbind (match SecretBinary res with
         | Some b =>
             if no_text val
             then rbind (or_raise (utf8_decode b) UnicodeDecodeError)
                        (fun v => Ok (Some v))
             else Ok val
         | None => Ok val
         end) (fun val =>
  or_raise (json_loads (match val with
                        | Some (String c r) => String c r
                        | _ => "{}"
                        end))
           JSONDecodeError)).

Definition _to_bool (val : pyval) (default : bool) : bool :=
  match val with
  | PBool b => b
  | PStr s =>
      existsb (String.eqb (Str.lower (Str.strip s)))
              ["1"; "true"; "yes"; "y"; "on"]
  | _ => default
  end.

Definition _http_request (method url : string) (hdrs : headers)
    (body : option bytes) (timeout : Z) : M response :=
  fun w =>
    let req := mkRequest method url hdrs body in
    let '(answer, n) := urlopen req (VERIFY_SSL w) timeout (net w) in
    let r : result response :=
      match answer with
      | Responded status h payload =>
          Ok (status, headers_get h "Content-Type" "", utf8_decode_replace payload)
      | HTTPError code h payload =>
          let ctype := match h with
                       | Some (x :: h') => headers_get (x :: h') "Content-Type" ""
                       | _ => ""
                       end in
          Ok (code, ctype, utf8_decode_replace payload)
      | Failed e => Raise e
      end in
    lift r (mkWorld n (API_VERSION w) (VERIFY_SSL w) (s3_objects w)
                    (wire w ++ [(req, r)])%list).

Definition _api_base (server : string) : M string :=
  w <- get_world ;;
  ret ("https://" ++ server ++ "/api/" ++ API_VERSION w).

(** *** Tableau REST *)

Definition signin (server pat_name pat_secret site_content_url : string)
    : M (string * string) :=
  base <- _api_base server ;;
  let url := base ++ "/auth/signin" in
  let hdrs := [("Content-Type", "application/xml");
               ("Accept", "application/xml");
               ("User-Agent", "curl/8.5.0")] in
  xml_body <- lift (or_raise (utf8_encode (signin_body pat_name pat_secret site_content_url))
                             UnicodeEncodeError) ;;
  '(status, ctype, text) <- _http_request "POST" url hdrs (Some xml_body) 30 ;;
  if xml_bad status ctype then
    raise (RuntimeError (failure_message "Sign-in" status ctype text))
  else
    root <- lift (or_raise (ET_fromstring text) ParseError) ;;
    cred <- lift (or_raise (ET.find_desc root "credentials") AttributeError) ;;
    token <- lift (or_raise (Py.assoc "token" (ET.attrib cred)) (KeyError "token")) ;;
    site <- lift (or_raise (ET.find_child cred "site") AttributeError) ;;
    site_id <- lift (or_raise (Py.assoc "id" (ET.attrib site)) (KeyError "id")) ;;
    ret (token, site_id).

(** The [while True] loop of [list_site_users]; [users] and [page] are its
    two variables. *)
Fixpoint users_loop (fuel : nat) (server site_id token : string)
    (page_size : Z) (users : list pyval) (page : Z) {struct fuel}
    : M (list pyval) :=
  match fuel with
  | O => out_of_fuel
  | S fuel' =>
      base <- _api_base server ;;
      let url := base ++ users_path site_id page_size page in
      (* JSON first *)
      '(status, ctype, text) <- _http_request "GET" url (json_headers token) None 30 ;;
      if json_ok status ctype then
        data <- lift (or_raise (json_loads text) JSONDecodeError) ;;
        users_obj <- lift (Py.get data "users" (PDict [])) ;;
        batch <- lift (Py.get users_obj "user" (PList [])) ;;
        items <- lift (Py.iter batch) ;;
        let users := (users ++ items)%list in
        pagination <- lift (Py.get data "pagination" (PDict [])) ;;
        n <- lift (Py.len batch) ;;
        total_v <- lift (Py.get pagination "totalAvailable" (PInt n)) ;;
        total <- lift (int total_v) ;;
        if (page * page_size >=? total) || is_empty batch then ret users
        else users_loop fuel' server site_id token page_size users (page + 1)
      else
        (* XML fallback *)
        '(status, ctype, text) <- _http_request "GET" url (xml_headers token) None 30 ;;
        if xml_bad status ctype then
          raise (RuntimeError (failure_message "/users" status ctype text))
        else
          root <- lift (or_raise (ET_fromstring text) ParseError) ;;
          let batch :=
            match ET.find_desc root "users" with
            | Some users_node => map ET.attrib_dict (ET.findall users_node "user")
            | None => []
            end in
          let users := (users ++ batch)%list in
          if is_nil batch || (Z.of_nat (List.length batch) <? page_size)
          then ret users
          else users_loop fuel' server site_id token page_size users (page + 1)
  end.

Definition list_site_users (fuel : nat) (server site_id token : string)
    (page_size : Z) : M (list pyval) :=
  users_loop fuel server site_id token page_size [] 1.

(** *** CSV -> S3 *)

(** What the [csv] writer writes for a value: nothing for [None], the
    string itself, [str(v)] otherwise. *)
Definition csv_text (v : pyval) : string :=
  match v with
  | PNone => EmptyString
  | _ => str v
  end.

(** [DictWriter.writerow(rowdict)] with [restval=""] and
    [extrasaction="raise"]: the line appended to the buffer. *)
Definition DictWriter_writerow (fieldnames : list string)
    (rowdict : list (string * pyval)) : result string :=
  if forallb (fun kv => existsb (String.eqb (fst kv)) fieldnames) rowdict then
    Ok (Csv.writerow
          (map (fun k => csv_text (match Py.assoc k rowdict with
                                   | Some v => v
                                   | None => PStr EmptyString
                                   end)) fieldnames))
  else Raise ValueError.

(** [{k: u.get(k, "") for k in fields}] *)
Fixpoint row_of (u : pyval) (ks : list string) : result (list (string * pyval)) :=
  match ks with
  | [] => Ok []
  | k :: r =>
      rbind (Py.get u k (PStr EmptyString)) (fun v =>
      rbind (row_of u r) (fun rest => Ok ((k, v) :: rest)))
  end.

(** The [for u in users] loop; [buf] is the [StringIO] buffer. *)
Fixpoint write_rows (buf : string) (users : list pyval) : result string :=
  match users with
  | [] => Ok buf
  | u :: rest =>
      rbind (row_of u fields) (fun rowdict =>
      rbind (DictWriter_writerow fields rowdict) (fun line =>
      write_rows (buf ++ line) rest))
  end.

Definition put_object (p : put_call) : M unit :=
  fun w =>
    match s3_refuses p with
    | Some e => (Raises e, w)
    | None =>
        (Returns tt,
         mkWorld (net w) (API_VERSION w) (VERIFY_SSL w)
                 (s3_objects w ++ [p])%list (wire w))
    end.

Definition write_csv_to_s3 (users : list pyval) (bucket : pyval) : M string :=
  (* w.writeheader() *)
  header <- lift (DictWriter_writerow fields (combine fields (map PStr fields))) ;;
  buf <- lift (write_rows header users) ;;
  data <- lift (or_raise (utf8_encode buf) UnicodeEncodeError) ;;
  let key := HARD_CODED_PREFIX ++ "/tableau_server_users.csv" in
  _ <- put_object (mkPut bucket key data "text/csv; charset=utf-8") ;;
  ret key.

(** *** Lambda handler *)

Record handler_result : Type := mkResult {
  res_status : string;
  res_count : Z;
  res_bucket : pyval;
  res_key : string;
  res_api_version : string
}.

Definition set_API_VERSION (v : string) : M unit :=
  fun w => (Returns tt, mkWorld (net w) v (VERIFY_SSL w) (s3_objects w) (wire w)).

Definition set_VERIFY_SSL (b : bool) : M unit :=
  fun w => (Returns tt, mkWorld (net w) (API_VERSION w) b (s3_objects w) (wire w)).

(** The secret's values reach [signin] and [list_site_users] only inside
    f-strings, so they are passed on as [str(v)]. *)
Definition lambda_handler (fuel : nat) : M handler_result :=
  tableau_secret_name <-
    lift (or_raise (environ "TABLEAU_SECRET_NAME") (KeyError "TABLEAU_SECRET_NAME")) ;;
  s3_secret_name <-
    lift (or_raise (environ "S3_SECRET_NAME") (KeyError "S3_SECRET_NAME")) ;;
  tsec <- lift (_get_secret_json tableau_secret_name) ;;
  s3sec <- lift (_get_secret_json s3_secret_name) ;;
  w <- get_world ;;
  v <- lift (Py.get tsec "API_VERSION" (PStr (API_VERSION w))) ;;
  _ <- set_API_VERSION (str v) ;;
  v <- lift (Py.get tsec "VERIFY_SSL" (PBool (VERIFY_SSL w))) ;;
  _ <- set_VERIFY_SSL (_to_bool v true) ;;
  server <- lift (Py.getitem tsec "SERVER") ;;
  site_slug <- lift (Py.get tsec "SITE_CONTENT_URL" (PStr EmptyString)) ;;
  pat_name <- lift (Py.getitem tsec "PAT_NAME") ;;
  pat_secret <- lift (Py.getitem tsec "PAT_SECRET") ;;
  bucket <- lift (Py.getitem s3sec "S3_BUCKET") ;;
  '(token, site_id) <- signin (str server) (str pat_name) (str pat_secret) (str site_slug) ;;
  users <- list_site_users fuel (str server) site_id token 1000 ;;
  key <- write_csv_to_s3 users bucket ;;
  w <- get_world ;;
  ret (mkResult "ok" (Z.of_nat (List.length users)) bucket key (API_VERSION w)).

(* ---------------------------------------------------------------- *)
(** *** Views used to state the properties *)

Definition api_base (w : world) (server : string) : string :=
  "https://" ++ server ++ "/api/" ++ API_VERSION w.

(** The URL [list_site_users] asks for page [page]. *)
Definition page_url (w : world) (server site_id : string) (page_size page : Z) : string :=
  api_base w server ++ users_path site_id page_size page.

Definition json_request (w : world) (server site_id token : string)
    (page_size page : Z) : request :=
  mkRequest "GET" (page_url w server site_id page_size page) (json_headers token) None.

Definition xml_request (w : world) (server site_id token : string)
    (page_size page : Z) : request :=
  mkRequest "GET" (page_url w server site_id page_size page) (xml_headers token) None.

(** What the JSON branch reads off a body: [batch], the elements
    [users.extend(batch)] appends, and [total]. *)
Definition json_page (text : string) : result (pyval * list pyval * Z) :=
  rbind (or_raise (json_loads text) JSONDecodeError) (fun data =>
  rbind (Py.get data "users" (PDict [])) (fun users_obj =>
  rbind (Py.get users_obj "user" (PList [])) (fun batch =>
  rbind (Py.iter batch) (fun items =>
  rbind (Py.get data "pagination" (PDict [])) (fun pagination =>
  rbind (Py.len batch) (fun n =>
  rbind (Py.get pagination "totalAvailable" (PInt n)) (fun total_v =>
  rbind (int total_v) (fun total =>
  Ok (batch, items, total))))))))).

(** What the XML branch reads off a body: [batch]. *)
Definition xml_page (text : string) : result (list pyval) :=
  rbind (or_raise (ET_fromstring text) ParseError) (fun root =>
  Ok (match ET.find_desc root "users" with
      | Some users_node => map ET.attrib_dict (ET.findall users_node "user")
      | None => []
      end)).

(** The batch an exchange contributed to the accumulated list: what the
    JSON branch reads off a usable JSON answer, what the XML branch reads off
    a usable XML answer, nothing otherwise. *)
Definition batch_of (exchange : request * result response) : list pyval :=
  match snd exchange with
  | Ok (st, ct, tx) =>
      match Py.assoc "Accept" (rq_headers (fst exchange)) with
      | Some accept =>
          if String.eqb accept "application/json" then
            if json_ok st ct then
              match json_page tx with Ok (_, items, _) => items | Raise _ => [] end
            else []
          else
            if xml_bad st ct then []
            else match xml_page tx with Ok batch => batch | Raise _ => [] end
      | None => []
      end
  | Raise _ => []
  end.

(** A record of exchanges in which every page is first asked for as JSON, and
    asked for as XML only right after the JSON answer for that same page was
    not HTTP 200 with a JSON content type; pages are asked for in increasing
    order from [page].  [url_of] gives the URL of each page. *)
Inductive negotiated (url_of : Z -> string) (token : string)
    : Z -> list (request * result response) -> Prop :=
| neg_end page :
    negotiated url_of token page []
| neg_json page st ct tx rest :
    st = 200 ->
    Str.startswith "application/json" (Str.lower ct) = true ->
    negotiated url_of token (page + 1) rest ->
    negotiated url_of token page
      ((mkRequest "GET" (url_of page)
                  [("X-Tableau-Auth", token); ("Accept", "application/json")] None,
        Ok (st, ct, tx)) :: rest)
| neg_json_raised page e :
    negotiated url_of token page
      [(mkRequest "GET" (url_of page)
                  [("X-Tableau-Auth", token); ("Accept", "application/json")] None,
        Raise e)]
| neg_fallback page st ct tx answer rest :
    st <> 200 \/ Str.startswith "application/json" (Str.lower ct) = false ->
    negotiated url_of token (page + 1) rest ->
    negotiated url_of token page
      ((mkRequest "GET" (url_of page)
                  [("X-Tableau-Auth", token); ("Accept", "application/json")] None,
        Ok (st, ct, tx))
       :: (mkRequest "GET" (url_of page)
                     [("X-Tableau-Auth", token); ("Accept", "application/xml")] None,
           answer) :: rest).

(** Page [page] (counted from 1) of a user population cut into pages of
    [page_size]. *)
Definition page_slice (pop : list pyval) (page_size page : Z) : list pyval :=
  firstn (Z.to_nat page_size) (skipn (Z.to_nat ((page - 1) * page_size)) pop).

(** From [w], the JSON request for [page] is answered with HTTP 200 and a JSON
    content type, and the body holds that page of [pop] and reports the size
    of [pop] as the total; [w'] is the state after the exchange. *)
Definition answers_json (pop : list pyval) (server site_id token : string)
    (page_size page : Z) (w w' : world) : Prop :=
  exists st ct tx,
    _http_request "GET" (page_url w server site_id page_size page)
                  (json_headers token) None 30 w = (Returns (st, ct, tx), w') /\
    json_ok st ct = true /\
    json_page tx = Ok (PList (page_slice pop page_size page),
                       page_slice pop page_size page,
                       Z.of_nat (List.length pop)).

(** From [w], the JSON request for [page] gets an answer that is not usable,
    and the XML request that follows is answered with HTTP 200 and an XML
    content type, the body holding that page of [pop]. *)
Definition answers_xml (pop : list pyval) (server site_id token : string)
    (page_size page : Z) (w w' : world) : Prop :=
  exists st ct tx w1 st2 ct2 tx2,
    _http_request "GET" (page_url w server site_id page_size page)
                  (json_headers token) None 30 w = (Returns (st, ct, tx), w1) /\
    json_ok st ct = false /\
    _http_request "GET" (page_url w server site_id page_size page)
                  (xml_headers token) None 30 w1 = (Returns (st2, ct2, tx2), w') /\
    xml_bad st2 ct2 = false /\
    xml_page tx2 = Ok (page_slice pop page_size page).

(** The cells written for a record: for each of the six keys, the text of
    the record's value, or nothing when the record lacks the key. *)
Definition record_row (u : pyval) : list string :=
  map (fun k => match Py.get u k (PStr EmptyString) with
                | Ok v => csv_text v
                | Raise _ => EmptyString
                end) fields.

(** The text the [csv] writer produces for a sequence of rows. *)
Fixpoint csv_document (rows : list (list string)) : string :=
  match rows with
  | [] => EmptyString
  | r :: rest => Csv.writerow r ++ csv_document rest
  end.

Definition export_key : string := "tableau/tableau_server_users.csv".

(** What [lambda_handler] has read when it is about to sign in. *)
Record settings : Type := mkSettings {
  cfg_server : pyval;
  cfg_site_slug : pyval;
  cfg_pat_name : pyval;
  cfg_pat_secret : pyval;
  cfg_bucket : pyval
}.

(** [lambda_handler] up to the call of [signin]. *)
Definition handler_setup : M settings :=
  tableau_secret_name <-
    lift (or_raise (environ "TABLEAU_SECRET_NAME") (KeyError "TABLEAU_SECRET_NAME")) ;;
  s3_secret_name <-
    lift (or_raise (environ "S3_SECRET_NAME") (KeyError "S3_SECRET_NAME")) ;;
  tsec <- lift (_get_secret_json tableau_secret_name) ;;
  s3sec <- lift (_get_secret_json s3_secret_name) ;;
  w <- get_world ;;
  v <- lift (Py.get tsec "API_VERSION" (PStr (API_VERSION w))) ;;
  _ <- set_API_VERSION (str v) ;;
  v <- lift (Py.get tsec "VERIFY_SSL" (PBool (VERIFY_SSL w))) ;;
  _ <- set_VERIFY_SSL (_to_bool v true) ;;
  server <- lift (Py.getitem tsec "SERVER") ;;
  site_slug <- lift (Py.get tsec "SITE_CONTENT_URL" (PStr EmptyString)) ;;
  pat_name <- lift (Py.getitem tsec "PAT_NAME") ;;
  pat_secret <- lift (Py.getitem tsec "PAT_SECRET") ;;
  bucket <- lift (Py.getitem s3sec "S3_BUCKET") ;;
  ret (mkSettings server site_slug pat_name pat_secret bucket).

(** [lambda_handler] from the call of [signin] on. *)
Definition handler_export (fuel : nat) (cfg : settings) : M handler_result :=
  '(token, site_id) <- signin (str (cfg_server cfg)) (str (cfg_pat_name cfg))
                              (str (cfg_pat_secret cfg)) (str (cfg_site_slug cfg)) ;;
  users <- list_site_users fuel (str (cfg_server cfg)) site_id token 1000 ;;
  key <- write_csv_to_s3 users (cfg_bucket cfg) ;;
  w <- get_world ;;
  ret (mkResult "ok" (Z.of_nat (List.length users)) (cfg_bucket cfg) key (API_VERSION w)).

(** A computation that puts nothing into the bucket. *)
Definition keeps_bucket {A} (c : M A) : Prop :=
  forall w, s3_objects (snd (c w)) = s3_objects w.

(* ---------------------------------------------------------------- *)
(** *** Further views *)

(** The one request [signin] makes; [body] is the encoded sign-in body. *)
Definition signin_request (w : world) (server : string) (body : bytes) : request :=
  mkRequest "POST" (api_base w server ++ "/auth/signin")
            [("Content-Type", "application/xml");
             ("Accept", "application/xml");
             ("User-Agent", "curl/8.5.0")]
            (Some body).

(** What [signin] reads off the body of a usable answer: the token and the
    site id. *)
Definition signin_reply (text : string) : result (string * string) :=
  rbind (or_raise (ET_fromstring text) ParseError) (fun root =>
  rbind (or_raise (ET.find_desc root "credentials") AttributeError) (fun cred =>
  rbind (or_raise (Py.assoc "token" (ET.attrib cred)) (KeyError "token")) (fun token =>
  rbind (or_raise (ET.find_child cred "site") AttributeError) (fun site =>
  rbind (or_raise (Py.assoc "id" (ET.attrib site)) (KeyError "id")) (fun site_id =>
  Ok (token, site_id)))))).

(** A far end that serves [pop] page by page, every page as JSON. *)
Definition serves_json_only (ready : Z -> Net -> Prop) (pop : list pyval)
    (server site_id token : string) (page_size : Z) : Prop :=
  forall page w,
    1 <= page -> ready page (net w) ->
    exists w',
      answers_json pop server site_id token page_size page w w' /\
      ready (page + 1) (net w').

(** A far end that serves [pop] page by page, every page as XML only. *)
Definition serves_xml_only (ready : Z -> Net -> Prop) (pop : list pyval)
    (server site_id token : string) (page_size : Z) : Prop :=
  forall page w,
    1 <= page -> ready page (net w) ->
    exists w',
      answers_xml pop server site_id token page_size page w w' /\
      ready (page + 1) (net w').

(** The number of pages that hold [n] records, one page at the least. *)
Definition pages_of (n page_size : Z) : Z :=
  if n =? 0 then 1 else (n + page_size - 1) / page_size.

(** From [w], page [page] is answered in a way that makes the loop go on: as
    JSON with a batch that is not empty and a total not yet reached, or as
    XML with a batch of at least [page_size] records. *)
Definition answers_more (server site_id token : string)
    (page_size page : Z) (w w' : world) : Prop :=
  (exists st ct tx batch items total,
      _http_request "GET" (page_url w server site_id page_size page)
                    (json_headers token) None 30 w = (Returns (st, ct, tx), w') /\
      json_ok st ct = true /\
      json_page tx = Ok (batch, items, total) /\
      page * page_size < total /\ is_empty batch = false) \/
  (exists st ct tx w1 st2 ct2 tx2 batch,
      _http_request "GET" (page_url w server site_id page_size page)
                    (json_headers token) None 30 w = (Returns (st, ct, tx), w1) /\
      json_ok st ct = false /\
      _http_request "GET" (page_url w server site_id page_size page)
                    (xml_headers token) None 30 w1 = (Returns (st2, ct2, tx2), w') /\
      xml_bad st2 ct2 = false /\
      xml_page tx2 = Ok batch /\
      is_nil batch = false /\ page_size <= Z.of_nat (List.length batch)).

(** A string of characters that [str.strip()] removes. *)
Fixpoint blank (s : string) : bool :=
  match s with
  | EmptyString => true
  | String c r => Str.is_space c && blank r
  end.

(** A computation that sends nothing and leaves the far end as it is. *)
Definition sends_nothing {A} (c : M A) : Prop :=
  forall w, wire (snd (c w)) = wire w /\ net (snd (c w)) = net w.

(** [int(s)] as a reader of what [str(n)] writes. *)
Definition decimal (s : string) : option Z :=
  option_map Z.of_int (NilZero.int_of_string s).

(* ---------------------------------------------------------------- *)
(** *** A far end described page by page

    These descriptions name the requests by what the REST API documents (the
    URL with [pageSize] and [pageNumber], the token header, the [Accept]
    header), not by the program's own way of building them. *)

(** From [w], the request for page [page] that asks for JSON is answered
    with HTTP 200 and a JSON content type, and the body holds the batch
    [items] and reports [total]; [w'] is the state after the exchange. *)
Definition json_reply (items : list pyval) (total : Z) (server site_id token : string)
    (page_size : Z) (page : nat) (w w' : world) : Prop :=
  exists ct tx,
    _http_request "GET"
      ("https://" ++ server ++ "/api/" ++ API_VERSION w ++ "/sites/" ++ site_id ++
       "/users?pageSize=" ++ Str.of_Z page_size ++
       "&pageNumber=" ++ Str.of_Z (Z.of_nat page))
      [("X-Tableau-Auth", token); ("Accept", "application/json")] None 30 w
    = (Returns (200, ct, tx), w') /\
    Str.startswith "application/json" (Str.lower ct) = true /\
    json_page tx = Ok (PList items, items, total).

(** From [w], the request for page [page] that asks for JSON is answered, but
    not with HTTP 200 and a JSON content type; the request for the same page
    that asks for XML is answered with HTTP 200 and an XML content type, and
    the body holds the batch [items]. *)
Definition xml_reply (items : list pyval) (server site_id token : string)
    (page_size : Z) (page : nat) (w w' : world) : Prop :=
  exists st ct tx w1 ct2 tx2,
    _http_request "GET"
      ("https://" ++ server ++ "/api/" ++ API_VERSION w ++ "/sites/" ++ site_id ++
       "/users?pageSize=" ++ Str.of_Z page_size ++
       "&pageNumber=" ++ Str.of_Z (Z.of_nat page))
      [("X-Tableau-Auth", token); ("Accept", "application/json")] None 30 w
    = (Returns (st, ct, tx), w1) /\
    (st <> 200 \/ Str.startswith "application/json" (Str.lower ct) = false) /\
    _http_request "GET"
      ("https://" ++ server ++ "/api/" ++ API_VERSION w ++ "/sites/" ++ site_id ++
       "/users?pageSize=" ++ Str.of_Z page_size ++
       "&pageNumber=" ++ Str.of_Z (Z.of_nat page))
      [("X-Tableau-Auth", token); ("Accept", "application/xml")] None 30 w1
    = (Returns (200, ct2, tx2), w') /\
    Str.contains "xml" (Str.lower ct2) = true /\
    xml_page tx2 = Ok items.

(** A far end that spreads its users over pages as it likes: page [k] holds
    the batch [book k], and is served as JSON reporting [total k] when
    [as_json k], as XML only otherwise.  [ready k n] says that in network
    state [n] the far end is about to be asked for page [k]. *)
Definition hands_out (ready : nat -> Net -> Prop) (book : nat -> list pyval)
    (total : nat -> Z) (as_json : nat -> bool)
    (server site_id token : string) (page_size : Z) : Prop :=
  forall page w,
    (1 <= page)%nat -> ready page (net w) ->
    exists w',
      (if as_json page
       then json_reply (book page) (total page) server site_id token page_size page w w'
       else xml_reply (book page) server site_id token page_size page w w') /\
      ready (S page) (net w').

(* ---------------------------------------------------------------- *)
(** *** The table the specification asks for *)

(** The cell of a record for a key, in the words of the specification: the
    record's value for that key, or nothing when the record lacks the key.  A
    value that is a string stands as it is; [None] gives an empty cell and
    any other value is written as [str] prints it, which is what the [csv]
    module does with them. *)
Definition expected_cell (record : list (string * pyval)) (key : string) : string :=
  match find (fun kv => String.eqb key (fst kv)) record with
  | Some (_, PStr s) => s
  | Some (_, PNone) => EmptyString
  | Some (_, v) => str v
  | None => EmptyString
  end.

(** The six columns, in their fixed order. *)
Definition expected_row (record : list (string * pyval)) : list string :=
  [expected_cell record "id"; expected_cell record "name";
   expected_cell record "fullName"; expected_cell record "siteRole";
   expected_cell record "lastLogin"; expected_cell record "email"].

(** The header row, then one row for each record, in the order of the
    records. *)
Definition expected_table (records : list (list (string * pyval))) : list (list string) :=
  ["id"; "name"; "fullName"; "siteRole"; "lastLogin"; "email"] :: map expected_row records.

End Program.

(* ------------------------------------------------------------------ *)
(** ** Canned runs

    A runtime whose parsers know a handful of bodies by name, and far ends
    that answer from a script: the n-th request gets the n-th answer, and
    [fallback] once the script is used up. *)

Module Mock.

Definition ada : pyval :=
  PDict [("id", PStr "u-1"); ("name", PStr "ada"); ("siteRole", PStr "Creator")].
Definition bob : pyval :=
  PDict [("id", PStr "u-2"); ("name", PStr "bob"); ("siteRole", PStr "Viewer");
         ("email", PStr "bob@example.com")].
Definition cy : pyval :=
  PDict [("id", PStr "u-3"); ("name", PStr "cy"); ("fullName", PStr "Twombly, Cy");
         ("lastLogin", PNone)].

(** 2500 users for the page-count run. *)
Definition crowd : list pyval := repeat ada 2500.

Definition user_element (u : pyval) : element :=
  Element (ET.qname "user")
          (match u with
           | PDict d => map (fun kv => (fst kv, match snd kv with PStr x => x | _ => EmptyString end)) d
           | _ => []
           end) [].

Definition users_document (batch : list pyval) : element :=
  Element (ET.qname "tsResponse") []
    [Element (ET.qname "pagination")
             [("pageNumber", "1"); ("pageSize", "2"); ("totalAvailable", "3")] [];
     Element (ET.qname "users") [] (map user_element batch)].

Definition users_json (batch : list pyval) (total : string) : pyval :=
  PDict [("pagination", PDict [("pageNumber", PStr "1"); ("pageSize", PStr "2");
                               ("totalAvailable", PStr total)]);
         ("users", PDict [("user", PList batch)])].

Definition credentials_document : element :=
  Element (ET.qname "tsResponse") []
    [Element (ET.qname "credentials") [("token", "tok-123")]
       [Element (ET.qname "site") [("id", "site-1"); ("contentUrl", "")] [];
        Element (ET.qname "user") [("id", "u-0")] []]].

Definition tableau_secret : pyval :=
  PDict [("SERVER", PStr "tableau.example.com"); ("PAT_NAME", PStr "exporter");
         ("PAT_SECRET", PStr "s3cr3t"); ("API_VERSION", PStr "3.21");
         ("VERIFY_SSL", PStr " Yes ")].

Definition s3_secret : pyval := PDict [("S3_BUCKET", PStr "exports")].

Definition loads (s : string) : option pyval :=
  if String.eqb s "page 2 of population" then Some (users_json [cy] "3")
  else if String.eqb s "empty page of population" then Some (users_json [] "3")
  else if String.eqb s "page without pagination"
       then Some (PDict [("users", PDict [("user", PList [ada; bob])])])
  else if String.eqb s "page 1 of crowd" then Some (users_json (firstn 1000 crowd) "2500")
  else if String.eqb s "page 2 of crowd"
       then Some (users_json (firstn 1000 (skipn 1000 crowd)) "2500")
  else if String.eqb s "page 3 of crowd"
       then Some (users_json (firstn 1000 (skipn 2000 crowd)) "2500")
  else if String.eqb s "tableau secret" then Some tableau_secret
  else if String.eqb s "s3 secret" then Some s3_secret
  else None.

Definition fromstring (s : string) : option element :=
  if String.eqb s "page 1 of population" then Some (users_document [ada; bob])
  else if String.eqb s "signed in" then Some credentials_document
  else None.

(** The codec of the canned runs, whose texts are ASCII: a character is one
    byte.  The byte [0xFF], which no UTF-8 text holds, is what the strict
    decoder refuses. *)
Definition encode (s : string) : option bytes := Some (list_byte_of_string s).

Definition decode (b : bytes) : option string :=
  if existsb (Byte.eqb Byte.xff) b then None else Some (string_of_list_byte b).

Definition runtime : Runtime := {|
  json_loads := loads;
  ET_fromstring := fromstring;
  int_of_str := fun s => option_map Z.of_int (NilEmpty.int_of_string s);
  str_of_other := fun _ => "?";
  utf8_encode := encode;
  utf8_decode_replace := string_of_list_byte;
  utf8_decode := decode
|}.

Definition env (name : string) : option string :=
  if String.eqb name "TABLEAU_SECRET_NAME" then Some "prod/tableau"
  else if String.eqb name "S3_SECRET_NAME" then Some "prod/s3"
  else None.

Definition secret_store (name : string) : result secret_value :=
  if String.eqb name "prod/tableau" then Ok (mkSecret (Some "tableau secret") None)
  else if String.eqb name "prod/s3" then Ok (mkSecret None (Some (list_byte_of_string "s3 secret")))
  else Raise (ClientError "ResourceNotFoundException").

Definition scripted (script : list urlopen_result) (fallback : urlopen_result) : Platform := {|
  Net := nat;
  urlopen := fun _ _ _ n => (nth n script fallback, S n);
  environ := env;
  get_secret_value := secret_store;
  s3_refuses := fun _ => None
|}.

Definition json_answer (body : string) : urlopen_result :=
  Responded 200 [("Content-Type", "application/json;charset=utf-8")] (list_byte_of_string body).

Definition xml_answer (body : string) : urlopen_result :=
  Responded 200 [("content-type", "application/xml;charset=utf-8")] (list_byte_of_string body).

Definition not_acceptable : urlopen_result := HTTPError 406 None [].

Definition server_error : urlopen_result :=
  HTTPError 500 (Some [("Content-Type", "text/html")])
            (list_byte_of_string "<html>Internal Server Error</html>").

Definition unreachable : urlopen_result := Failed (ConnectionError "unreachable").

(** Three users in pages of two: page 1 only as XML, page 2 as JSON, and
    empty JSON pages ever after. *)
Definition population_server : Platform :=
  scripted [not_acceptable; xml_answer "page 1 of population";
            json_answer "page 2 of population"]
           (json_answer "empty page of population").

(** 2500 users in pages of 1000, all as JSON. *)
Definition crowd_server : Platform :=
  scripted [json_answer "page 1 of crowd"; json_answer "page 2 of crowd";
            json_answer "page 3 of crowd"] unreachable.

(** Neither format works for the first page. *)
Definition refusing_server : Platform :=
  scripted [not_acceptable; server_error] unreachable.

(** A JSON page that says nothing about pagination. *)
Definition terse_server : Platform :=
  scripted [json_answer "page without pagination"] unreachable.

(** Sign-in is refused. *)
Definition locked_server : Platform :=
  scripted [HTTPError 401 (Some [("Content-Type", "application/xml")])
                      (list_byte_of_string "<error/>")] unreachable.

(** The site does not exist. *)
Definition missing_site_server : Platform :=
  scripted [HTTPError 404 (Some [("content-type", "text/plain")])
                      (list_byte_of_string "no such site")] unreachable.

(** Nothing answers. *)
Definition dead_server : Platform := scripted [] unreachable.

(** Sign-in works, the first page of users does not. *)
Definition flaky_server : Platform :=
  scripted [xml_answer "signed in"; not_acceptable; server_error] unreachable.

Definition server : string := "tableau.example.com".
Definition site : string := "site-1".
Definition token : string := "tok-123".

(** A run starts with the module's defaults and an empty bucket. *)
Definition start (P : Platform) (n : @Net P) : @world P :=
  mkWorld n "3.19" true [] [].

(** A third XML-only user, and a population served as XML. *)
Definition dee : pyval :=
  PDict [("id", PStr "u-4"); ("name", PStr "dee"); ("siteRole", PStr "Explorer")].

Definition markup_population : list pyval := [ada; bob; dee].

(** [loads] with the bodies of the further runs. *)
(** A Tableau secret that sets the API version and the TLS flag but names
    no server. *)
Definition headless_secret : pyval :=
  PDict [("API_VERSION", PStr "3.25"); ("VERIFY_SSL", PStr "no");
         ("PAT_NAME", PStr "exporter"); ("PAT_SECRET", PStr "s3cr3t")].

Definition loads_more (s : string) : option pyval :=
  if String.eqb s "error object" then Some (PDict [("error", PStr "maintenance")])
  else if String.eqb s "empty page of crowd" then Some (users_json [] "2500")
  else if String.eqb s "sparse page 1" then Some (users_json [ada] "3")
  else if String.eqb s "sparse page 2" then Some (users_json [bob] "3")
  else if String.eqb s "sparse page 3" then Some (users_json [cy] "3")
  else if String.eqb s "headless secret" then Some headless_secret
  else loads s.

Definition fromstring_more (s : string) : option element :=
  if String.eqb s "page 2 of markup population" then Some (users_document [dee])
  else if String.eqb s "empty page of markup population" then Some (users_document [])
  else if String.eqb s "no users element"
       then Some (Element (ET.qname "tsResponse") [] [])
  else if String.eqb s "sparse markup page 1" then Some (users_document [ada])
  else if String.eqb s "sparse markup page 2" then Some (users_document [bob])
  else if String.eqb s "sparse markup page 3" then Some (users_document [dee])
  else fromstring s.

Definition runtime_more : Runtime := {|
  json_loads := loads_more;
  ET_fromstring := fromstring_more;
  int_of_str := fun s => option_map Z.of_int (NilEmpty.int_of_string s);
  str_of_other := fun _ => "?";
  utf8_encode := encode;
  utf8_decode_replace := string_of_list_byte;
  utf8_decode := decode
|}.

(** A JSON content type on a body that is not JSON. *)
Definition garbled_server : Platform :=
  scripted [json_answer "<html>maintenance</html>"] unreachable.

(** A JSON object that has neither users nor pagination. *)
Definition error_object_server : Platform :=
  scripted [json_answer "error object"] unreachable.

(** The same full XML page of two users, whatever is asked. *)
Definition endless_server : Platform :=
  scripted [] (xml_answer "page 1 of population").

(** 2500 users in pages of 1000 as JSON, and empty pages ever after. *)
Definition crowd_json_server : Platform :=
  scripted [json_answer "page 1 of crowd"; json_answer "page 2 of crowd";
            json_answer "page 3 of crowd"]
           (json_answer "empty page of crowd").

Definition crowd_ready (page : Z) (n : nat) : Prop :=
  Z.of_nat n = page - 1 \/ (4 <= page /\ (3 <= n)%nat).

(** Three users in pages of two, XML only; whatever comes after the script
    is an empty XML page. *)
Definition markup_server : Platform :=
  scripted [not_acceptable; xml_answer "page 1 of population";
            not_acceptable; xml_answer "page 2 of markup population"]
           (xml_answer "empty page of markup population").

Definition markup_ready (page : Z) (n : nat) : Prop :=
  (page = 1 /\ n = 0%nat) \/ (page = 2 /\ n = 2%nat) \/ (3 <= page /\ (4 <= n)%nat).

(** Sign-in works and the only page of users comes as XML. *)
Definition working_server : Platform :=
  scripted [xml_answer "signed in"; not_acceptable; xml_answer "page 1 of population"]
           unreachable.

(** No environment variable is set. *)
Definition bare_platform : Platform := {|
  Net := nat;
  urlopen := fun _ _ _ n => (unreachable, S n);
  environ := fun _ => None;
  get_secret_value := secret_store;
  s3_refuses := fun _ => None
|}.

(** The Tableau secret lists no server. *)
Definition headless_platform : Platform := {|
  Net := nat;
  urlopen := fun _ _ _ n => (unreachable, S n);
  environ := env;
  get_secret_value := fun name =>
    if String.eqb name "prod/tableau" then Ok (mkSecret (Some "headless secret") None)
    else secret_store name;
  s3_refuses := fun _ => None
|}.

(** The Tableau secret has its text and, next to it, a binary form that is
    not UTF-8. *)
Definition doubled_platform : Platform := {|
  Net := nat;
  urlopen := fun _ _ _ n => (unreachable, S n);
  environ := env;
  get_secret_value := fun name =>
    if String.eqb name "prod/tableau"
    then Ok (mkSecret (Some "tableau secret") (Some [Byte.xff; Byte.xfe]))
    else secret_store name;
  s3_refuses := fun _ => None
|}.







(** The pages [population_server] holds, the total it reports and the format
    of each page. *)
Definition population_book (page : nat) : list pyval :=
  match page with
  | 1%nat => [ada; bob]
  | 2%nat => [cy]
  | _ => []
  end.

Definition population_as_json (page : nat) : bool :=
  match page with
  | 1%nat => false
  | _ => true
  end.

(** Which page [population_server] is about to be asked for, by the number
    of requests it has answered. *)
Definition population_ready (page n : nat) : Prop :=
  (page = 1 /\ n = 0)%nat \/ (page = 2 /\ n = 2)%nat \/ (3 <= page /\ 3 <= n)%nat.

(** Neither JSON nor a [users] element: the XML answer is an empty
    response. *)
Definition hollow_server : Platform :=
  scripted [not_acceptable; xml_answer "no users element"] unreachable.

End Mock.

(* ------------------------------------------------------------------ *)
(** ** Properties *)

Section Properties.

Context {R : Runtime} {P : Platform}.

Lemma append_assoc (a b c : string) : (a ++ b) ++ c = a ++ (b ++ c).
Proof. induction a as [|x a IH]; cbn; [reflexivity | now rewrite IH]. Qed.

Lemma append_nil_r (a : string) : a ++ EmptyString = a.
Proof. induction a as [|x a IH]; cbn; [reflexivity | now rewrite IH]. Qed.

(* ---------------------------------------------------------------- *)
(** *** One request, one iteration *)

Lemma http_request_frame method url hdrs body timeout w o w' :
  _http_request method url hdrs body timeout w = (o, w') ->
  API_VERSION w' = API_VERSION w /\ VERIFY_SSL w' = VERIFY_SSL w /\
  s3_objects w' = s3_objects w /\
  exists r, wire w' = (wire w ++ [(mkRequest method url hdrs body, r)])%list /\
            o = match r with Ok a => Returns a | Raise e => Raises e end.
Proof.
  unfold _http_request. destruct (urlopen _ _ _ _) as [answer n].
  match goal with |- lift ?r _ = _ -> _ => remember r as res end.
  clear Heqres. intros H.
  destruct res; cbn in H; inversion H; subst; cbn; repeat split; eauto.
Qed.

Lemma users_loop_json fuel server site_id token page_size users page w st ct tx w1 :
  _http_request "GET" (page_url w server site_id page_size page)
                (json_headers token) None 30 w = (Returns (st, ct, tx), w1) ->
  json_ok st ct = true ->
  users_loop (S fuel) server site_id token page_size users page w =
  match json_page tx with
  | Ok (batch, items, total) =>
      if (page * page_size >=? total) || is_empty batch
      then (Returns (users ++ items)%list, w1)
      else users_loop fuel server site_id token page_size (users ++ items)%list (page + 1) w1
  | Raise e => (Raises e, w1)
  end.
Proof.
  intros Hreq Hok. cbn [users_loop]. unfold bind at 1. cbn [_api_base get_world bind ret].
  unfold bind at 1. unfold page_url, api_base in Hreq. rewrite Hreq. rewrite Hok.
  unfold json_page.
  destruct (json_loads tx) as [data|]; cbn; [|reflexivity].
  unfold bind at 1. destruct (Py.get data "users" _) as [users_obj|]; cbn; [|reflexivity].
  unfold bind at 1. destruct (Py.get users_obj "user" _) as [batch|]; cbn; [|reflexivity].
  unfold bind at 1. destruct (Py.iter batch) as [items|]; cbn; [|reflexivity].
  unfold bind at 1. destruct (Py.get data "pagination" _) as [pagination|]; cbn; [|reflexivity].
  unfold bind at 1. destruct (Py.len batch) as [n|]; cbn; [|reflexivity].
  unfold bind at 1. destruct (Py.get pagination "totalAvailable" _) as [total_v|]; cbn; [|reflexivity].
  unfold bind at 1. destruct (int total_v) as [total|]; cbn; [|reflexivity].
  destruct ((page * page_size >=? total) || is_empty batch); reflexivity.
Qed.

Lemma users_loop_xml fuel server site_id token page_size users page w
    st ct tx w1 st2 ct2 tx2 w2 :
  _http_request "GET" (page_url w server site_id page_size page)
                (json_headers token) None 30 w = (Returns (st, ct, tx), w1) ->
  json_ok st ct = false ->
  _http_request "GET" (page_url w server site_id page_size page)
                (xml_headers token) None 30 w1 = (Returns (st2, ct2, tx2), w2) ->
  users_loop (S fuel) server site_id token page_size users page w =
  if xml_bad st2 ct2
  then (Raises (RuntimeError (failure_message "/users" st2 ct2 tx2)), w2)
  else match xml_page tx2 with
       | Ok batch =>
           if is_nil batch || (Z.of_nat (List.length batch) <? page_size)
           then (Returns (users ++ batch)%list, w2)
           else users_loop fuel server site_id token page_size (users ++ batch)%list (page + 1) w2
       | Raise e => (Raises e, w2)
       end.
Proof.
  intros Hreq Hno Hreq2. cbn [users_loop]. unfold bind at 1. cbn [_api_base get_world bind ret].
  unfold bind at 1. unfold page_url, api_base in Hreq, Hreq2. rewrite Hreq. rewrite Hno.
  unfold bind at 1. rewrite Hreq2.
  destruct (xml_bad st2 ct2); [reflexivity|].
  unfold xml_page. destruct (ET_fromstring tx2) as [root|]; [|reflexivity].
  cbn [or_raise lift rbind]. unfold bind at 1. cbn [ret].
  match goal with |- context [is_nil ?b || ?c] => destruct (is_nil b || c); reflexivity end.
Qed.

(** When the first request of an iteration raises, so does the loop. *)
Lemma users_loop_json_raises fuel server site_id token page_size users page w e w1 :
  _http_request "GET" (page_url w server site_id page_size page)
                (json_headers token) None 30 w = (Raises e, w1) ->
  users_loop (S fuel) server site_id token page_size users page w = (Raises e, w1).
Proof.
  intros Hreq. cbn [users_loop]. unfold bind at 1. cbn [_api_base get_world bind ret].
  unfold bind at 1. unfold page_url, api_base in Hreq. rewrite Hreq. reflexivity.
Qed.

Lemma users_loop_xml_raises fuel server site_id token page_size users page w
    st ct tx w1 e w2 :
  _http_request "GET" (page_url w server site_id page_size page)
                (json_headers token) None 30 w = (Returns (st, ct, tx), w1) ->
  json_ok st ct = false ->
  _http_request "GET" (page_url w server site_id page_size page)
                (xml_headers token) None 30 w1 = (Raises e, w2) ->
  users_loop (S fuel) server site_id token page_size users page w = (Raises e, w2).
Proof.
  intros Hreq Hno Hreq2. cbn [users_loop]. unfold bind at 1. cbn [_api_base get_world bind ret].
  unfold bind at 1. unfold page_url, api_base in Hreq, Hreq2. rewrite Hreq. rewrite Hno.
  unfold bind at 1. rewrite Hreq2. reflexivity.
Qed.

(** [_http_request] never runs out of fuel: it returns or raises. *)
Lemma http_request_cases method url hdrs body timeout w :
  (exists r w', _http_request method url hdrs body timeout w = (Returns r, w')) \/
  (exists e w', _http_request method url hdrs body timeout w = (Raises e, w')).
Proof.
  unfold _http_request. destruct (urlopen _ _ _ _) as [answer n].
  destruct answer; cbn; [left | left | right]; eexists _, _; reflexivity.
Qed.

Lemma http_request_returns method url hdrs body timeout w r w' :
  _http_request method url hdrs body timeout w = (Returns r, w') ->
  wire w' = (wire w ++ [(mkRequest method url hdrs body, Ok r)])%list /\
  API_VERSION w' = API_VERSION w /\ VERIFY_SSL w' = VERIFY_SSL w /\
  s3_objects w' = s3_objects w.
Proof.
  intros H. destruct (http_request_frame _ _ _ _ _ _ _ _ H) as (Ha & Hv & Hs & r0 & Hw & Ho).
  destruct r0; inversion Ho; subst. auto.
Qed.

Lemma http_request_raises method url hdrs body timeout w e w' :
  _http_request method url hdrs body timeout w = (Raises e, w') ->
  wire w' = (wire w ++ [(mkRequest method url hdrs body, Raise e)])%list /\
  API_VERSION w' = API_VERSION w /\ VERIFY_SSL w' = VERIFY_SSL w /\
  s3_objects w' = s3_objects w.
Proof.
  intros H. destruct (http_request_frame _ _ _ _ _ _ _ _ H) as (Ha & Hv & Hs & r0 & Hw & Ho).
  destruct r0; inversion Ho; subst. auto.
Qed.

Lemma page_url_same w w' server site_id page_size :
  API_VERSION w' = API_VERSION w ->
  page_url w' server site_id page_size = page_url w server site_id page_size.
Proof. intros H. unfold page_url, api_base. rewrite H. reflexivity. Qed.

(** The tests of the loop, spelled out. *)
Lemma json_ok_true st ct :
  json_ok st ct = true <->
  st = 200 /\ Str.startswith "application/json" (Str.lower ct) = true.
Proof.
  unfold json_ok. rewrite andb_true_iff, Z.eqb_eq. reflexivity.
Qed.

Lemma json_ok_false st ct :
  json_ok st ct = false <->
  st <> 200 \/ Str.startswith "application/json" (Str.lower ct) = false.
Proof.
  unfold json_ok. rewrite andb_false_iff, Z.eqb_neq. reflexivity.
Qed.

Lemma xml_bad_true st ct :
  xml_bad st ct = true <->
  st <> 200 \/ Str.contains "xml" (Str.lower ct) = false.
Proof.
  unfold xml_bad. rewrite orb_true_iff, !negb_true_iff, Z.eqb_neq. reflexivity.
Qed.

Lemma xml_bad_false st ct :
  xml_bad st ct = false <->
  st = 200 /\ Str.contains "xml" (Str.lower ct) = true.
Proof.
  unfold xml_bad. rewrite orb_false_iff, !negb_false_iff, Z.eqb_eq. reflexivity.
Qed.

(** The URL the loop asks for, character by character. *)
Lemma page_url_literal w server site_id page_size page :
  page_url w server site_id page_size page
  = "https://" ++ server ++ "/api/" ++ API_VERSION w ++ "/sites/" ++ site_id ++
    "/users?pageSize=" ++ Str.of_Z page_size ++ "&pageNumber=" ++ Str.of_Z page.
Proof.
  unfold page_url, api_base, users_path. rewrite !append_assoc. reflexivity.
Qed.

Lemma negotiated_ext (f g : Z -> string) token page exchanges :
  (forall p, f p = g p) ->
  negotiated f token page exchanges -> negotiated g token page exchanges.
Proof.
  intros Hfg H. induction H as [page | page st ct tx rest Hst Hct _ IH | page e
                               | page st ct tx answer rest Hno _ IH];
    rewrite ?Hfg.
  - constructor.
  - apply neg_json; assumption.
  - apply neg_json_raised.
  - apply neg_fallback; assumption.
Qed.

(** Whatever the far end answers, the exchanges of the loop are negotiated
    page by page. *)
Lemma users_loop_negotiated fuel server site_id token page_size users page w :
  exists exchanges,
    wire (snd (users_loop fuel server site_id token page_size users page w))
    = (wire w ++ exchanges)%list /\
    negotiated (page_url w server site_id page_size) token page exchanges.
Proof.
  revert users page w. induction fuel as [|fuel IH]; intros users page w.
  - exists []. cbn. rewrite app_nil_r. split; [reflexivity | constructor].
  - destruct (http_request_cases "GET" (page_url w server site_id page_size page)
                (json_headers token) None 30 w) as [([[st ct] tx] & w1 & H1) | (e & w1 & H1)].
    + destruct (http_request_returns _ _ _ _ _ _ _ _ H1) as (Hw1 & Ha1 & _).
      destruct (json_ok st ct) eqn:Hok.
      * pose proof (proj1 (json_ok_true st ct) Hok) as [Hst Hct].
        rewrite (users_loop_json _ _ _ _ _ _ _ _ _ _ _ _ H1 Hok).
        destruct (json_page tx) as [[[batch items] total]|e].
        -- destruct ((page * page_size >=? total) || is_empty batch).
           ++ eexists. cbn. split; [exact Hw1|].
              apply neg_json; [exact Hst | exact Hct | constructor].
           ++ destruct (IH (users ++ items)%list (page + 1) w1) as (evs & Hevs & Hneg).
              eexists. rewrite Hevs, Hw1, <- app_assoc. split; [reflexivity|].
              cbn. apply neg_json; [exact Hst | exact Hct |].
              rewrite <- (page_url_same _ _ server site_id page_size Ha1). exact Hneg.
        -- eexists. cbn. split; [exact Hw1|].
           apply neg_json; [exact Hst | exact Hct | constructor].
      * pose proof (proj1 (json_ok_false st ct) Hok) as Hno.
        destruct (http_request_cases "GET" (page_url w server site_id page_size page)
                    (xml_headers token) None 30 w1) as [([[st2 ct2] tx2] & w2 & H2) | (e & w2 & H2)].
        -- destruct (http_request_returns _ _ _ _ _ _ _ _ H2) as (Hw2 & Ha2 & _).
           rewrite (users_loop_xml _ _ _ _ _ _ _ _ _ _ _ _ _ _ _ _ H1 Hok H2).
           assert (Hfin : forall o, exists exchanges,
                     wire (snd (o : outcome (list pyval), w2)) = (wire w ++ exchanges)%list /\
                     negotiated (page_url w server site_id page_size) token page exchanges).
           { intros o. eexists. cbn. rewrite Hw2, Hw1, <- app_assoc. split; [reflexivity|].
             cbn. apply neg_fallback; [exact Hno | constructor]. }
           destruct (xml_bad st2 ct2); [apply Hfin|].
           destruct (xml_page tx2) as [batch|e]; [|apply Hfin].
           destruct (is_nil batch || (Z.of_nat (List.length batch) <? page_size)); [apply Hfin|].
           destruct (IH (users ++ batch)%list (page + 1) w2) as (evs & Hevs & Hneg).
           eexists. rewrite Hevs, Hw2, Hw1, <- !app_assoc. split; [reflexivity|].
           cbn. apply neg_fallback; [exact Hno|].
           rewrite <- (page_url_same w w2 server site_id page_size); [exact Hneg|congruence].
        -- destruct (http_request_raises _ _ _ _ _ _ _ _ H2) as (Hw2 & _).
           rewrite (users_loop_xml_raises _ _ _ _ _ _ _ _ _ _ _ _ _ _ H1 Hok H2).
           eexists. cbn. rewrite Hw2, Hw1, <- app_assoc. split; [reflexivity|].
           cbn. apply neg_fallback; [exact Hno | constructor].
    + destruct (http_request_raises _ _ _ _ _ _ _ _ H1) as (Hw1 & _).
      rewrite (users_loop_json_raises _ _ _ _ _ _ _ _ _ _ H1).
      eexists. cbn. split; [exact Hw1|]. constructor.
Qed.

(** C6: whatever the far end answers, the exchanges [list_site_users] makes
    are negotiated page by page.  Each page is first asked for with
    [Accept: application/json], also the pages that follow one served as XML;
    the request with [Accept: application/xml] for a page comes only right
    after the answer to the JSON request for that same page was not HTTP 200
    with a JSON content type, and it goes to the same URL. *)
Theorem format_is_negotiated_on_every_page
    fuel server site_id token page_size users page w :
  exists exchanges,
    wire (snd (users_loop fuel server site_id token page_size users page w))
    = (wire w ++ exchanges)%list /\
    negotiated
      (fun p => "https://" ++ server ++ "/api/" ++ API_VERSION w ++ "/sites/" ++ site_id ++
                "/users?pageSize=" ++ Str.of_Z page_size ++ "&pageNumber=" ++ Str.of_Z p)
      token page exchanges.
Proof.
  destruct (users_loop_negotiated fuel server site_id token page_size users page w)
    as (exchanges & Hwire & Hneg).
  exists exchanges. split; [exact Hwire|].
  eapply negotiated_ext; [|exact Hneg].
  intros p. apply page_url_literal.
Qed.

(* ---------------------------------------------------------------- *)
(** *** Pages of a population *)

Lemma firstn_then_slice {A} (a b : nat) (l : list A) :
  (firstn a l ++ firstn b (skipn a l))%list = firstn (a + b) l.
Proof.
  revert l. induction a as [|a IH]; intros l; [reflexivity|].
  destruct l as [|x l]; cbn.
  - now rewrite firstn_nil.
  - now rewrite IH.
Qed.

Lemma page_slice_length pop page_size page :
  0 <= page_size -> 1 <= page ->
  Z.of_nat (List.length (page_slice pop page_size page))
  = Z.min page_size (Z.max 0 (Z.of_nat (List.length pop) - (page - 1) * page_size)).
Proof.
  intros Hps Hp. unfold page_slice. rewrite length_firstn, length_skipn. nia.
Qed.

Lemma page_slice_accumulates pop page_size page :
  0 <= page_size -> 1 <= page ->
  (firstn (Z.to_nat ((page - 1) * page_size)) pop ++ page_slice pop page_size page)%list
  = firstn (Z.to_nat (page * page_size)) pop.
Proof.
  intros Hps Hp. unfold page_slice. rewrite firstn_then_slice. f_equal. nia.
Qed.

Lemma firstn_everything {A} (pop : list A) k :
  Z.of_nat (List.length pop) <= k -> firstn (Z.to_nat k) pop = pop.
Proof. intros H. apply firstn_all2. lia. Qed.

Lemma pages_needed n page_size page :
  0 < page_size -> (page - 1) * page_size <= n -> page <= n / page_size + 1.
Proof.
  intros Hps H.
  assert (page - 1 <= n / page_size); [|lia].
  apply Z.div_le_lower_bound; lia.
Qed.

Lemma is_nil_length {A} (l : list A) : is_nil l = true <-> List.length l = 0%nat.
Proof. destruct l; cbn; split; congruence. Qed.

(** Whatever the far end does, what the loop returns is what it had
    accumulated followed by the batches of the exchanges it made, in the
    order it made them: no record is dropped, repeated or moved. *)
Lemma users_loop_accumulates fuel server site_id token page_size :
  forall users page w returned w',
    users_loop fuel server site_id token page_size users page w = (Returns returned, w') ->
    exists exchanges,
      wire w' = (wire w ++ exchanges)%list /\
      returned = (users ++ flat_map batch_of exchanges)%list.
Proof.
  induction fuel as [|fuel IH]; intros users page w returned w' Hrun; [discriminate|].
  destruct (http_request_cases "GET" (page_url w server site_id page_size page)
              (json_headers token) None 30 w) as [([[st ct] tx] & w1 & H1) | (e & w1 & H1)].
  - destruct (http_request_returns _ _ _ _ _ _ _ _ H1) as (Hw1 & _).
    destruct (json_ok st ct) eqn:Hok.
    + rewrite (users_loop_json _ _ _ _ _ _ _ _ _ _ _ _ H1 Hok) in Hrun.
      destruct (json_page tx) as [[[batch items] total]|e] eqn:Hpage; [|discriminate].
      assert (Hone : batch_of (pair (B := result response)
                                      (mkRequest "GET" (page_url w server site_id page_size page)
                                         (json_headers token) None)
                                      (Ok (A := response) (st, ct, tx))) = items).
      { unfold batch_of. cbn. rewrite Hok, Hpage. reflexivity. }
      destruct ((page * page_size >=? total) || is_empty batch).
      * injection Hrun as <- <-. eexists. split; [exact Hw1|].
        cbn [flat_map]. rewrite Hone, app_nil_r. reflexivity.
      * destruct (IH _ _ _ _ _ Hrun) as (evs & Hwire & Hres).
        eexists. rewrite Hwire, Hw1, <- app_assoc. split; [reflexivity|].
        cbn [app flat_map]. rewrite Hone, Hres, <- app_assoc. reflexivity.
    + destruct (http_request_cases "GET" (page_url w server site_id page_size page)
                  (xml_headers token) None 30 w1) as [([[st2 ct2] tx2] & w2 & H2) | (e & w2 & H2)].
      * destruct (http_request_returns _ _ _ _ _ _ _ _ H2) as (Hw2 & _).
        rewrite (users_loop_xml _ _ _ _ _ _ _ _ _ _ _ _ _ _ _ _ H1 Hok H2) in Hrun.
        destruct (xml_bad st2 ct2) eqn:Hbad; [discriminate|].
        destruct (xml_page tx2) as [batch|e] eqn:Hpage; [|discriminate].
        assert (Hone : batch_of (pair (B := result response)
                                      (mkRequest "GET" (page_url w server site_id page_size page)
                                           (json_headers token) None)
                                      (Ok (A := response) (st, ct, tx))) = []).
        { unfold batch_of. cbn. rewrite Hok. reflexivity. }
        assert (Htwo : batch_of (pair (B := result response)
                                      (mkRequest "GET" (page_url w server site_id page_size page)
                                           (xml_headers token) None)
                                      (Ok (A := response) (st2, ct2, tx2))) = batch).
        { unfold batch_of. cbn. rewrite Hbad, Hpage. reflexivity. }
        destruct (is_nil batch || (Z.of_nat (List.length batch) <? page_size)).
        -- injection Hrun as <- <-. eexists. rewrite Hw2, Hw1, <- app_assoc. split; [reflexivity|].
           cbn [app flat_map]. rewrite Hone, Htwo, app_nil_r. reflexivity.
        -- destruct (IH _ _ _ _ _ Hrun) as (evs & Hwire & Hres).
           eexists. rewrite Hwire, Hw2, Hw1, <- !app_assoc. split; [reflexivity|].
           cbn [app flat_map]. rewrite Hone, Htwo, Hres, <- app_assoc. reflexivity.
      * rewrite (users_loop_xml_raises _ _ _ _ _ _ _ _ _ _ _ _ _ _ H1 Hok H2) in Hrun.
        discriminate.
  - rewrite (users_loop_json_raises _ _ _ _ _ _ _ _ _ _ H1) in Hrun. discriminate.
Qed.

(* ---------------------------------------------------------------- *)
(** *** The loop against a far end described page by page *)

Lemma json_reply_step items total server site_id token page_size page w w'
    fuel users :
  json_reply items total server site_id token page_size page w w' ->
  exists ct tx,
    users_loop (S fuel) server site_id token page_size users (Z.of_nat page) w
    = (if (Z.of_nat page * page_size >=? total) || is_empty (PList items)
       then (Returns (users ++ items)%list, w')
       else users_loop fuel server site_id token page_size (users ++ items)%list
                       (Z.of_nat page + 1) w') /\
    wire w' = (wire w ++
               [(json_request w server site_id token page_size (Z.of_nat page),
                 Ok (200, ct, tx))])%list.
Proof.
  intros (ct & tx & H1 & Hct & Hpage).
  rewrite <- page_url_literal in H1.
  assert (Hok : json_ok 200 ct = true) by (apply json_ok_true; auto).
  destruct (http_request_returns _ _ _ _ _ _ _ _ H1) as (Hw1 & _).
  exists ct, tx. split; [|exact Hw1].
  rewrite (users_loop_json _ _ _ _ _ _ _ _ _ _ _ _ H1 Hok), Hpage. reflexivity.
Qed.

Lemma xml_reply_step items server site_id token page_size page w w'
    fuel users :
  xml_reply items server site_id token page_size page w w' ->
  exists a b,
    users_loop (S fuel) server site_id token page_size users (Z.of_nat page) w
    = (if is_nil items || (Z.of_nat (List.length items) <? page_size)
       then (Returns (users ++ items)%list, w')
       else users_loop fuel server site_id token page_size (users ++ items)%list
                       (Z.of_nat page + 1) w') /\
    wire w' = (wire w ++
               [(json_request w server site_id token page_size (Z.of_nat page), a);
                (xml_request w server site_id token page_size (Z.of_nat page), b)])%list.
Proof.
  intros (st & ct & tx & w1 & ct2 & tx2 & H1 & Hno & H2 & Hct2 & Hpage).
  rewrite <- page_url_literal in H1, H2.
  assert (Hok : json_ok st ct = false) by (apply json_ok_false; exact Hno).
  assert (Hgood : xml_bad 200 ct2 = false) by (apply xml_bad_false; auto).
  destruct (http_request_returns _ _ _ _ _ _ _ _ H1) as (Hw1 & _).
  destruct (http_request_returns _ _ _ _ _ _ _ _ H2) as (Hw2 & _).
  exists (Ok (st, ct, tx)), (Ok (200, ct2, tx2)).
  split; [|rewrite Hw2, Hw1, <- app_assoc; reflexivity].
  rewrite (users_loop_xml _ _ _ _ _ _ _ _ _ _ _ _ _ _ _ _ H1 Hok H2), Hgood, Hpage.
  reflexivity.
Qed.

Lemma is_empty_list (l : list pyval) : is_empty (PList l) = true <-> l = [].
Proof. destruct l; cbn; split; congruence. Qed.

Lemma is_nil_nil {A} (l : list A) : is_nil l = true <-> l = [].
Proof. destruct l; cbn; split; congruence. Qed.

(** Started at [page], the loop fetches the pages up to the first one that
    meets the stop test of its format, and returns what it had followed by
    the batches of those pages.  When the pages after [last] are empty that
    page is [last + 1] at the latest. *)
Lemma users_loop_hands_out
    ready book total as_json server site_id token page_size (last : nat) :
  hands_out ready book total as_json server site_id token page_size ->
  (forall page, (last < page)%nat -> book page = []) ->
  forall fuel page w users,
    (1 <= page)%nat -> ready page (net w) ->
    (last + 2 <= fuel + page)%nat -> (1 <= fuel)%nat ->
    exists m w' exchanges,
      (page + m <= Nat.max page (last + 1))%nat /\
      users_loop fuel server site_id token page_size users (Z.of_nat page) w
      = (Returns (users ++ flat_map book (seq page (S m)))%list, w') /\
      wire w' = (wire w ++ exchanges)%list /\
      (List.length exchanges <= 2 * S m)%nat /\
      (if as_json (page + m)%nat
       then total (page + m)%nat <= Z.of_nat (page + m) * page_size
            \/ book (page + m)%nat = []
       else book (page + m)%nat = []
            \/ Z.of_nat (List.length (book (page + m)%nat)) < page_size) /\
      (forall j, (page <= j < page + m)%nat ->
         if as_json j
         then Z.of_nat j * page_size < total j /\ book j <> []
         else book j <> [] /\ page_size <= Z.of_nat (List.length (book j))).
Proof.
  intros Hout Hend.
  induction fuel as [|fuel IH]; intros page w users Hp Hready Hfuel Hone; [lia|].
  destruct (Hout page w Hp Hready) as (w' & Hans & Hready').
  destruct (as_json page) eqn:Hfmt.
  - destruct (json_reply_step _ _ _ _ _ _ _ _ _ fuel users Hans) as (ct & tx & Hrun & Hwire).
    destruct ((Z.of_nat page * page_size >=? total page) || is_empty (PList (book page)))
      eqn:Hstop.
    + exists 0%nat, w'. eexists. rewrite Nat.add_0_r, Hfmt.
      split; [lia|]. split; [rewrite Hrun; cbn [seq flat_map]; now rewrite app_nil_r|].
      split; [exact Hwire|]. split; [cbn [List.length]; lia|]. split; [|intros j Hj; lia].
      apply orb_true_iff in Hstop. destruct Hstop as [Hge | Hemp].
      * left. rewrite Z.geb_leb in Hge. apply Z.leb_le in Hge. exact Hge.
      * right. apply is_empty_list. exact Hemp.
    + apply orb_false_iff in Hstop. destruct Hstop as [Hlt Hne].
      rewrite Z.geb_leb in Hlt. apply Z.leb_gt in Hlt.
      assert (Hbook : book page <> [])
        by (intros E; apply is_empty_list in E; congruence).
      assert (Hin : (page <= last)%nat).
      { destruct (Nat.leb_spec page last) as [H|H]; [exact H|]. elim Hbook. apply Hend. exact H. }
      replace (Z.of_nat page + 1) with (Z.of_nat (S page)) in Hrun by lia.
      destruct (IH (S page) w' (users ++ book page)%list ltac:(lia) Hready' ltac:(lia) ltac:(lia))
        as (m & w'' & evs & Hlast & Hrest & Hwire' & Hcount & Hstops & Hgoes).
      exists (S m), w''. eexists.
      replace (page + S m)%nat with (S page + m)%nat by lia.
      split; [lia|]. split.
      { rewrite Hrun, Hrest. cbn [seq flat_map]. now rewrite <- app_assoc. }
      split; [rewrite Hwire', Hwire, <- app_assoc; reflexivity|].
      split; [cbn [List.length app]; lia|]. split; [exact Hstops|].
      intros j Hj. destruct (Nat.eq_dec j page) as [->|Hjp].
      * rewrite Hfmt. split; assumption.
      * apply Hgoes. lia.
  - destruct (xml_reply_step _ _ _ _ _ _ _ _ fuel users Hans) as (a & b & Hrun & Hwire).
    destruct (is_nil (book page) || (Z.of_nat (List.length (book page)) <? page_size))
      eqn:Hstop.
    + exists 0%nat, w'. eexists. rewrite Nat.add_0_r, Hfmt.
      split; [lia|]. split; [rewrite Hrun; cbn [seq flat_map]; now rewrite app_nil_r|].
      split; [exact Hwire|]. split; [cbn [List.length]; lia|]. split; [|intros j Hj; lia].
      apply orb_true_iff in Hstop. destruct Hstop as [Hemp | Hshort].
      * left. apply is_nil_nil. exact Hemp.
      * right. apply Z.ltb_lt. exact Hshort.
    + apply orb_false_iff in Hstop. destruct Hstop as [Hne Hfull].
      apply Z.ltb_ge in Hfull.
      assert (Hbook : book page <> [])
        by (intros E; apply is_nil_nil in E; congruence).
      assert (Hin : (page <= last)%nat).
      { destruct (Nat.leb_spec page last) as [H|H]; [exact H|]. elim Hbook. apply Hend. exact H. }
      replace (Z.of_nat page + 1) with (Z.of_nat (S page)) in Hrun by lia.
      destruct (IH (S page) w' (users ++ book page)%list ltac:(lia) Hready' ltac:(lia) ltac:(lia))
        as (m & w'' & evs & Hlast & Hrest & Hwire' & Hcount & Hstops & Hgoes).
      exists (S m), w''. eexists.
      replace (page + S m)%nat with (S page + m)%nat by lia.
      split; [lia|]. split.
      { rewrite Hrun, Hrest. cbn [seq flat_map]. now rewrite <- app_assoc. }
      split; [rewrite Hwire', Hwire, <- !app_assoc; reflexivity|].
      split; [cbn [List.length app]; lia|]. split; [exact Hstops|].
      intros j Hj. destruct (Nat.eq_dec j page) as [->|Hjp].
      * rewrite Hfmt. split; assumption.
      * apply Hgoes. lia.
Qed.

(** C3: against a far end that spreads a finite population over its pages
    (the pages after [last] are empty), in whatever sizes, formats and reported
    totals, the loop terminates: with fuel for [last + 1] iterations it returns
    after some page [k <= last + 1], with the batches of pages 1 to [k], having
    made at most two requests for each.  Page [k] is the first page that
    meets the stop test of its format: served as JSON, [k * page_size] has
    reached the reported total or the batch is empty; served as XML, the
    batch is empty or shorter than the page size. *)
Theorem pagination_terminates
    ready book total as_json server site_id token page_size (last : nat) w fuel :
  hands_out ready book total as_json server site_id token page_size ->
  ready 1%nat (net w) ->
  (forall page, (last < page)%nat -> book page = []) ->
  (last + 1 <= fuel)%nat ->
  exists (k : nat) w' exchanges,
    (1 <= k <= last + 1)%nat /\
    list_site_users fuel server site_id token page_size w
    = (Returns (flat_map book (seq 1 k)), w') /\
    wire w' = (wire w ++ exchanges)%list /\
    (List.length exchanges <= 2 * k)%nat /\
    (if as_json k
     then total k <= Z.of_nat k * page_size \/ book k = []
     else book k = [] \/ Z.of_nat (List.length (book k)) < page_size) /\
    (forall j, (1 <= j < k)%nat ->
       if as_json j
       then Z.of_nat j * page_size < total j /\ book j <> []
       else book j <> [] /\ page_size <= Z.of_nat (List.length (book j))).
Proof.
  intros Hout Hready Hend Hfuel.
  destruct (users_loop_hands_out ready book total as_json server site_id token page_size last
              Hout Hend fuel 1%nat w [] ltac:(lia) Hready ltac:(lia) ltac:(lia))
    as (m & w' & evs & Hlast & Hrun & Hwire & Hcount & Hstops & Hgoes).
  exists (S m), w', evs. change (1 + m)%nat with (S m) in *.
  split; [lia|]. split; [exact Hrun|]. split; [exact Hwire|]. split; [exact Hcount|].
  split; [exact Hstops|]. intros j Hj. apply Hgoes. lia.
Qed.


Lemma nonempty_batch (l : list pyval) :
  (0 < List.length l)%nat -> is_empty (PList l) = false.
Proof. destruct l; cbn; [lia | reflexivity]. Qed.

(** C5: with a page size of 1000 and a far end that answers the JSON
    requests for the URLs ending in [pageNumber=1], [pageNumber=2] and
    [pageNumber=3] with full pages (1000, 1000 and the remaining 500 records),
    each reporting a total of 2500, [list_site_users] makes exactly these
    three requests, in this order, and returns the 2500 records. *)
Theorem three_pages_for_2500_users
    server site_id token w fuel url1 url2 url3
    ct1 tx1 items1 w1 ct2 tx2 items2 w2 ct3 tx3 items3 w3 :
  url1 = "https://" ++ server ++ "/api/" ++ API_VERSION w ++ "/sites/" ++ site_id ++
         "/users?pageSize=1000&pageNumber=1" ->
  url2 = "https://" ++ server ++ "/api/" ++ API_VERSION w ++ "/sites/" ++ site_id ++
         "/users?pageSize=1000&pageNumber=2" ->
  url3 = "https://" ++ server ++ "/api/" ++ API_VERSION w ++ "/sites/" ++ site_id ++
         "/users?pageSize=1000&pageNumber=3" ->
  _http_request "GET" url1 [("X-Tableau-Auth", token); ("Accept", "application/json")]
                None 30 w = (Returns (200, ct1, tx1), w1) ->
  Str.startswith "application/json" (Str.lower ct1) = true ->
  json_page tx1 = Ok (PList items1, items1, 2500) ->
  List.length items1 = 1000%nat ->
  _http_request "GET" url2 [("X-Tableau-Auth", token); ("Accept", "application/json")]
                None 30 w1 = (Returns (200, ct2, tx2), w2) ->
  Str.startswith "application/json" (Str.lower ct2) = true ->
  json_page tx2 = Ok (PList items2, items2, 2500) ->
  List.length items2 = 1000%nat ->
  _http_request "GET" url3 [("X-Tableau-Auth", token); ("Accept", "application/json")]
                None 30 w2 = (Returns (200, ct3, tx3), w3) ->
  Str.startswith "application/json" (Str.lower ct3) = true ->
  json_page tx3 = Ok (PList items3, items3, 2500) ->
  List.length items3 = 500%nat ->
  (3 <= fuel)%nat ->
  list_site_users fuel server site_id token 1000 w
  = (Returns (items1 ++ items2 ++ items3)%list, w3) /\
  List.length (items1 ++ items2 ++ items3)%list = 2500%nat /\
  wire w3
  = (wire w ++
     [(mkRequest "GET" url1 [("X-Tableau-Auth", token); ("Accept", "application/json")] None,
       Ok (200, ct1, tx1));
      (mkRequest "GET" url2 [("X-Tableau-Auth", token); ("Accept", "application/json")] None,
       Ok (200, ct2, tx2));
      (mkRequest "GET" url3 [("X-Tableau-Auth", token); ("Accept", "application/json")] None,
       Ok (200, ct3, tx3))])%list.
Proof.
  intros U1 U2 U3 H1 Hct1 Hp1 L1 H2 Hct2 Hp2 L2 H3 Hct3 Hp3 L3 Hfuel.
  destruct fuel as [|[|[|fuel]]]; try lia.
  destruct (http_request_returns _ _ _ _ _ _ _ _ H1) as (Hw1 & Ha1 & _).
  destruct (http_request_returns _ _ _ _ _ _ _ _ H2) as (Hw2 & Ha2 & _).
  destruct (http_request_returns _ _ _ _ _ _ _ _ H3) as (Hw3 & Ha3 & _).
  assert (E1 : page_url w server site_id 1000 1 = url1)
    by (rewrite page_url_literal, U1; reflexivity).
  assert (E2 : page_url w1 server site_id 1000 (1 + 1) = url2)
    by (rewrite page_url_literal, Ha1, U2; reflexivity).
  assert (E3 : page_url w2 server site_id 1000 (1 + 1 + 1) = url3)
    by (rewrite page_url_literal, Ha2, Ha1, U3; reflexivity).
  rewrite <- E1 in H1. rewrite <- E2 in H2. rewrite <- E3 in H3.
  assert (Hok1 : json_ok 200 ct1 = true) by (apply json_ok_true; auto).
  assert (Hok2 : json_ok 200 ct2 = true) by (apply json_ok_true; auto).
  assert (Hok3 : json_ok 200 ct3 = true) by (apply json_ok_true; auto).
  split; [|split].
  - unfold list_site_users.
    rewrite (users_loop_json _ _ _ _ _ _ _ _ _ _ _ _ H1 Hok1), Hp1.
    rewrite nonempty_batch by lia.
    replace (1 * 1000 >=? 2500) with false by reflexivity. cbn [orb].
    rewrite (users_loop_json _ _ _ _ _ _ _ _ _ _ _ _ H2 Hok2), Hp2.
    rewrite nonempty_batch by lia.
    replace ((1 + 1) * 1000 >=? 2500) with false by reflexivity. cbn [orb].
    rewrite (users_loop_json _ _ _ _ _ _ _ _ _ _ _ _ H3 Hok3), Hp3.
    replace ((1 + 1 + 1) * 1000 >=? 2500) with true by reflexivity. cbn [orb app].
    rewrite <- app_assoc. reflexivity.
  - rewrite !length_app. lia.
  - rewrite Hw3, Hw2, Hw1, <- !app_assoc. reflexivity.
Qed.

Lemma users_loop_wire fuel server site_id token page_size users page w :
  exists exchanges,
    wire (snd (users_loop fuel server site_id token page_size users page w))
    = (wire w ++ exchanges)%list.
Proof.
  destruct (users_loop_negotiated fuel server site_id token page_size users page w)
    as (exchanges & Hwire & _).
  exists exchanges. exact Hwire.
Qed.

(** C4: on a page whose answer to the request with [Accept: application/json]
    is not HTTP 200 with a JSON content type, the loop goes on to ask for the
    same URL, and so for the same page number, with
    [Accept: application/xml], whatever comes of it; and when the answer to
    that request is not HTTP 200 with [xml] in its content type either, the
    run stops there with a [RuntimeError] that names the status, the content
    type and the first 400 characters of the body of the XML answer. *)
Theorem markup_fallback_then_list_error
    fuel server site_id token page_size users page w url st ct tx w1 :
  url = "https://" ++ server ++ "/api/" ++ API_VERSION w ++ "/sites/" ++ site_id ++
        "/users?pageSize=" ++ Str.of_Z page_size ++ "&pageNumber=" ++ Str.of_Z page ->
  _http_request "GET" url [("X-Tableau-Auth", token); ("Accept", "application/json")]
                None 30 w = (Returns (st, ct, tx), w1) ->
  st <> 200 \/ Str.startswith "application/json" (Str.lower ct) = false ->
  (exists answer rest,
     wire (snd (users_loop (S fuel) server site_id token page_size users page w))
     = (wire w ++
        (mkRequest "GET" url [("X-Tableau-Auth", token); ("Accept", "application/json")] None,
         Ok (st, ct, tx))
        :: (mkRequest "GET" url [("X-Tableau-Auth", token); ("Accept", "application/xml")] None,
            answer)
        :: rest)%list) /\
  (forall st2 ct2 tx2 w2,
     _http_request "GET" url [("X-Tableau-Auth", token); ("Accept", "application/xml")]
                   None 30 w1 = (Returns (st2, ct2, tx2), w2) ->
     st2 <> 200 \/ Str.contains "xml" (Str.lower ct2) = false ->
     users_loop (S fuel) server site_id token page_size users page w
     = (Raises (RuntimeError ("/users failed: HTTP " ++ Str.of_Z st2 ++
                              ", Content-Type=" ++ ct2 ++ Str.lf ++ Str.take 400 tx2)),
        w2) /\
     wire w2
     = (wire w ++
        [(mkRequest "GET" url [("X-Tableau-Auth", token); ("Accept", "application/json")] None,
          Ok (st, ct, tx));
         (mkRequest "GET" url [("X-Tableau-Auth", token); ("Accept", "application/xml")] None,
          Ok (st2, ct2, tx2))])%list).
Proof.
  intros U H1 Hno. rewrite <- page_url_literal in U. subst url.
  assert (Hok : json_ok st ct = false) by (apply json_ok_false; exact Hno).
  destruct (http_request_returns _ _ _ _ _ _ _ _ H1) as (Hw1 & _).
  split.
  - destruct (http_request_cases "GET" (page_url w server site_id page_size page)
                (xml_headers token) None 30 w1) as [([[st2 ct2] tx2] & w2 & H2) | (e & w2 & H2)].
    + destruct (http_request_returns _ _ _ _ _ _ _ _ H2) as (Hw2 & _).
      rewrite (users_loop_xml _ _ _ _ _ _ _ _ _ _ _ _ _ _ _ _ H1 Hok H2).
      assert (Hfin : forall o : outcome (list pyval), exists answer rest,
                wire (snd (o, w2))
                = (wire w ++
                   (mkRequest "GET" (page_url w server site_id page_size page)
                              [("X-Tableau-Auth", token); ("Accept", "application/json")] None,
                    Ok (st, ct, tx))
                   :: (mkRequest "GET" (page_url w server site_id page_size page)
                                 [("X-Tableau-Auth", token); ("Accept", "application/xml")] None,
                       answer)
                   :: rest)%list).
      { intros o. exists (Ok (st2, ct2, tx2)), []. cbn [snd].
        rewrite Hw2, Hw1, <- app_assoc. reflexivity. }
      destruct (xml_bad st2 ct2); [apply Hfin|].
      destruct (xml_page tx2) as [batch|e]; [|apply Hfin].
      destruct (is_nil batch || (Z.of_nat (List.length batch) <? page_size)); [apply Hfin|].
      destruct (users_loop_wire fuel server site_id token page_size (users ++ batch)%list
                                (page + 1) w2) as (evs & Hevs).
      exists (Ok (st2, ct2, tx2)), evs.
      rewrite Hevs, Hw2, Hw1, <- !app_assoc. reflexivity.
    + destruct (http_request_raises _ _ _ _ _ _ _ _ H2) as (Hw2 & _).
      rewrite (users_loop_xml_raises _ _ _ _ _ _ _ _ _ _ _ _ _ _ H1 Hok H2).
      exists (Raise e), []. cbn [snd]. rewrite Hw2, Hw1, <- app_assoc. reflexivity.
  - intros st2 ct2 tx2 w2 H2 Hbad.
    assert (Hbad' : xml_bad st2 ct2 = true) by (apply xml_bad_true; exact Hbad).
    destruct (http_request_returns _ _ _ _ _ _ _ _ H2) as (Hw2 & _).
    rewrite (users_loop_xml _ _ _ _ _ _ _ _ _ _ _ _ _ _ _ _ H1 Hok H2), Hbad'.
    split; [reflexivity|].
    rewrite Hw2, Hw1, <- app_assoc. reflexivity.
Qed.


(** C9: an answer with an error status comes back from [_http_request] as
    the same triple of status, content type and body text as any other
    answer; only a failure to get an answer at all is raised. *)
Theorem http_error_status_is_returned method url hdrs body timeout w :
  match fst (urlopen (mkRequest method url hdrs body) (VERIFY_SSL w) timeout (net w)) with
  | Responded status h payload =>
      fst (_http_request method url hdrs body timeout w)
      = Returns (status, headers_get h "Content-Type" "", utf8_decode_replace payload)
  | HTTPError code h payload =>
      fst (_http_request method url hdrs body timeout w)
      = Returns (code,
                 match h with Some h' => headers_get h' "Content-Type" "" | None => "" end,
                 utf8_decode_replace payload)
  | Failed e =>
      fst (_http_request method url hdrs body timeout w) = Raises e
  end.
Proof.
  unfold _http_request.
  destruct (urlopen _ _ _ _) as [[status h payload | code [[|x h]|] payload | e] n];
    reflexivity.
Qed.

(* ---------------------------------------------------------------- *)
(** *** Reading back what the [csv] writer wrote *)

Lemma rrun_app (a b : string) (st : Csv.rstate) :
  Csv.rrun (a ++ b) st = Csv.rrun b (Csv.rrun a st).
Proof. revert st. induction a as [|c a IH]; intros st; cbn; [reflexivity | apply IH]. Qed.

Lemma csv_snoc_append (acc : string) (c : ascii) (v : string) :
  Csv.snoc acc c ++ v = acc ++ String c v.
Proof. unfold Csv.snoc. rewrite append_assoc. reflexivity. Qed.

Lemma not_special (c : ascii) :
  Csv.special c = false ->
  Ascii.eqb c Csv.comma = false /\ Ascii.eqb c Csv.quotechar = false /\
  Csv.is_cr c = false /\ Csv.is_lf c = false.
Proof.
  unfold Csv.special, Csv.is_cr, Csv.is_lf. intros H.
  apply orb_false_iff in H. destruct H as [H Hlf].
  apply orb_false_iff in H. destruct H as [H Hcr].
  apply orb_false_iff in H. destruct H as [Hc Hq]. auto.
Qed.

Lemma rrun_unquoted (s acc : string) row rows :
  Csv.has_special s = false ->
  Csv.rrun s (Csv.mkR Csv.Unquoted acc row rows)
  = Csv.mkR Csv.Unquoted (acc ++ s) row rows.
Proof.
  revert acc. induction s as [|c s IH]; intros acc H; cbn [Csv.rrun].
  - now rewrite append_nil_r.
  - cbn [Csv.has_special] in H. apply orb_false_iff in H. destruct H as [Hc Hs].
    destruct (not_special c Hc) as (H1 & H2 & H3 & H4).
    unfold Csv.rstep. cbn [Csv.r_mode Csv.r_cell Csv.r_row Csv.r_rows].
    rewrite H1, H3, H4, (IH _ Hs), csv_snoc_append. reflexivity.
Qed.

Lemma rstep_quoted (c : ascii) acc row rows :
  Csv.rstep (Csv.mkR Csv.Quoted acc row rows) c
  = if Ascii.eqb c Csv.quotechar then Csv.mkR Csv.QuoteSeen acc row rows
    else Csv.mkR Csv.Quoted (Csv.snoc acc c) row rows.
Proof. reflexivity. Qed.

Lemma rstep_quote_seen (c : ascii) acc row rows :
  Ascii.eqb c Csv.quotechar = true ->
  Csv.rstep (Csv.mkR Csv.QuoteSeen acc row rows) c
  = Csv.mkR Csv.Quoted (Csv.snoc acc c) row rows.
Proof.
  intros H. unfold Csv.rstep. cbn [Csv.r_mode Csv.r_cell Csv.r_row Csv.r_rows].
  rewrite H. reflexivity.
Qed.

Lemma rrun_quoted (s acc : string) row rows :
  Csv.rrun (Csv.double_quotes s) (Csv.mkR Csv.Quoted acc row rows)
  = Csv.mkR Csv.Quoted (acc ++ s) row rows.
Proof.
  revert acc. induction s as [|c s IH]; intros acc; cbn [Csv.double_quotes Csv.rrun].
  - now rewrite append_nil_r.
  - destruct (Ascii.eqb c Csv.quotechar) eqn:Hq; cbn [Csv.rrun]; rewrite rstep_quoted, Hq.
    + rewrite (rstep_quote_seen c _ _ _ Hq), IH, csv_snoc_append. reflexivity.
    + rewrite IH, csv_snoc_append. reflexivity.
Qed.

Lemma rrun_cell_first (s : string) rows :
  exists m,
    Csv.rrun (Csv.cell s) (Csv.mkR Csv.RowStart EmptyString [] rows)
    = Csv.mkR m s [] rows /\
    (Csv.closing m \/ m = Csv.RowStart).
Proof.
  unfold Csv.cell. destruct (Csv.has_special s) eqn:Hs.
  - exists Csv.QuoteSeen. split; [|left; right; right; reflexivity].
    cbn [Csv.rrun]. change (String Csv.quotechar EmptyString) with (EmptyString ++ String Csv.quotechar EmptyString).
    cbn [append]. rewrite rrun_app.
    change (Csv.rstep (Csv.mkR Csv.RowStart EmptyString [] rows) Csv.quotechar)
      with (Csv.mkR Csv.Quoted EmptyString [] rows).
    rewrite rrun_quoted. reflexivity.
  - destruct s as [|c s].
    + exists Csv.RowStart. split; [reflexivity | right; reflexivity].
    + exists Csv.Unquoted. split; [|left; right; left; reflexivity].
      cbn [Csv.has_special] in Hs. apply orb_false_iff in Hs. destruct Hs as [Hc Hs].
      destruct (not_special c Hc) as (H1 & H2 & H3 & H4).
      cbn [Csv.rrun]. unfold Csv.rstep at 1. cbn [Csv.r_mode Csv.r_cell Csv.r_row Csv.r_rows].
      rewrite H1, H2, H3, H4. rewrite (rrun_unquoted _ _ _ _ Hs). reflexivity.
Qed.

Lemma rrun_cell_next (s : string) row rows :
  exists m,
    Csv.rrun (Csv.cell s) (Csv.mkR Csv.FieldStart EmptyString row rows)
    = Csv.mkR m s row rows /\ Csv.closing m.
Proof.
  unfold Csv.cell. destruct (Csv.has_special s) eqn:Hs.
  - exists Csv.QuoteSeen. split; [|right; right; reflexivity].
    cbn [Csv.rrun]. rewrite rrun_app.
    change (Csv.rstep (Csv.mkR Csv.FieldStart EmptyString row rows) Csv.quotechar)
      with (Csv.mkR Csv.Quoted EmptyString row rows).
    rewrite rrun_quoted. reflexivity.
  - destruct s as [|c s].
    + exists Csv.FieldStart. split; [reflexivity | left; reflexivity].
    + exists Csv.Unquoted. split; [|right; left; reflexivity].
      cbn [Csv.has_special] in Hs. apply orb_false_iff in Hs. destruct Hs as [Hc Hs].
      destruct (not_special c Hc) as (H1 & H2 & H3 & H4).
      cbn [Csv.rrun]. unfold Csv.rstep at 1. cbn [Csv.r_mode Csv.r_cell Csv.r_row Csv.r_rows].
      rewrite H1, H2, H3, H4. rewrite (rrun_unquoted _ _ _ _ Hs). reflexivity.
Qed.

Lemma rstep_comma m s row rows :
  Csv.closing m \/ m = Csv.RowStart ->
  Csv.rstep (Csv.mkR m s row rows) Csv.comma
  = Csv.mkR Csv.FieldStart EmptyString (row ++ [s])%list rows.
Proof. intros [[-> | [-> | ->]] | ->]; reflexivity. Qed.

Lemma rrun_line_end m s row rows :
  Csv.closing m ->
  Csv.rrun Csv.lineterminator (Csv.mkR m s row rows)
  = Csv.mkR Csv.RowStart EmptyString [] (rows ++ [row ++ [s]])%list.
Proof. intros [-> | [-> | ->]]; reflexivity. Qed.

Lemma rrun_rest_of_row cells :
  cells <> [] ->
  forall row rows,
    Csv.rrun (Csv.join (map Csv.cell cells) ++ Csv.lineterminator)
             (Csv.mkR Csv.FieldStart EmptyString row rows)
    = Csv.mkR Csv.RowStart EmptyString [] (rows ++ [row ++ cells])%list.
Proof.
  induction cells as [|c cells IH]; intros Hne row rows; [congruence|].
  destruct cells as [|c2 cells].
  - cbn [map Csv.join]. rewrite rrun_app.
    destruct (rrun_cell_next c row rows) as (m & -> & Hm).
    apply rrun_line_end. exact Hm.
  - change (Csv.join (map Csv.cell (c :: c2 :: cells)))
      with (Csv.cell c ++ String Csv.comma (Csv.join (map Csv.cell (c2 :: cells)))).
    rewrite append_assoc, rrun_app.
    destruct (rrun_cell_next c row rows) as (m & -> & Hm).
    cbn [append Csv.rrun]. rewrite (rstep_comma m c row rows (or_introl Hm)).
    rewrite IH by discriminate. rewrite <- app_assoc. reflexivity.
Qed.

Lemma rrun_row cells rows :
  (2 <= List.length cells)%nat ->
  Csv.rrun (Csv.writerow cells) (Csv.mkR Csv.RowStart EmptyString [] rows)
  = Csv.mkR Csv.RowStart EmptyString [] (rows ++ [cells])%list.
Proof.
  intros Hlen. destruct cells as [|c [|c2 cells]]; cbn [List.length] in Hlen; try lia.
  replace (Csv.writerow (c :: c2 :: cells))
    with ((Csv.cell c ++ String Csv.comma (Csv.join (map Csv.cell (c2 :: cells))))
          ++ Csv.lineterminator) by (destruct c; reflexivity).
  rewrite append_assoc, rrun_app.
  destruct (rrun_cell_first c rows) as (m & -> & Hm).
  cbn [append Csv.rrun]. rewrite (rstep_comma m c [] rows Hm).
  rewrite rrun_rest_of_row by discriminate. reflexivity.
Qed.

Lemma rrun_document rows :
  Forall (fun row => (2 <= List.length row)%nat) rows ->
  forall rows0,
    Csv.rrun (csv_document rows) (Csv.mkR Csv.RowStart EmptyString [] rows0)
    = Csv.mkR Csv.RowStart EmptyString [] (rows0 ++ rows)%list.
Proof.
  induction 1 as [|row rows Hrow _ IH]; intros rows0; cbn [csv_document Csv.rrun].
  - now rewrite app_nil_r.
  - rewrite rrun_app, (rrun_row row rows0 Hrow), IH, <- app_assoc. reflexivity.
Qed.

(** Rows of two or more cells are read back as they were written. *)
Lemma csv_read_document rows :
  Forall (fun row => (2 <= List.length row)%nat) rows ->
  Csv.read (csv_document rows) = rows.
Proof.
  intros H. unfold Csv.read. rewrite (rrun_document rows H []). reflexivity.
Qed.

(* ---------------------------------------------------------------- *)
(** *** The CSV writer *)

Lemma row_of_dict d :
  row_of (PDict d) fields
  = Ok (map (fun k => (k, match Py.assoc k d with
                          | Some v => v
                          | None => PStr EmptyString
                          end)) fields).
Proof. reflexivity. Qed.

Lemma writerow_record d :
  rbind (row_of (PDict d) fields) (DictWriter_writerow fields)
  = Ok (Csv.writerow (record_row (PDict d))).
Proof. rewrite row_of_dict. reflexivity. Qed.

Lemma write_rows_dicts users :
  forallb Py.is_dict users = true ->
  forall buf, write_rows buf users = Ok (buf ++ csv_document (map record_row users)).
Proof.
  induction users as [|u users IH]; intros Hall buf.
  - cbn. now rewrite append_nil_r.
  - cbn [forallb] in Hall. apply andb_true_iff in Hall. destruct Hall as [Hu Hall].
    destruct u; try discriminate.
    cbn [write_rows]. pose proof (writerow_record d) as Hrow.
    destruct (row_of (PDict d) fields) as [rowdict|e]; cbn [rbind] in Hrow |- *; [|discriminate].
    rewrite Hrow. cbn [rbind]. rewrite (IH Hall).
    cbn [map csv_document]. now rewrite append_assoc.
Qed.

Lemma write_rows_not_dicts users :
  forallb Py.is_dict users = false ->
  forall buf, exists e, write_rows buf users = Raise e.
Proof.
  induction users as [|u users IH]; intros Hall buf; [discriminate|].
  cbn [forallb] in Hall. destruct (Py.is_dict u) eqn:Hu.
  - destruct u; try discriminate. cbn [write_rows].
    pose proof (writerow_record d) as Hrow.
    destruct (row_of (PDict d) fields) as [rowdict|e]; cbn [rbind] in Hrow |- *; [|discriminate].
    rewrite Hrow. cbn [rbind]. apply IH. exact Hall.
  - exists AttributeError. destruct u; try discriminate; reflexivity.
Qed.

Lemma write_csv_unfold users bucket w :
  write_csv_to_s3 users bucket w
  = match write_rows (Csv.writerow fields) users with
    | Ok buf =>
        match utf8_encode buf with
        | Some data =>
            let obj := mkPut bucket export_key data "text/csv; charset=utf-8" in
            match s3_refuses obj with
            | Some e => (Raises e, w)
            | None =>
                (Returns export_key,
                 mkWorld (net w) (API_VERSION w) (VERIFY_SSL w)
                         (s3_objects w ++ [obj])%list (wire w))
            end
        | None => (Raises UnicodeEncodeError, w)
        end
    | Raise e => (Raises e, w)
    end.
Proof.
  unfold write_csv_to_s3. unfold bind at 1.
  change (lift (DictWriter_writerow fields (combine fields (map PStr fields))) w)
    with (Returns (Csv.writerow fields), w).
  cbn iota. unfold bind at 1.
  destruct (write_rows (Csv.writerow fields) users) as [buf|e]; cbn [lift ret raise];
    [|reflexivity].
  unfold bind at 1.
  destruct (utf8_encode buf) as [data|]; cbn [or_raise lift ret raise]; [|reflexivity].
  unfold bind at 1, put_object. cbn zeta.
  change (HARD_CODED_PREFIX ++ "/tableau_server_users.csv") with export_key.
  destruct (s3_refuses _); reflexivity.
Qed.

Lemma write_csv_cases users bucket w :
  (exists data,
     forallb Py.is_dict users = true /\
     utf8_encode (csv_document (fields :: map record_row users)) = Some data /\
     write_csv_to_s3 users bucket w
     = (Returns export_key,
        mkWorld (net w) (API_VERSION w) (VERIFY_SSL w)
                (s3_objects w ++ [mkPut bucket export_key data "text/csv; charset=utf-8"])%list
                (wire w))) \/
  (exists e, write_csv_to_s3 users bucket w = (Raises e, w)).
Proof.
  rewrite write_csv_unfold.
  destruct (forallb Py.is_dict users) eqn:Hall.
  - rewrite (write_rows_dicts users Hall).
    change (Csv.writerow fields ++ csv_document (map record_row users))
      with (csv_document (fields :: map record_row users)).
    destruct (utf8_encode (csv_document (fields :: map record_row users))) as [data|].
    + cbn zeta. destruct (s3_refuses _) as [e|].
      * right. exists e. reflexivity.
      * left. exists data. repeat split; reflexivity.
    + right. exists UnicodeEncodeError. reflexivity.
  - destruct (write_rows_not_dicts users Hall (Csv.writerow fields)) as (e & He).
    rewrite He. right. exists e. reflexivity.
Qed.

(** The cells the writer is given are the cells the specification asks
    for. *)
Lemma expected_cell_lookup record key :
  expected_cell record key
  = csv_text (match Py.assoc key record with
              | Some v => v
              | None => PStr EmptyString
              end).
Proof.
  unfold expected_cell.
  induction record as [|[k v] record IH]; cbn [find Py.assoc fst]; [reflexivity|].
  destruct (String.eqb key k); [destruct v; reflexivity | exact IH].
Qed.

Lemma record_row_expected record : record_row (PDict record) = expected_row record.
Proof.
  unfold record_row, expected_row, fields. cbn [map Py.get].
  now rewrite !expected_cell_lookup.
Qed.

Lemma rows_expected records :
  fields :: map record_row (map PDict records) = expected_table records.
Proof.
  unfold expected_table. f_equal. rewrite map_map. apply map_ext. apply record_row_expected.
Qed.

Lemma all_dicts users :
  forallb Py.is_dict users = true -> exists records, users = map PDict records.
Proof.
  induction users as [|u users IH]; intros H; [exists []; reflexivity|].
  cbn [forallb] in H. apply andb_true_iff in H. destruct H as [Hu Hall].
  destruct (IH Hall) as (records & ->). destruct u; try discriminate.
  exists (d :: records). reflexivity.
Qed.

Lemma dicts_all records : forallb Py.is_dict (map PDict records) = true.
Proof. induction records as [|r records IH]; [reflexivity | exact IH]. Qed.

Lemma expected_table_rows records :
  Forall (fun row => (2 <= List.length row)%nat) (expected_table records).
Proof.
  constructor; [cbn; lia|]. apply Forall_forall. intros row Hin.
  apply in_map_iff in Hin. destruct Hin as (r & <- & _). cbn. lia.
Qed.

(** C7: for records that are dicts, the text [write_csv_to_s3] builds is the
    header row [id, name, fullName, siteRole, lastLogin, email] followed by
    one row per record, in the order of the input: read back, each row has
    the six cells in that order, a cell being the record's value for the key,
    or empty when the record lacks the key.  No record gives the header line
    alone.  That text, encoded, is what the call puts into the bucket; when
    the text cannot be encoded or the bucket refuses the put, the call raises
    and the bucket stays as it is. *)
Theorem csv_is_header_then_one_row_per_record records bucket w :
  Csv.read (csv_document (expected_table records)) = expected_table records /\
  csv_document (expected_table [])
  = "id,name,fullName,siteRole,lastLogin,email" ++ Str.cr ++ Str.lf /\
  match utf8_encode (csv_document (expected_table records)) with
  | Some data =>
      match s3_refuses (mkPut bucket "tableau/tableau_server_users.csv" data
                              "text/csv; charset=utf-8") with
      | None =>
          write_csv_to_s3 (map PDict records) bucket w
          = (Returns "tableau/tableau_server_users.csv",
             mkWorld (net w) (API_VERSION w) (VERIFY_SSL w)
                     (s3_objects w ++
                      [mkPut bucket "tableau/tableau_server_users.csv" data
                             "text/csv; charset=utf-8"])%list
                     (wire w))
      | Some e =>
          write_csv_to_s3 (map PDict records) bucket w = (Raises e, w)
      end
  | None =>
      write_csv_to_s3 (map PDict records) bucket w = (Raises UnicodeEncodeError, w)
  end.
Proof.
  split; [apply csv_read_document, expected_table_rows|]. split; [reflexivity|].
  rewrite write_csv_unfold, (write_rows_dicts _ (dicts_all records)).
  change (Csv.writerow fields ++ csv_document (map record_row (map PDict records)))
    with (csv_document (fields :: map record_row (map PDict records))).
  rewrite rows_expected.
  destruct (utf8_encode (csv_document (expected_table records))) as [data|]; [|reflexivity].
  cbn zeta. change export_key with "tableau/tableau_server_users.csv".
  destruct (s3_refuses _); reflexivity.
Qed.

(* ---------------------------------------------------------------- *)
(** *** What reaches the bucket *)

Lemma keeps_ret {A} (a : A) : keeps_bucket (ret a).
Proof. intros w. reflexivity. Qed.

Lemma keeps_raise {A} (e : exn) : keeps_bucket (raise (A:=A) e).
Proof. intros w. reflexivity. Qed.

Lemma keeps_out_of_fuel {A} : keeps_bucket (out_of_fuel (A:=A)).
Proof. intros w. reflexivity. Qed.

Lemma keeps_lift {A} (r : result A) : keeps_bucket (lift r).
Proof. destruct r; intros w; reflexivity. Qed.

Lemma keeps_get_world : keeps_bucket get_world.
Proof. intros w. reflexivity. Qed.

Lemma keeps_set_API_VERSION v : keeps_bucket (set_API_VERSION v).
Proof. intros w. reflexivity. Qed.

Lemma keeps_set_VERIFY_SSL b : keeps_bucket (set_VERIFY_SSL b).
Proof. intros w. reflexivity. Qed.

Lemma keeps_bind {A B} (c : M A) (k : A -> M B) :
  keeps_bucket c -> (forall a, keeps_bucket (k a)) -> keeps_bucket (bind c k).
Proof.
  intros Hc Hk w. unfold bind. specialize (Hc w).
  destruct (c w) as [[a| e |] w1]; cbn in Hc |- *; [|exact Hc|exact Hc].
  rewrite (Hk a w1). exact Hc.
Qed.

Lemma keeps_http_request method url hdrs body timeout :
  keeps_bucket (_http_request method url hdrs body timeout).
Proof.
  intros w. destruct (_http_request method url hdrs body timeout w) as [o w'] eqn:H.
  apply http_request_frame in H. cbn. tauto.
Qed.

Lemma keeps_api_base server : keeps_bucket (_api_base server).
Proof. intros w. reflexivity. Qed.

Create HintDb bucket.
#[local] Hint Resolve keeps_ret keeps_raise keeps_out_of_fuel keeps_lift keeps_get_world
  keeps_set_API_VERSION keeps_set_VERIFY_SSL keeps_http_request keeps_api_base : bucket.

Ltac keeps_step :=
  match goal with
  | |- keeps_bucket (bind _ _) => apply keeps_bind; [auto with bucket | intros ?]
  | |- keeps_bucket (let '(_, _) := ?x in _) => destruct x
  | |- keeps_bucket (if ?b then _ else _) => destruct b
  | |- keeps_bucket _ => solve [auto with bucket]
  end.

Lemma keeps_signin server pat_name pat_secret site_content_url :
  keeps_bucket (signin server pat_name pat_secret site_content_url).
Proof. unfold signin. repeat keeps_step. Qed.

Lemma keeps_users_loop fuel server site_id token page_size :
  forall users page, keeps_bucket (users_loop fuel server site_id token page_size users page).
Proof.
  induction fuel as [|fuel IH]; intros users page; cbn [users_loop].
  - auto with bucket.
  - repeat keeps_step; apply IH.
Qed.

Lemma keeps_handler_setup : keeps_bucket handler_setup.
Proof. unfold handler_setup. repeat keeps_step. Qed.

Lemma bind_assoc {A B C} (c : M A) (f : A -> M B) (g : B -> M C) w :
  bind (bind c f) g w = bind c (fun a => bind (f a) g) w.
Proof. unfold bind. destruct (c w) as [[a| e |] w1]; reflexivity. Qed.

Lemma bind_ext {A B} (c : M A) (f g : A -> M B) w :
  (forall a w1, f a w1 = g a w1) -> bind c f w = bind c g w.
Proof. intros H. unfold bind. destruct (c w) as [[a| e |] w1]; auto. Qed.

Lemma bind_ret_l {A B} (a : A) (f : A -> M B) w : bind (ret a) f w = f a w.
Proof. reflexivity. Qed.

(** The handler is its setup followed by the export. *)
Lemma lambda_handler_split fuel w :
  lambda_handler fuel w = bind handler_setup (handler_export fuel) w.
Proof.
  unfold lambda_handler, handler_setup.
  repeat (rewrite bind_assoc; apply bind_ext; intros ? ?).
  rewrite bind_ret_l. reflexivity.
Qed.

Lemma keeps_run {A} (c : M A) w o w' :
  keeps_bucket c -> c w = (o, w') -> s3_objects w' = s3_objects w.
Proof. intros Hc H. specialize (Hc w). rewrite H in Hc. exact Hc. Qed.

(** C8: once the handler has read its settings, an error raised by [signin]
    or by [list_site_users] is the error the handler raises, and nothing has
    been put into the bucket; whatever the outcome, the bucket is either
    untouched or holds one more object, the export of the complete list that
    [list_site_users] returned. *)
Theorem export_is_all_or_nothing fuel w cfg w0 :
  handler_setup w = (Returns cfg, w0) ->
  let server := str (cfg_server cfg) in
  let sign := signin server (str (cfg_pat_name cfg)) (str (cfg_pat_secret cfg))
                     (str (cfg_site_slug cfg)) in
  (forall e w1,
      sign w0 = (Raises e, w1) ->
      lambda_handler fuel w = (Raises e, w1) /\ s3_objects w1 = s3_objects w) /\
  (forall token site_id w1 e w2,
      sign w0 = (Returns (token, site_id), w1) ->
      list_site_users fuel server site_id token 1000 w1 = (Raises e, w2) ->
      lambda_handler fuel w = (Raises e, w2) /\ s3_objects w2 = s3_objects w) /\
  (forall o w',
      lambda_handler fuel w = (o, w') ->
      s3_objects w' = s3_objects w \/
      exists token site_id w1 users w2 r data,
        sign w0 = (Returns (token, site_id), w1) /\
        list_site_users fuel server site_id token 1000 w1 = (Returns users, w2) /\
        o = Returns r /\
        res_count r = Z.of_nat (List.length users) /\
        utf8_encode (csv_document (fields :: map record_row users)) = Some data /\
        s3_objects w'
        = (s3_objects w ++
           [mkPut (cfg_bucket cfg) export_key data "text/csv; charset=utf-8"])%list).
Proof.
  intros Hsetup server sign.
  pose proof (keeps_run _ _ _ _ keeps_handler_setup Hsetup) as K0.
  assert (Hsplit : lambda_handler fuel w = handler_export fuel cfg w0).
  { rewrite lambda_handler_split. unfold bind at 1. rewrite Hsetup. reflexivity. }
  rewrite Hsplit. unfold handler_export. fold server. fold sign.
  split; [|split].
  - intros e w1 Hsign.
    pose proof (keeps_run _ _ _ _ (keeps_signin _ _ _ _) Hsign) as K1.
    unfold bind at 1. rewrite Hsign. split; [reflexivity | congruence].
  - intros token site_id w1 e w2 Hsign Hlist.
    pose proof (keeps_run _ _ _ _ (keeps_signin _ _ _ _) Hsign) as K1.
    pose proof (keeps_run _ _ _ _ (keeps_users_loop _ _ _ _ _ _ _) Hlist) as K2.
    unfold bind at 1. rewrite Hsign. unfold bind at 1. rewrite Hlist.
    split; [reflexivity | congruence].
  - intros o w'. unfold bind at 1.
    destruct (sign w0) as [[[token site_id]| e |] w1] eqn:Hsign;
      pose proof (keeps_run _ _ _ _ (keeps_signin _ _ _ _) Hsign) as K1;
      try (intros H; inversion H; subst; left; congruence).
    unfold bind at 1.
    destruct (list_site_users fuel server site_id token 1000 w1) as [[users| e |] w2] eqn:Hlist;
      pose proof (keeps_run _ _ _ _ (keeps_users_loop _ _ _ _ _ _ _) Hlist) as K2;
      try (intros H; inversion H; subst; left; congruence).
    unfold bind at 1.
    destruct (write_csv_cases users (cfg_bucket cfg) w2)
      as [(data & _ & Henc & Hcsv) | (e & Hcsv)]; rewrite Hcsv.
    + cbn. intros H. inversion H; subst. right.
      exists token, site_id, w1, users, w2. eexists. exists data.
      repeat split; [exact Hlist | exact Henc |]. cbn [s3_objects]. congruence.
    + intros H. inversion H; subst. left. congruence.
Qed.

End Properties.

(* ------------------------------------------------------------------ *)
(** ** The sign-in body as a document *)

Section SigninBody.

Import Markup.

Lemma run_app (a b : string) (st : state) : run (a ++ b) st = run b (run a st).
Proof. revert st. induction a as [|c a IH]; intros st; cbn; [reflexivity | apply IH]. Qed.

Lemma snoc_append (acc : string) (c : ascii) (v : string) :
  snoc acc c ++ v = acc ++ String c v.
Proof. unfold snoc. rewrite append_assoc. reflexivity. Qed.

Lemma plain_char_step (c : ascii) name atts an acc stack root :
  plain_char c = true ->
  step (mkState (AttValue name atts an (ascii_of_nat 34) acc) stack root) c
  = mkState (AttValue name atts an (ascii_of_nat 34) (snoc acc c)) stack root.
Proof.
  destruct c as [[|] [|] [|] [|] [|] [|] [|] [|]]; intros H;
    first [discriminate H | reflexivity].
Qed.

(** Plain text inside a double-quoted attribute value is read as itself. *)
Lemma run_plain (v : string) name atts an acc stack root :
  plain v = true ->
  run v (mkState (AttValue name atts an (ascii_of_nat 34) acc) stack root)
  = mkState (AttValue name atts an (ascii_of_nat 34) (acc ++ v)) stack root.
Proof.
  revert acc. induction v as [|c v IH]; intros acc H; cbn [run].
  - now rewrite append_nil_r.
  - cbn [plain] in H. apply andb_true_iff in H. destruct H as [Hc Hv].
    rewrite (plain_char_step c _ _ _ _ _ _ Hc), (IH _ Hv), snoc_append. reflexivity.
Qed.

Ltac run_literal :=
  match goal with
  | |- context [run ?p (mkState ?m ?k ?r)] =>
      tryif is_var p then fail else
        let x := eval vm_compute in (run p (mkState m k r)) in
        change (run p (mkState m k r)) with x
  end.

(** C2, as the code has it: [signin] puts the three strings between the
    quotes as they are, so the body is the intended document, with the
    attribute values equal to the strings, when the strings are plain text
    for an attribute value. *)
Theorem signin_body_of_plain_strings pat_name pat_secret site_content_url :
  plain pat_name = true ->
  plain pat_secret = true ->
  plain site_content_url = true ->
  Markup.read (signin_body pat_name pat_secret site_content_url)
  = Some (signin_document pat_name pat_secret site_content_url).
Proof.
  intros Hn Hs Hc. unfold read, signin_body, initial. rewrite !run_app.
  repeat run_literal. rewrite (run_plain _ _ _ _ _ _ _ Hn).
  repeat run_literal. rewrite (run_plain _ _ _ _ _ _ _ Hs).
  repeat run_literal. rewrite (run_plain _ _ _ _ _ _ _ Hc).
  repeat run_literal. reflexivity.
Qed.

End SigninBody.

(* ------------------------------------------------------------------ *)
(** ** The properties on the canned runs *)

Import Mock.

Lemma population_server_hands_out :
  hands_out (R := runtime) (P := population_server) population_ready population_book
            (fun _ => 3) population_as_json server site token 2.
Proof.
  intros page [n a v objs log] Hp Hready. cbn [net] in Hready.
  destruct Hready as [[-> ->] | [[-> ->] | [Hp3 Hn3]]].
  - eexists. split.
    + cbn [population_as_json]. unfold xml_reply. do 6 eexists.
      split; [reflexivity|]. split; [left; discriminate|].
      split; [reflexivity|]. split; reflexivity.
    + right. left. split; reflexivity.
  - eexists. split.
    + cbn [population_as_json]. unfold json_reply. do 2 eexists.
      split; [reflexivity|]. split; reflexivity.
    + right. right. cbn. lia.
  - destruct page as [|[|[|page]]]; try lia. destruct n as [|[|[|n]]]; try lia.
    eexists. split.
    + cbn [population_as_json population_book]. unfold json_reply. do 2 eexists.
      split; [destruct n; reflexivity|]. split; reflexivity.
    + right. right. cbn. lia.
Qed.





Lemma pagination_terminates_witness :
  exists (k : nat) w' exchanges,
    (1 <= k <= 2 + 1)%nat /\
    list_site_users (R := runtime) (P := population_server) 3 server site token 2
                    (start population_server 0%nat)
    = (Returns (flat_map population_book (seq 1 k)), w') /\
    wire w' = (wire (start population_server 0%nat) ++ exchanges)%list /\
    (List.length exchanges <= 2 * k)%nat /\
    (if population_as_json k
     then 3 <= Z.of_nat k * 2 \/ population_book k = []
     else population_book k = [] \/ Z.of_nat (List.length (population_book k)) < 2) /\
    (forall j, (1 <= j < k)%nat ->
       if population_as_json j
       then Z.of_nat j * 2 < 3 /\ population_book j <> []
       else population_book j <> [] /\ 2 <= Z.of_nat (List.length (population_book j))).
Proof.
  apply (pagination_terminates (R := runtime) (P := population_server)
           population_ready population_book (fun _ => 3) population_as_json
           server site token 2 2 (start population_server 0%nat) 3).
  - exact population_server_hands_out.
  - left. split; reflexivity.
  - intros page Hp. destruct page as [|[|[|page]]]; try lia. reflexivity.
  - lia.
Defined.

(** The run against [population_server], request by request: page 1 is
    refused as JSON and served as XML, page 2 is asked for as JSON again. *)
Example population_run :
  let '(o, w') := list_site_users (R := runtime) (P := population_server) 2 server site token 2
                                  (start population_server 0%nat) in
  o = Returns [ada; bob; cy] /\
  map (fun x => (rq_url (fst x), Py.assoc "Accept" (rq_headers (fst x)))) (wire w')
  = [("https://tableau.example.com/api/3.19/sites/site-1/users?pageSize=2&pageNumber=1",
      Some "application/json");
     ("https://tableau.example.com/api/3.19/sites/site-1/users?pageSize=2&pageNumber=1",
      Some "application/xml");
     ("https://tableau.example.com/api/3.19/sites/site-1/users?pageSize=2&pageNumber=2",
      Some "application/json")].
Proof. vm_compute. split; reflexivity. Qed.

Lemma three_pages_for_2500_users_witness :
  exists w3,
    list_site_users (R := runtime) (P := crowd_server) 3 server site token 1000
                    (start crowd_server 0%nat)
    = (Returns (firstn 1000 crowd ++ firstn 1000 (skipn 1000 crowd)
                ++ firstn 1000 (skipn 2000 crowd))%list, w3) /\
    List.length (firstn 1000 crowd ++ firstn 1000 (skipn 1000 crowd)
                 ++ firstn 1000 (skipn 2000 crowd))%list = 2500%nat /\
    wire w3
    = (wire (start crowd_server 0%nat) ++
       [(mkRequest "GET"
           "https://tableau.example.com/api/3.19/sites/site-1/users?pageSize=1000&pageNumber=1"
           [("X-Tableau-Auth", "tok-123"); ("Accept", "application/json")] None,
         Ok (200, "application/json;charset=utf-8", "page 1 of crowd"));
        (mkRequest "GET"
           "https://tableau.example.com/api/3.19/sites/site-1/users?pageSize=1000&pageNumber=2"
           [("X-Tableau-Auth", "tok-123"); ("Accept", "application/json")] None,
         Ok (200, "application/json;charset=utf-8", "page 2 of crowd"));
        (mkRequest "GET"
           "https://tableau.example.com/api/3.19/sites/site-1/users?pageSize=1000&pageNumber=3"
           [("X-Tableau-Auth", "tok-123"); ("Accept", "application/json")] None,
         Ok (200, "application/json;charset=utf-8", "page 3 of crowd"))])%list.
Proof.
  eexists.
  eapply (three_pages_for_2500_users (R := runtime) (P := crowd_server)
            server site token (start crowd_server 0%nat) 3
            "https://tableau.example.com/api/3.19/sites/site-1/users?pageSize=1000&pageNumber=1"
            "https://tableau.example.com/api/3.19/sites/site-1/users?pageSize=1000&pageNumber=2"
            "https://tableau.example.com/api/3.19/sites/site-1/users?pageSize=1000&pageNumber=3"
            "application/json;charset=utf-8" "page 1 of crowd" (firstn 1000 crowd) _
            "application/json;charset=utf-8" "page 2 of crowd" (firstn 1000 (skipn 1000 crowd)) _
            "application/json;charset=utf-8" "page 3 of crowd" (firstn 1000 (skipn 2000 crowd))).
  - reflexivity.
  - reflexivity.
  - reflexivity.
  - reflexivity.
  - reflexivity.
  - vm_compute. reflexivity.
  - vm_compute. reflexivity.
  - reflexivity.
  - reflexivity.
  - vm_compute. reflexivity.
  - vm_compute. reflexivity.
  - reflexivity.
  - reflexivity.
  - vm_compute. reflexivity.
  - vm_compute. reflexivity.
  - lia.
Defined.

Lemma markup_fallback_then_list_error_witness :
  exists w2,
    users_loop (R := runtime) (P := refusing_server) 1 server site token 1000 [] 1
               (start refusing_server 0%nat)
    = (Raises (RuntimeError ("/users failed: HTTP 500, Content-Type=text/html" ++ Str.lf ++
                             "<html>Internal Server Error</html>")), w2) /\
    wire w2
    = (wire (start refusing_server 0%nat) ++
       [(mkRequest "GET"
           "https://tableau.example.com/api/3.19/sites/site-1/users?pageSize=1000&pageNumber=1"
           [("X-Tableau-Auth", "tok-123"); ("Accept", "application/json")] None,
         Ok (406, EmptyString, EmptyString));
        (mkRequest "GET"
           "https://tableau.example.com/api/3.19/sites/site-1/users?pageSize=1000&pageNumber=1"
           [("X-Tableau-Auth", "tok-123"); ("Accept", "application/xml")] None,
         Ok (500, "text/html", "<html>Internal Server Error</html>"))])%list.
Proof.
  eexists.
  edestruct (markup_fallback_then_list_error (R := runtime) (P := refusing_server)
               0 server site token 1000 [] 1 (start refusing_server 0%nat)
               "https://tableau.example.com/api/3.19/sites/site-1/users?pageSize=1000&pageNumber=1"
               406 EmptyString EmptyString) as [_ H].
  - reflexivity.
  - reflexivity.
  - left. discriminate.
  - apply (H 500 "text/html" "<html>Internal Server Error</html>").
    + reflexivity.
    + left. discriminate.
Defined.


Lemma csv_is_header_then_one_row_per_record_witness :
  Csv.read (csv_document
              (expected_table (R := runtime)
                 [[("id", PStr "u-1"); ("name", PStr "ada"); ("siteRole", PStr "Creator")];
                  [("id", PStr "u-3"); ("name", PStr "cy"); ("fullName", PStr "Twombly, Cy");
                   ("lastLogin", PNone)]]))
  = [["id"; "name"; "fullName"; "siteRole"; "lastLogin"; "email"];
     ["u-1"; "ada"; EmptyString; "Creator"; EmptyString; EmptyString];
     ["u-3"; "cy"; "Twombly, Cy"; EmptyString; EmptyString; EmptyString]] /\
  csv_document (expected_table (R := runtime) [])
  = "id,name,fullName,siteRole,lastLogin,email" ++ Str.cr ++ Str.lf /\
  write_csv_to_s3 (R := runtime) (P := terse_server) [ada; cy] (PStr "exports")
                  (start terse_server 0%nat)
  = (Returns "tableau/tableau_server_users.csv",
     mkWorld (P := terse_server) 0%nat "3.19" true
       [mkPut (PStr "exports") "tableau/tableau_server_users.csv"
              (list_byte_of_string
                 ("id,name,fullName,siteRole,lastLogin,email" ++ Str.cr ++ Str.lf ++
                  "u-1,ada,,Creator,," ++ Str.cr ++ Str.lf ++
                  "u-3,cy," ++ Str.dquote ++ "Twombly, Cy" ++ Str.dquote ++ ",,," ++
                  Str.cr ++ Str.lf))
              "text/csv; charset=utf-8"]
       []).
Proof.
  exact (csv_is_header_then_one_row_per_record (R := runtime) (P := terse_server)
           [[("id", PStr "u-1"); ("name", PStr "ada"); ("siteRole", PStr "Creator")];
            [("id", PStr "u-3"); ("name", PStr "cy"); ("fullName", PStr "Twombly, Cy");
             ("lastLogin", PNone)]]
           (PStr "exports") (start terse_server 0%nat)).
Defined.

(** The text written for [ada] and [cy]: absent keys and [None] give empty
    cells, and the cell with a comma is quoted. *)
Example exported_text :
  csv_document (fields :: map (record_row (R := runtime)) [ada; cy])
  = "id,name,fullName,siteRole,lastLogin,email" ++ Str.cr ++ Str.lf ++
    "u-1,ada,,Creator,," ++ Str.cr ++ Str.lf ++
    "u-3,cy," ++ Str.dquote ++ "Twombly, Cy" ++ Str.dquote ++ ",,," ++ Str.cr ++ Str.lf.
Proof. reflexivity. Qed.

Lemma export_is_all_or_nothing_witness :
  (exists w1,
     lambda_handler (R := runtime) (P := locked_server) 5 (start locked_server 0%nat)
     = (Raises (RuntimeError ("Sign-in failed: HTTP 401, Content-Type=application/xml" ++
                              Str.lf ++ "<error/>")), w1) /\
     s3_objects w1 = s3_objects (start locked_server 0%nat)) /\
  (exists w2,
     lambda_handler (R := runtime) (P := flaky_server) 5 (start flaky_server 0%nat)
     = (Raises (RuntimeError ("/users failed: HTTP 500, Content-Type=text/html" ++
                              Str.lf ++ "<html>Internal Server Error</html>")), w2) /\
     s3_objects w2 = s3_objects (start flaky_server 0%nat)).
Proof.
  split; eexists.
  - eapply (proj1 (export_is_all_or_nothing (R := runtime) (P := locked_server)
                     5 (start locked_server 0%nat)
                     (mkSettings (PStr "tableau.example.com") (PStr "") (PStr "exporter")
                                 (PStr "s3cr3t") (PStr "exports"))
                     (mkWorld (P := locked_server) 0%nat "3.21" true [] []) eq_refl)).
    vm_compute. reflexivity.
  - eapply (proj1 (proj2 (export_is_all_or_nothing (R := runtime) (P := flaky_server)
                            5 (start flaky_server 0%nat)
                            (mkSettings (PStr "tableau.example.com") (PStr "") (PStr "exporter")
                                        (PStr "s3cr3t") (PStr "exports"))
                            (mkWorld (P := flaky_server) 0%nat "3.21" true [] []) eq_refl))).
    + vm_compute. reflexivity.
    + vm_compute. reflexivity.
Defined.

Lemma signin_body_of_plain_strings_witness :
  Markup.read (signin_body "exporter" "s3cr3t/+=" "marketing")
  = Some (signin_document "exporter" "s3cr3t/+=" "marketing").
Proof.
  apply (signin_body_of_plain_strings "exporter" "s3cr3t/+=" "marketing");
    reflexivity.
Defined.

(** C2 fails on the code: a secret that is one double quote gives a body
    that is no document at all, and a secret that holds a quote followed by
    more text can give a document with another attribute in it. *)
Lemma signin_body_breaks_on_quote :
  Markup.read (signin_body "exporter" Str.dquote "marketing") = None /\
  Markup.read (signin_body "exporter" ("x" ++ Str.dquote ++ " admin=" ++ Str.dquote ++ "1")
                           "marketing")
  = Some (Element "tsRequest" []
            [Element "credentials"
               [("personalAccessTokenName", "exporter");
                ("personalAccessTokenSecret", "x");
                ("admin", "1")]
               [Element "site" [("contentUrl", "marketing")] []]]).
Proof. split; vm_compute; reflexivity. Qed.

(** An answer with status 404 comes back as a triple; no answer at all is
    raised. *)
Example not_found_is_returned :
  fst (_http_request (R := runtime) (P := missing_site_server)
         "GET" "https://tableau.example.com/api/3.19/sites/none/users" [] None 30
         (start missing_site_server 0%nat))
  = Returns (404, "text/plain", "no such site") /\
  fst (_http_request (R := runtime) (P := dead_server)
         "GET" "https://tableau.example.com/api/3.19/sites/none/users" [] None 30
         (start dead_server 0%nat))
  = Raises (ConnectionError "unreachable").
Proof. split; reflexivity. Qed.

(* ------------------------------------------------------------------ *)
(** ** Further properties *)

Section Further.

Context {R : Runtime} {P : Platform}.

(** *** Sign-in *)

Lemma signin_unfold server pat_name pat_secret site_content_url w :
  signin server pat_name pat_secret site_content_url w
  = match utf8_encode (signin_body pat_name pat_secret site_content_url) with
    | Some body =>
        match _http_request "POST" (api_base w server ++ "/auth/signin")
                            (rq_headers (signin_request w server body)) (Some body) 30 w with
        | (Returns (st, ct, tx), w1) =>
            if xml_bad st ct
            then (Raises (RuntimeError (failure_message "Sign-in" st ct tx)), w1)
            else match signin_reply tx with
                 | Ok r => (Returns r, w1)
                 | Raise e => (Raises e, w1)
                 end
        | (Raises e, w1) => (Raises e, w1)
        | (OutOfFuel, w1) => (OutOfFuel, w1)
        end
    | None => (Raises UnicodeEncodeError, w)
    end.
Proof.
  unfold signin. unfold bind at 1. cbn [_api_base get_world bind ret].
  unfold bind at 1.
  destruct (utf8_encode (signin_body pat_name pat_secret site_content_url)) as [body|];
    cbn [or_raise lift ret raise]; [|reflexivity].
  unfold bind at 1. cbn [signin_request rq_headers]. unfold api_base.
  destruct (_http_request _ _ _ _ _ w) as [[[[st ct] tx]| e |] w1]; try reflexivity.
  destruct (xml_bad st ct); [reflexivity|].
  unfold signin_reply.
  destruct (ET_fromstring tx) as [root|]; cbn; [|reflexivity].
  unfold bind at 1. destruct (ET.find_desc root "credentials") as [cred|]; cbn; [|reflexivity].
  unfold bind at 1. destruct (Py.assoc "token" (ET.attrib cred)) as [token|]; cbn; [|reflexivity].
  unfold bind at 1. destruct (ET.find_child cred "site") as [site|]; cbn; [|reflexivity].
  unfold bind at 1. destruct (Py.assoc "id" (ET.attrib site)) as [site_id|]; reflexivity.
Qed.

(** X1: [signin] makes one request at the most.  When the sign-in body can
    be encoded it makes exactly one, whatever the answer: a POST of the
    encoded body to [/auth/signin] under the API base, with the XML content
    type and [Accept] headers, and it does not try again.  When the body
    cannot be encoded, [UnicodeEncodeError] is raised and nothing is sent. *)
Theorem signin_makes_one_request server pat_name pat_secret site_content_url w :
  match utf8_encode (signin_body pat_name pat_secret site_content_url) with
  | Some body =>
      exists answer,
        wire (snd (signin server pat_name pat_secret site_content_url w))
        = (wire w ++
           [(mkRequest "POST"
                       ("https://" ++ server ++ "/api/" ++ API_VERSION w ++ "/auth/signin")
                       [("Content-Type", "application/xml");
                        ("Accept", "application/xml");
                        ("User-Agent", "curl/8.5.0")]
                       (Some body),
             answer)])%list
  | None =>
      signin server pat_name pat_secret site_content_url w = (Raises UnicodeEncodeError, w)
  end.
Proof.
  rewrite signin_unfold.
  destruct (utf8_encode (signin_body pat_name pat_secret site_content_url)) as [body|];
    [|reflexivity].
  cbn [signin_request rq_headers].
  assert (Hurl : api_base w server ++ "/auth/signin"
                 = "https://" ++ server ++ "/api/" ++ API_VERSION w ++ "/auth/signin")
    by (unfold api_base; rewrite !append_assoc; reflexivity).
  rewrite Hurl.
  destruct (_http_request _ _ _ _ _ w) as [o w1] eqn:H.
  destruct (http_request_frame _ _ _ _ _ _ _ _ H) as (_ & _ & _ & r & Hw & Ho).
  exists r. destruct r as [[[st ct] tx]|e]; subst o.
  - destruct (xml_bad st ct); [exact Hw|]. destruct (signin_reply tx); exact Hw.
  - exact Hw.
Qed.

(** X2: an answer to the sign-in request that is not HTTP 200 with [xml] in
    its content type is never parsed: [signin] raises a [RuntimeError] that
    names the status, the content type and the first 400 characters of the
    body. *)
Theorem signin_rejects_unusable_answer
    server pat_name pat_secret site_content_url w body st ct tx w1 :
  utf8_encode (signin_body pat_name pat_secret site_content_url) = Some body ->
  _http_request "POST" (api_base w server ++ "/auth/signin")
                (rq_headers (signin_request w server body))
                (rq_body (signin_request w server body))
                30 w = (Returns (st, ct, tx), w1) ->
  xml_bad st ct = true ->
  signin server pat_name pat_secret site_content_url w
  = (Raises (RuntimeError ("Sign-in failed: HTTP " ++ Str.of_Z st ++ ", Content-Type=" ++ ct ++
                           Str.lf ++ Str.take 400 tx)), w1).
Proof.
  intros Henc H Hbad. rewrite signin_unfold, Henc.
  cbn [signin_request rq_headers rq_body] in H |- *.
  rewrite H, Hbad. reflexivity.
Qed.

(** X3: when [signin] returns, the body was encoded and posted, the answer
    was HTTP 200 with [xml] in its content type, the token is the [token]
    attribute of the first [credentials] element of the body, and the site
    id is the [id] attribute of that element's first [site] child. *)
Theorem signin_returns_what_the_answer_holds
    server pat_name pat_secret site_content_url w token site_id w1 :
  signin server pat_name pat_secret site_content_url w = (Returns (token, site_id), w1) ->
  exists body ct tx root cred site_node,
    utf8_encode (signin_body pat_name pat_secret site_content_url) = Some body /\
    _http_request "POST" (api_base w server ++ "/auth/signin")
                  (rq_headers (signin_request w server body))
                  (rq_body (signin_request w server body))
                  30 w = (Returns (200, ct, tx), w1) /\
    Str.contains "xml" (Str.lower ct) = true /\
    ET_fromstring tx = Some root /\
    ET.find_desc root "credentials" = Some cred /\
    Py.assoc "token" (ET.attrib cred) = Some token /\
    ET.find_child cred "site" = Some site_node /\
    Py.assoc "id" (ET.attrib site_node) = Some site_id.
Proof.
  rewrite signin_unfold.
  destruct (utf8_encode (signin_body pat_name pat_secret site_content_url)) as [body|];
    [|discriminate].
  cbn [signin_request rq_headers rq_body].
  destruct (_http_request _ _ _ _ _ w) as [[[[st ct] tx]| e |] w0] eqn:Hreq;
    try discriminate.
  destruct (xml_bad st ct) eqn:Hbad; [discriminate|].
  unfold xml_bad in Hbad. apply orb_false_iff in Hbad. destruct Hbad as [Hst Hct].
  apply negb_false_iff in Hst, Hct. apply Z.eqb_eq in Hst. subst st.
  unfold signin_reply.
  destruct (ET_fromstring tx) as [root|] eqn:E1; cbn; [|discriminate].
  destruct (ET.find_desc root "credentials") as [cred|] eqn:E2; cbn; [|discriminate].
  destruct (Py.assoc "token" (ET.attrib cred)) as [tok|] eqn:E3; cbn; [|discriminate].
  destruct (ET.find_child cred "site") as [site_node|] eqn:E4; cbn; [|discriminate].
  destruct (Py.assoc "id" (ET.attrib site_node)) as [sid|] eqn:E5; cbn; [|discriminate].
  intros H. injection H as <- <- <-.
  exists body, ct, tx, root, cred, site_node. repeat split; assumption.
Qed.

(** *** The paging loop *)

(** X4: the XML fallback is chosen on the status and the content type alone.
    When a JSON answer is HTTP 200 with a JSON content type but its body does
    not decode, or has not the shape the loop reads, the error is raised at
    once and the page is not asked for as XML. *)
Theorem undecodable_json_is_not_retried_as_xml
    fuel server site_id token page_size users page w st ct tx w1 e :
  _http_request "GET" (page_url w server site_id page_size page)
                (json_headers token) None 30 w = (Returns (st, ct, tx), w1) ->
  json_ok st ct = true ->
  json_page tx = Raise e ->
  users_loop (S fuel) server site_id token page_size users page w = (Raises e, w1) /\
  wire w1 = (wire w ++
             [(json_request w server site_id token page_size page, Ok (st, ct, tx))])%list.
Proof.
  intros H1 Hok Hpage.
  destruct (http_request_returns _ _ _ _ _ _ _ _ H1) as (Hw1 & _).
  rewrite (users_loop_json _ _ _ _ _ _ _ _ _ _ _ _ H1 Hok), Hpage.
  split; [reflexivity | exact Hw1].
Qed.

(** X5: a JSON answer that is an object with neither a [users] nor a
    [pagination] key counts as an empty last page: nothing is raised, nothing
    is added, and the loop returns after that one request. *)
Theorem json_object_without_users_ends_the_loop
    fuel server site_id token page_size users page w st ct tx w1 d :
  _http_request "GET" (page_url w server site_id page_size page)
                (json_headers token) None 30 w = (Returns (st, ct, tx), w1) ->
  json_ok st ct = true ->
  json_loads tx = Some (PDict d) ->
  Py.assoc "users" d = None ->
  Py.assoc "pagination" d = None ->
  users_loop (S fuel) server site_id token page_size users page w = (Returns users, w1) /\
  wire w1 = (wire w ++
             [(json_request w server site_id token page_size page, Ok (st, ct, tx))])%list.
Proof.
  intros H1 Hok Hd Hu Hp.
  destruct (http_request_returns _ _ _ _ _ _ _ _ H1) as (Hw1 & _).
  rewrite (users_loop_json _ _ _ _ _ _ _ _ _ _ _ _ H1 Hok).
  unfold json_page. rewrite Hd. cbn [or_raise rbind Py.get]. rewrite Hu. cbn [rbind Py.get Py.assoc].
  cbn [Py.iter rbind]. rewrite Hp. cbn [rbind Py.len Py.get Py.assoc List.length int is_empty].
  rewrite orb_true_r, app_nil_r. split; [reflexivity | exact Hw1].
Qed.

(** X6: an XML answer without a [users] element counts as an empty last
    page as well, whatever the page size. *)
Theorem xml_without_users_ends_the_loop
    fuel server site_id token page_size users page w
    st ct tx w1 st2 ct2 tx2 w2 root :
  _http_request "GET" (page_url w server site_id page_size page)
                (json_headers token) None 30 w = (Returns (st, ct, tx), w1) ->
  json_ok st ct = false ->
  _http_request "GET" (page_url w server site_id page_size page)
                (xml_headers token) None 30 w1 = (Returns (st2, ct2, tx2), w2) ->
  xml_bad st2 ct2 = false ->
  ET_fromstring tx2 = Some root ->
  ET.find_desc root "users" = None ->
  users_loop (S fuel) server site_id token page_size users page w = (Returns users, w2).
Proof.
  intros H1 Hno H2 Hgood Hroot Hnone.
  rewrite (users_loop_xml _ _ _ _ _ _ _ _ _ _ _ _ _ _ _ _ H1 Hno H2), Hgood.
  unfold xml_page. rewrite Hroot. cbn [or_raise rbind]. rewrite Hnone.
  cbn [is_nil orb]. rewrite app_nil_r. reflexivity.
Qed.

(** X7: the loop has no bound of its own on the number of pages.  Against a
    far end that answers every page in a way that makes the loop go on, it
    does not return and does not raise, however much fuel it is given. *)
Theorem loop_goes_on_while_pages_are_full
    server site_id token page_size :
  (forall page w, exists w', answers_more server site_id token page_size page w w') ->
  forall fuel users page w,
    fst (users_loop fuel server site_id token page_size users page w) = OutOfFuel.
Proof.
  intros Hmore. induction fuel as [|fuel IH]; intros users page w; [reflexivity|].
  destruct (Hmore page w) as (w' & [(st & ct & tx & batch & items & total & H1 & Hok & Hpage & Hlt & Hne)
                                   |(st & ct & tx & w1 & st2 & ct2 & tx2 & batch & H1 & Hno & H2 & Hgood
                                     & Hpage & Hne & Hfull)]).
  - rewrite (users_loop_json _ _ _ _ _ _ _ _ _ _ _ _ H1 Hok), Hpage, Hne.
    replace (page * page_size >=? total) with false by (symmetry; rewrite Z.geb_leb; apply Z.leb_gt; lia).
    apply IH.
  - rewrite (users_loop_xml _ _ _ _ _ _ _ _ _ _ _ _ _ _ _ _ H1 Hno H2), Hgood, Hpage, Hne.
    replace (Z.of_nat (List.length batch) <? page_size) with false
      by (symmetry; apply Z.ltb_ge; lia).
    apply IH.
Qed.

Lemma pages_of_reached n page_size page :
  0 < page_size -> 0 < n ->
  (pages_of n page_size <= page <-> n <= page * page_size).
Proof.
  intros Hps Hn. unfold pages_of.
  replace (n =? 0) with false by (symmetry; apply Z.eqb_neq; lia).
  split; intros H.
  - pose proof (Z.div_mod (n + page_size - 1) page_size ltac:(lia)) as E.
    pose proof (Z.mod_pos_bound (n + page_size - 1) page_size Hps) as B. nia.
  - apply Z.lt_succ_r. apply Z.div_lt_upper_bound; lia.
Qed.

Lemma json_only_count ready pop server site_id token page_size :
  0 < page_size ->
  serves_json_only ready pop server site_id token page_size ->
  forall fuel page w users,
    1 <= page -> ready page (net w) ->
    (page - 1) * page_size < Z.of_nat (List.length pop)
    \/ (page = 1 /\ List.length pop = 0%nat) ->
    users = firstn (Z.to_nat ((page - 1) * page_size)) pop ->
    pages_of (Z.of_nat (List.length pop)) page_size + 1 - page <= Z.of_nat fuel ->
    exists w' exchanges,
      users_loop fuel server site_id token page_size users page w = (Returns pop, w') /\
      wire w' = (wire w ++ exchanges)%list /\
      Z.of_nat (List.length exchanges)
      = pages_of (Z.of_nat (List.length pop)) page_size + 1 - page.
Proof.
  intros Hps Hserves.
  induction fuel as [|fuel IH]; intros page w users Hp Hready Hinv Husers Hfuel.
  - exfalso. destruct Hinv as [Hinv | [-> Hz]].
    + assert (0 < Z.of_nat (List.length pop)) as Hn by nia.
      pose proof (proj1 (pages_of_reached _ page_size (page - 1) Hps Hn)). lia.
    + unfold pages_of in Hfuel. rewrite Hz in Hfuel. cbn in Hfuel. lia.
  - destruct (Hserves page w Hp Hready) as (w' & (st & ct & tx & H1 & Hok & Hpage) & Hready').
    destruct (http_request_returns _ _ _ _ _ _ _ _ H1) as (Hw1 & _).
    pose proof (page_slice_length pop page_size page ltac:(lia) Hp) as Hlen.
    pose proof (page_slice_accumulates pop page_size page ltac:(lia) Hp) as Hcat.
    rewrite <- Husers in Hcat.
    rewrite (users_loop_json _ _ _ _ _ _ _ _ _ _ _ _ H1 Hok), Hpage.
    destruct Hinv as [Hinv | [-> Hz]].
    + assert (0 < Z.of_nat (List.length pop)) as Hn by nia.
      rewrite nonempty_batch by lia. rewrite orb_false_r.
      pose proof (pages_of_reached _ page_size page Hps Hn) as Hreach.
      pose proof (pages_of_reached _ page_size (page - 1) Hps Hn) as Hprev.
      destruct (page * page_size >=? Z.of_nat (List.length pop)) eqn:Hstop.
      * rewrite Z.geb_leb in Hstop. apply Z.leb_le in Hstop.
        exists w', [(json_request w server site_id token page_size page, Ok (st, ct, tx))].
        split; [|split; [exact Hw1 | cbn [List.length]; lia]].
        rewrite Hcat, firstn_everything by lia. reflexivity.
      * rewrite Z.geb_leb in Hstop. apply Z.leb_gt in Hstop.
        destruct (IH (page + 1) w' (users ++ page_slice pop page_size page)%list
                     ltac:(lia) Hready')
          as (w'' & evs & Hrun & Hwire & Hcount).
        -- left. replace (page + 1 - 1) with page by lia. exact Hstop.
        -- replace (page + 1 - 1) with page by lia. exact Hcat.
        -- lia.
        -- exists w'', ((json_request w server site_id token page_size page,
                                   Ok (st, ct, tx)) :: evs).
           split; [exact Hrun|]. split.
           ++ rewrite Hwire, Hw1, <- app_assoc. reflexivity.
           ++ cbn [List.length]. lia.
    + assert (page_slice pop page_size 1 = []) as ->.
      { destruct (page_slice pop page_size 1); [reflexivity|].
        rewrite Hz in Hlen. cbn [List.length] in Hlen. lia. }
      cbn [is_empty]. rewrite orb_true_r.
      exists w', [(json_request w server site_id token page_size 1, Ok (st, ct, tx))].
      split; [|split; [exact Hw1 | unfold pages_of; rewrite Hz; reflexivity]].
      rewrite Husers, app_nil_r. destruct pop; [|discriminate]. now rewrite firstn_nil.
Qed.

(** X8: against a far end that serves N users as JSON, [list_site_users]
    makes one request for each page that holds users and none after the
    last: [ceil(N / page_size)] requests, and one request when there are no
    users at all. *)
Theorem json_needs_one_request_per_page
    ready pop server site_id token page_size w fuel :
  0 < page_size ->
  serves_json_only ready pop server site_id token page_size ->
  ready 1 (net w) ->
  pages_of (Z.of_nat (List.length pop)) page_size <= Z.of_nat fuel ->
  exists w' exchanges,
    list_site_users fuel server site_id token page_size w = (Returns pop, w') /\
    wire w' = (wire w ++ exchanges)%list /\
    Z.of_nat (List.length exchanges) = pages_of (Z.of_nat (List.length pop)) page_size.
Proof.
  intros Hps Hserves Hready Hfuel.
  destruct (json_only_count ready pop server site_id token page_size Hps Hserves
              fuel 1 w [] ltac:(lia) Hready)
    as (w' & evs & Hrun & Hwire & Hcount).
  - destruct pop; [right; split; reflexivity | left; cbn [List.length]; lia].
  - reflexivity.
  - lia.
  - exists w', evs. repeat split; [exact Hrun | exact Hwire | lia].
Qed.

Lemma xml_only_count ready pop server site_id token page_size :
  0 < page_size ->
  serves_xml_only ready pop server site_id token page_size ->
  forall fuel page w users,
    1 <= page -> ready page (net w) ->
    (page - 1) * page_size <= Z.of_nat (List.length pop) ->
    users = firstn (Z.to_nat ((page - 1) * page_size)) pop ->
    Z.of_nat (List.length pop) / page_size + 2 - page <= Z.of_nat fuel ->
    exists w' exchanges,
      users_loop fuel server site_id token page_size users page w = (Returns pop, w') /\
      wire w' = (wire w ++ exchanges)%list /\
      Z.of_nat (List.length exchanges)
      = 2 * (Z.of_nat (List.length pop) / page_size + 2 - page).
Proof.
  intros Hps Hserves.
  induction fuel as [|fuel IH]; intros page w users Hp Hready Hinv Husers Hfuel.
  - pose proof (pages_needed _ page_size page Hps Hinv). lia.
  - destruct (Hserves page w Hp Hready)
      as (w' & (st & ct & tx & w1 & st2 & ct2 & tx2 & H1 & Hno & H2 & Hgood & Hpage) & Hready').
    destruct (http_request_returns _ _ _ _ _ _ _ _ H1) as (Hw1 & _).
    destruct (http_request_returns _ _ _ _ _ _ _ _ H2) as (Hw2 & _).
    pose proof (page_slice_length pop page_size page ltac:(lia) Hp) as Hlen.
    pose proof (pages_needed _ page_size page Hps Hinv) as Hpages.
    pose proof (page_slice_accumulates pop page_size page ltac:(lia) Hp) as Hcat.
    rewrite <- Husers in Hcat.
    rewrite (users_loop_xml _ _ _ _ _ _ _ _ _ _ _ _ _ _ _ _ H1 Hno H2), Hgood, Hpage.
    destruct (is_nil (page_slice pop page_size page)
              || (Z.of_nat (List.length (page_slice pop page_size page)) <? page_size)) eqn:Hstop.
    + assert (Z.of_nat (List.length (page_slice pop page_size page)) < page_size) as Hshort.
      { apply orb_true_iff in Hstop. destruct Hstop as [Hemp | Hshort].
        - apply is_nil_length in Hemp. rewrite Hemp. lia.
        - apply Z.ltb_lt. exact Hshort. }
      assert (Z.of_nat (List.length pop) < page * page_size) as Hend by lia.
      assert (Z.of_nat (List.length pop) / page_size < page)
        by (apply Z.div_lt_upper_bound; lia).
      exists w', [(json_request w server site_id token page_size page, Ok (st, ct, tx));
                  (xml_request w server site_id token page_size page, Ok (st2, ct2, tx2))].
      split; [|split].
      * rewrite Hcat, firstn_everything by lia. reflexivity.
      * rewrite Hw2, Hw1, <- app_assoc. reflexivity.
      * cbn [List.length]. lia.
    + apply orb_false_iff in Hstop. destruct Hstop as [_ Hfull]. apply Z.ltb_ge in Hfull.
      assert (page * page_size <= Z.of_nat (List.length pop)) as Hnext by lia.
      destruct (IH (page + 1) w' (users ++ page_slice pop page_size page)%list
                   ltac:(lia) Hready')
        as (w'' & evs & Hrun & Hwire & Hcount).
      * replace (page + 1 - 1) with page by lia. exact Hnext.
      * replace (page + 1 - 1) with page by lia. exact Hcat.
      * lia.
      * exists w'', ((json_request w server site_id token page_size page,
                                Ok (st, ct, tx))
                               :: (xml_request w server site_id token page_size page,
                                   Ok (st2, ct2, tx2)) :: evs).
        split; [exact Hrun|]. split.
        -- rewrite Hwire, Hw2, Hw1, <- !app_assoc. reflexivity.
        -- cbn [List.length]. lia.
Qed.

(** X9: against a far end that serves N users as XML only, every page costs
    two requests, and the loop asks for [N / page_size + 1] pages: when N is
    a multiple of the page size it fetches one more, empty, page to find the
    end. *)
Theorem xml_needs_two_requests_per_page_and_a_short_page
    ready pop server site_id token page_size w fuel :
  0 < page_size ->
  serves_xml_only ready pop server site_id token page_size ->
  ready 1 (net w) ->
  Z.of_nat (List.length pop) / page_size + 1 <= Z.of_nat fuel ->
  exists w' exchanges,
    list_site_users fuel server site_id token page_size w = (Returns pop, w') /\
    wire w' = (wire w ++ exchanges)%list /\
    Z.of_nat (List.length exchanges) = 2 * (Z.of_nat (List.length pop) / page_size + 1).
Proof.
  intros Hps Hserves Hready Hfuel.
  destruct (xml_only_count ready pop server site_id token page_size Hps Hserves
              fuel 1 w [] ltac:(lia) Hready ltac:(lia) eq_refl ltac:(lia))
    as (w' & evs & Hrun & Hwire & Hcount).
  exists w', evs. repeat split; [exact Hrun | exact Hwire | lia].
Qed.

(** *** The CSV text *)

Lemma write_rows_attribute_error users :
  forallb Py.is_dict users = false ->
  forall buf, write_rows buf users = Raise AttributeError.
Proof.
  induction users as [|u users IH]; intros Hall buf; [discriminate|].
  cbn [forallb] in Hall. destruct (Py.is_dict u) eqn:Hu.
  - destruct u; try discriminate. cbn [write_rows].
    pose proof (writerow_record d) as Hrow.
    destruct (row_of (PDict d) fields) as [rowdict|e]; cbn [rbind] in Hrow |- *; [|discriminate].
    rewrite Hrow. cbn [rbind]. apply IH. exact Hall.
  - destruct u; try discriminate; reflexivity.
Qed.

(** X10: one record that is not a dict is enough for [write_csv_to_s3] to
    raise [AttributeError], wherever the record stands in the list; nothing
    is put into the bucket, not even the rows before it. *)
Theorem record_that_is_no_dict_stops_the_export users bucket w :
  forallb Py.is_dict users = false ->
  write_csv_to_s3 users bucket w = (Raises AttributeError, w).
Proof.
  intros Hall. rewrite write_csv_unfold, (write_rows_attribute_error users Hall). reflexivity.
Qed.

(** X11: [write_csv_to_s3] sends nothing over the network, and it leaves
    the bucket as it is or adds exactly one object, whose key is
    [tableau/tableau_server_users.csv] and whose content type is
    [text/csv; charset=utf-8], whatever the users and the bucket are. *)
Theorem export_goes_to_one_fixed_key users bucket w :
  wire (snd (write_csv_to_s3 users bucket w)) = wire w /\
  net (snd (write_csv_to_s3 users bucket w)) = net w /\
  (s3_objects (snd (write_csv_to_s3 users bucket w)) = s3_objects w \/
   exists data,
     s3_objects (snd (write_csv_to_s3 users bucket w))
     = (s3_objects w ++
        [mkPut bucket "tableau/tableau_server_users.csv" data "text/csv; charset=utf-8"])%list).
Proof.
  rewrite write_csv_unfold.
  destruct (write_rows (Csv.writerow fields) users) as [buf|e]; [|cbn; auto].
  destruct (utf8_encode buf) as [data|]; [|cbn; auto].
  cbn zeta. destruct (s3_refuses _); cbn; [auto|].
  split; [reflexivity|]. split; [reflexivity|]. right. eexists. reflexivity.
Qed.

(** X12: the text of a table tells its rows apart.  Two tables whose rows
    have two or more cells each are written as the same text only when they
    are the same table, whatever commas, quotes and line ends the cells
    hold. *)
Theorem csv_text_determines_the_rows rows1 rows2 :
  Forall (fun row => (2 <= List.length row)%nat) rows1 ->
  Forall (fun row => (2 <= List.length row)%nat) rows2 ->
  csv_document rows1 = csv_document rows2 ->
  rows1 = rows2.
Proof.
  intros H1 H2 Heq.
  rewrite <- (csv_read_document rows1 H1), <- (csv_read_document rows2 H2), Heq.
  reflexivity.
Qed.

(** *** [_to_bool] *)

Lemma lower_char_idem c : Str.lower_char (Str.lower_char c) = Str.lower_char c.
Proof. destruct c as [[|] [|] [|] [|] [|] [|] [|] [|]]; reflexivity. Qed.

Lemma is_space_lower_char c : Str.is_space (Str.lower_char c) = Str.is_space c.
Proof. destruct c as [[|] [|] [|] [|] [|] [|] [|] [|]]; reflexivity. Qed.

Lemma lower_lstrip s : Str.lower (Str.lstrip s) = Str.lstrip (Str.lower s).
Proof.
  induction s as [|c s IH]; [reflexivity|].
  cbn [Str.lstrip Str.lower]. rewrite is_space_lower_char.
  destruct (Str.is_space c); [exact IH | reflexivity].
Qed.

Lemma lower_rstrip s : Str.lower (Str.rstrip s) = Str.rstrip (Str.lower s).
Proof.
  induction s as [|c s IH]; [reflexivity|].
  cbn [Str.rstrip Str.lower]. rewrite <- IH, is_space_lower_char.
  destruct (Str.rstrip s) as [|c' r']; cbn [Str.lower].
  - destruct (Str.is_space c); reflexivity.
  - reflexivity.
Qed.

Lemma lower_strip s : Str.lower (Str.strip s) = Str.strip (Str.lower s).
Proof. unfold Str.strip. now rewrite lower_rstrip, lower_lstrip. Qed.

(** X13: [_to_bool] does not tell upper case from lower case: two strings
    that differ in case only are read as the same flag. *)
Theorem to_bool_ignores_case s1 s2 default :
  Str.lower s1 = Str.lower s2 ->
  _to_bool (PStr s1) default = _to_bool (PStr s2) default.
Proof.
  intros H. cbn [_to_bool]. now rewrite !lower_strip, H.
Qed.

Lemma lstrip_blank a s : blank a = true -> Str.lstrip (a ++ s) = Str.lstrip s.
Proof.
  induction a as [|c a IH]; intros H; [reflexivity|].
  cbn [blank] in H. apply andb_true_iff in H. destruct H as [Hc Ha].
  cbn [append Str.lstrip]. rewrite Hc. exact (IH Ha).
Qed.

Lemma rstrip_blank_only b : blank b = true -> Str.rstrip b = EmptyString.
Proof.
  induction b as [|c b IH]; intros H; [reflexivity|].
  cbn [blank] in H. apply andb_true_iff in H. destruct H as [Hc Hb].
  cbn [Str.rstrip]. rewrite (IH Hb), Hc. reflexivity.
Qed.

Lemma rstrip_blank s b : blank b = true -> Str.rstrip (s ++ b) = Str.rstrip s.
Proof.
  intros Hb. induction s as [|c s IH]; cbn [append Str.rstrip].
  - apply rstrip_blank_only. exact Hb.
  - rewrite IH. reflexivity.
Qed.

Lemma lstrip_blank_only b : blank b = true -> Str.lstrip b = EmptyString.
Proof.
  induction b as [|c b IH]; intros H; [reflexivity|].
  cbn [blank] in H. apply andb_true_iff in H. destruct H as [Hc Hb].
  cbn [Str.lstrip]. rewrite Hc. exact (IH Hb).
Qed.

Lemma strip_blank_right s b : blank b = true -> Str.strip (s ++ b) = Str.strip s.
Proof.
  intros Hb. unfold Str.strip. induction s as [|c s IH]; cbn [append Str.lstrip].
  - now rewrite (lstrip_blank_only b Hb).
  - destruct (Str.is_space c); [exact IH|].
    change (String c (s ++ b)) with (String c s ++ b). apply rstrip_blank. exact Hb.
Qed.

(** X14: [_to_bool] does not see blanks around a string: any run of
    characters that [strip] removes may stand before and after it. *)
Theorem to_bool_ignores_surrounding_blanks a s b default :
  blank a = true -> blank b = true ->
  _to_bool (PStr (a ++ s ++ b)) default = _to_bool (PStr s) default.
Proof.
  intros Ha Hb. cbn [_to_bool]. unfold Str.strip at 1.
  rewrite (lstrip_blank a _ Ha). fold (Str.strip (s ++ b)).
  now rewrite (strip_blank_right s b Hb).
Qed.

(** *** Messages and URLs *)

Lemma length_append (a b : string) :
  String.length (a ++ b) = (String.length a + String.length b)%nat.
Proof. induction a as [|c a IH]; cbn; [reflexivity | now rewrite IH]. Qed.

Lemma length_take n s : (String.length (Str.take n s) <= n)%nat.
Proof.
  revert s. induction n as [|n IH]; intros s; [cbn; lia|].
  destruct s as [|c s]; cbn; [lia|]. specialize (IH s). lia.
Qed.

Lemma take_take n s : Str.take n (Str.take n s) = Str.take n s.
Proof.
  revert s. induction n as [|n IH]; intros s; [reflexivity|].
  destruct s as [|c s]; cbn; [reflexivity | now rewrite IH].
Qed.

(** X15: the message of a failed exchange quotes at most the first 400
    characters of the body: it is the same for two bodies that agree on
    those, and however long the body is, the message is at most 430
    characters longer than its label, the status and the content type
    together. *)
Theorem failure_message_quotes_400_characters what status ctype text :
  failure_message what status ctype text
  = failure_message what status ctype (Str.take 400 text) /\
  (String.length (failure_message what status ctype text)
   <= String.length what + String.length (Str.of_Z status) + String.length ctype + 430)%nat.
Proof.
  unfold failure_message. rewrite take_take. split; [reflexivity|].
  rewrite !length_append. pose proof (length_take 400 text). cbn [String.length Str.lf Str.chr].
  lia.
Qed.

Lemma decimal_of_Z z : decimal (Str.of_Z z) = Some z.
Proof.
  unfold decimal, Str.of_Z. rewrite <- (DecimalZ.of_to z) at 2.
  destruct (Z.to_int z) as [u|u].
  - destruct u; try (rewrite NilZero.isi by discriminate; reflexivity). reflexivity.
  - destruct u; try (rewrite NilZero.isi by discriminate; reflexivity). reflexivity.
Qed.

Lemma of_Z_inj z1 z2 : Str.of_Z z1 = Str.of_Z z2 -> z1 = z2.
Proof.
  intros H. pose proof (decimal_of_Z z1) as H1. rewrite H, decimal_of_Z in H1.
  congruence.
Qed.

Lemma append_inj_l (a x y : string) : a ++ x = a ++ y -> x = y.
Proof. induction a as [|c a IH]; cbn; intros H; [exact H | injection H; auto]. Qed.

(** X16: different pages have different URLs: with the server, the site,
    the API version and the page size the same, the URL tells the page
    number. *)
Theorem page_url_tells_the_page w server site_id page_size page1 page2 :
  page_url w server site_id page_size page1 = page_url w server site_id page_size page2 ->
  page1 = page2.
Proof.
  unfold page_url, users_path. intros H.
  apply append_inj_l in H. do 5 apply append_inj_l in H.
  apply of_Z_inj. exact H.
Qed.

(** *** The handler *)

Lemma quiet_ret {A} (a : A) : sends_nothing (ret a).
Proof. intros w. split; reflexivity. Qed.

Lemma quiet_lift {A} (r : result A) : sends_nothing (lift r).
Proof. destruct r; intros w; split; reflexivity. Qed.

Lemma quiet_get_world : sends_nothing get_world.
Proof. intros w. split; reflexivity. Qed.

Lemma quiet_set_API_VERSION v : sends_nothing (set_API_VERSION v).
Proof. intros w. split; reflexivity. Qed.

Lemma quiet_set_VERIFY_SSL b : sends_nothing (set_VERIFY_SSL b).
Proof. intros w. split; reflexivity. Qed.

Lemma quiet_bind {A B} (c : M A) (k : A -> M B) :
  sends_nothing c -> (forall a, sends_nothing (k a)) -> sends_nothing (bind c k).
Proof.
  intros Hc Hk w. unfold bind. destruct (Hc w) as [Hw Hn].
  destruct (c w) as [[a| e |] w1]; cbn in Hw, Hn |- *; [|auto|auto].
  destruct (Hk a w1) as [Hw' Hn']. split; congruence.
Qed.

Lemma quiet_handler_setup : sends_nothing handler_setup.
Proof.
  unfold handler_setup.
  repeat (apply quiet_bind;
          [first [apply quiet_lift | apply quiet_get_world
                 | apply quiet_set_API_VERSION | apply quiet_set_VERIFY_SSL]
          | intros ?]).
  apply quiet_ret.
Qed.

(** X17: an error in the handler's settings (a missing environment variable,
    a secret that cannot be read or decoded, a missing key) is the error the
    handler raises, and it is raised before anything is sent and before
    anything is put into the bucket. *)
Theorem settings_error_is_raised_before_any_request fuel w e w0 :
  handler_setup w = (Raises e, w0) ->
  lambda_handler fuel w = (Raises e, w0) /\
  wire w0 = wire w /\ net w0 = net w /\ s3_objects w0 = s3_objects w.
Proof.
  intros Hsetup.
  pose proof (keeps_run _ _ _ _ keeps_handler_setup Hsetup) as K.
  destruct (quiet_handler_setup w) as [Hw Hn]. rewrite Hsetup in Hw, Hn. cbn in Hw, Hn.
  rewrite lambda_handler_split. unfold bind at 1. rewrite Hsetup. auto.
Qed.

(** X18: the handler stores the API version and the TLS flag of the secret
    in the module's globals before it looks for the server.  With a Tableau
    secret that has no [SERVER] key it raises [KeyError], having sent
    nothing, and the globals are already the new ones. *)
Theorem missing_server_key_leaves_new_globals fuel w tableau_name s3_name tsec s3sec :
  environ "TABLEAU_SECRET_NAME" = Some tableau_name ->
  environ "S3_SECRET_NAME" = Some s3_name ->
  _get_secret_json tableau_name = Ok (PDict tsec) ->
  _get_secret_json s3_name = Ok s3sec ->
  Py.assoc "SERVER" tsec = None ->
  lambda_handler fuel w
  = (Raises (KeyError "SERVER"),
     mkWorld (net w)
             (str (match Py.assoc "API_VERSION" tsec with
                   | Some v => v
                   | None => PStr (API_VERSION w)
                   end))
             (_to_bool (match Py.assoc "VERIFY_SSL" tsec with
                        | Some v => v
                        | None => PBool (VERIFY_SSL w)
                        end) true)
             (s3_objects w) (wire w)).
Proof.
  intros E1 E2 T S Hnone.
  rewrite lambda_handler_split. unfold handler_setup.
  unfold bind at 1. unfold bind at 1. rewrite E1. cbn [or_raise lift ret].
  unfold bind at 1. rewrite E2. cbn [or_raise lift ret].
  unfold bind at 1. rewrite T. cbn [lift ret].
  unfold bind at 1. rewrite S. cbn [lift ret].
  unfold bind at 1. cbn [get_world].
  unfold bind at 1. cbn [Py.get lift ret].
  unfold bind at 1. cbn [set_API_VERSION].
  unfold bind at 1. cbn [Py.get lift ret VERIFY_SSL].
  unfold bind at 1. cbn [set_VERIFY_SSL].
  unfold bind at 1. cbn [Py.getitem]. rewrite Hnone. reflexivity.
Qed.

(** X19: when the handler returns, [signin] has returned a token and a site
    id, [list_site_users] has returned a list of records for them, and the
    handler has put exactly one object into the bucket, under the fixed key:
    the encoded table of that very list, in its order, header first.  The
    result says [ok], names the bucket, that key and the API version in
    force, and its count is the number of rows of the stored table that
    follow the header. *)
Theorem handler_result_describes_the_stored_table fuel w r w' :
  lambda_handler fuel w = (Returns r, w') ->
  exists cfg w0 token site_id w1 records w2 data,
    handler_setup w = (Returns cfg, w0) /\
    signin (str (cfg_server cfg)) (str (cfg_pat_name cfg)) (str (cfg_pat_secret cfg))
           (str (cfg_site_slug cfg)) w0 = (Returns (token, site_id), w1) /\
    list_site_users fuel (str (cfg_server cfg)) site_id token 1000 w1
    = (Returns (map PDict records), w2) /\
    utf8_encode (csv_document (expected_table records)) = Some data /\
    s3_objects w'
    = (s3_objects w ++
       [mkPut (cfg_bucket cfg) "tableau/tableau_server_users.csv" data
              "text/csv; charset=utf-8"])%list /\
    res_status r = "ok" /\
    res_bucket r = cfg_bucket cfg /\
    res_key r = "tableau/tableau_server_users.csv" /\
    res_api_version r = API_VERSION w' /\
    res_count r = Z.of_nat (List.length records) /\
    Csv.read (csv_document (expected_table records)) = expected_table records /\
    Z.of_nat (List.length (Csv.read (csv_document (expected_table records))))
    = res_count r + 1.
Proof.
  rewrite lambda_handler_split. unfold bind at 1.
  destruct (handler_setup w) as [[cfg| e |] w0] eqn:Hsetup; try discriminate.
  pose proof (keeps_run _ _ _ _ keeps_handler_setup Hsetup) as K0.
  unfold handler_export. unfold bind at 1.
  destruct (signin _ _ _ _ w0) as [[[token site_id]| e |] w1] eqn:Hsign; try discriminate.
  pose proof (keeps_run _ _ _ _ (keeps_signin _ _ _ _) Hsign) as K1.
  unfold bind at 1.
  destruct (list_site_users fuel _ site_id token 1000 w1) as [[users| e |] w2] eqn:Hlist;
    try discriminate.
  pose proof (keeps_run _ _ _ _ (keeps_users_loop _ _ _ _ _ _ _) Hlist) as K2.
  unfold bind at 1.
  destruct (write_csv_cases users (cfg_bucket cfg) w2)
    as [(data & Hall & Henc & Hcsv) | (e & Hcsv)]; rewrite Hcsv; [|discriminate].
  destruct (all_dicts users Hall) as (records & ->).
  rewrite rows_expected in Henc.
  intros H. cbn in H. injection H as <- <-.
  assert (Hread : Csv.read (csv_document (expected_table records)) = expected_table records)
    by apply csv_read_document, expected_table_rows.
  exists cfg, w0, token, site_id, w1, records, w2, data.
  cbn [res_status res_key res_api_version res_count res_bucket s3_objects API_VERSION].
  rewrite length_map.
  repeat split; try reflexivity; try assumption.
  - change export_key with "tableau/tableau_server_users.csv". congruence.
  - rewrite Hread. unfold expected_table. cbn [List.length]. rewrite length_map. lia.
Qed.

(** X20: a secret that has text is read from its text alone: the binary
    form is not looked at, so one that is not UTF-8 raises nothing. *)
Theorem secret_text_wins_over_binary name_or_arn res c r :
  get_secret_value name_or_arn = Ok res ->
  SecretString res = Some (String c r) ->
  _get_secret_json name_or_arn = or_raise (json_loads (String c r)) JSONDecodeError.
Proof.
  intros Hres Htext. unfold _get_secret_json. rewrite Hres. cbn [rbind]. rewrite Htext.
  cbn [no_text]. destruct (SecretBinary res); reflexivity.
Qed.

End Further.

(* ------------------------------------------------------------------ *)
(** ** The further properties on the canned runs *)

Lemma signin_rejects_unusable_answer_witness :
  exists w1,
    signin (R := runtime) (P := locked_server) server "exporter" "s3cr3t" EmptyString
           (start locked_server 0%nat)
    = (Raises (RuntimeError ("Sign-in failed: HTTP " ++ Str.of_Z 401 ++ ", Content-Type=" ++
                             "application/xml" ++ Str.lf ++ Str.take 400 "<error/>")), w1).
Proof.
  eexists.
  eapply (signin_rejects_unusable_answer (R := runtime) (P := locked_server)
            server "exporter" "s3cr3t" EmptyString (start locked_server 0%nat)).
  - reflexivity.
  - reflexivity.
  - reflexivity.
Defined.

Lemma signin_returns_what_the_answer_holds_witness :
  exists w1 body ct tx root cred site_node,
    @utf8_encode runtime (signin_body "exporter" "s3cr3t" EmptyString) = Some body /\
    _http_request (R := runtime) (P := flaky_server) "POST"
                  (api_base (start flaky_server 0%nat) server ++ "/auth/signin")
                  (rq_headers (signin_request (start flaky_server 0%nat) server body))
                  (rq_body (signin_request (start flaky_server 0%nat) server body))
                  30 (start flaky_server 0%nat)
    = (Returns (200, ct, tx), w1) /\
    Str.contains "xml" (Str.lower ct) = true /\
    @ET_fromstring runtime tx = Some root /\
    ET.find_desc root "credentials" = Some cred /\
    Py.assoc "token" (ET.attrib cred) = Some "tok-123" /\
    ET.find_child cred "site" = Some site_node /\
    Py.assoc "id" (ET.attrib site_node) = Some "site-1".
Proof.
  eexists.
  eapply (signin_returns_what_the_answer_holds (R := runtime) (P := flaky_server)
            server "exporter" "s3cr3t" EmptyString (start flaky_server 0%nat)
            "tok-123" "site-1").
  vm_compute. reflexivity.
Defined.

Lemma undecodable_json_is_not_retried_as_xml_witness :
  exists w1,
    users_loop (R := runtime) (P := garbled_server) 1 server site token 1000 [] 1
               (start garbled_server 0%nat)
    = (Raises JSONDecodeError, w1) /\
    wire w1
    = (wire (start garbled_server 0%nat) ++
       [(json_request (start garbled_server 0%nat) server site token 1000 1,
         Ok (200, "application/json;charset=utf-8", "<html>maintenance</html>"))])%list.
Proof.
  eexists.
  eapply (undecodable_json_is_not_retried_as_xml (R := runtime) (P := garbled_server)
            0 server site token 1000 [] 1 (start garbled_server 0%nat)).
  - reflexivity.
  - reflexivity.
  - reflexivity.
Defined.

Lemma json_object_without_users_ends_the_loop_witness :
  exists w1,
    users_loop (R := runtime_more) (P := error_object_server) 1 server site token 1000 [ada] 1
               (start error_object_server 0%nat)
    = (Returns [ada], w1) /\
    wire w1
    = (wire (start error_object_server 0%nat) ++
       [(json_request (start error_object_server 0%nat) server site token 1000 1,
         Ok (200, "application/json;charset=utf-8", "error object"))])%list.
Proof.
  eexists.
  eapply (json_object_without_users_ends_the_loop (R := runtime_more) (P := error_object_server)
            0 server site token 1000 [ada] 1 (start error_object_server 0%nat)).
  - reflexivity.
  - reflexivity.
  - reflexivity.
  - reflexivity.
  - reflexivity.
Defined.

Lemma xml_without_users_ends_the_loop_witness :
  exists w2,
    users_loop (R := runtime_more) (P := hollow_server) 1 server site token 1000 [ada] 1
               (start hollow_server 0%nat)
    = (Returns [ada], w2).
Proof.
  eexists.
  eapply (xml_without_users_ends_the_loop (R := runtime_more) (P := hollow_server)
            0 server site token 1000 [ada] 1 (start hollow_server 0%nat)).
  - reflexivity.
  - reflexivity.
  - reflexivity.
  - reflexivity.
  - reflexivity.
  - reflexivity.
Defined.

Lemma endless_server_answers_more :
  forall page w,
    exists w', answers_more (R := runtime) (P := endless_server) server site token 2 page w w'.
Proof.
  intros page [n a v objs log]. eexists. right. unfold answers_more.
  do 8 eexists.
  split; [destruct n; reflexivity|]. split; [reflexivity|].
  split; [reflexivity|]. split; [reflexivity|]. split; [reflexivity|].
  split; [reflexivity|]. cbn. lia.
Qed.

Lemma loop_goes_on_while_pages_are_full_witness :
  fst (users_loop (R := runtime) (P := endless_server) 40 server site token 2 [] 1
                  (start endless_server 0%nat))
  = OutOfFuel.
Proof.
  apply (loop_goes_on_while_pages_are_full (R := runtime) (P := endless_server)
           server site token 2 endless_server_answers_more).
Defined.

Lemma crowd_last_pages page :
  4 <= page -> page_slice crowd 1000 page = [].
Proof.
  intros H. unfold page_slice. rewrite skipn_all2; [apply firstn_nil|].
  unfold crowd. rewrite repeat_length. lia.
Qed.

Lemma crowd_json_server_serves :
  serves_json_only (R := runtime_more) (P := crowd_json_server) crowd_ready crowd
                   server site token 1000.
Proof.
  intros page [n a v objs log] Hp Hready. cbn [net] in Hready.
  destruct n as [|[|[|n]]].
  - assert (page = 1) as -> by (destruct Hready; lia).
    eexists. split.
    + unfold answers_json. do 3 eexists.
      split; [reflexivity|]. split; [reflexivity|]. vm_compute. reflexivity.
    + left. reflexivity.
  - assert (page = 2) as -> by (destruct Hready; lia).
    eexists. split.
    + unfold answers_json. do 3 eexists.
      split; [reflexivity|]. split; [reflexivity|]. vm_compute. reflexivity.
    + left. reflexivity.
  - assert (page = 3) as -> by (destruct Hready; lia).
    eexists. split.
    + unfold answers_json. do 3 eexists.
      split; [reflexivity|]. split; [reflexivity|]. vm_compute. reflexivity.
    + left. reflexivity.
  - assert (4 <= page) as Hp4 by (destruct Hready; lia).
    eexists. split.
    + unfold answers_json. do 3 eexists.
      split; [destruct n; reflexivity|]. split; [reflexivity|].
      rewrite (crowd_last_pages page Hp4). reflexivity.
    + right. cbn [net]. lia.
Qed.

Lemma json_needs_one_request_per_page_witness :
  exists w' exchanges,
    list_site_users (R := runtime_more) (P := crowd_json_server) 3 server site token 1000
                    (start crowd_json_server 0%nat)
    = (Returns crowd, w') /\
    wire w' = (wire (start crowd_json_server 0%nat) ++ exchanges)%list /\
    Z.of_nat (List.length exchanges) = pages_of (Z.of_nat (List.length crowd)) 1000.
Proof.
  apply (json_needs_one_request_per_page (R := runtime_more) (P := crowd_json_server)
           crowd_ready crowd server site token 1000 (start crowd_json_server 0%nat) 3).
  - reflexivity.
  - exact crowd_json_server_serves.
  - left. reflexivity.
  - vm_compute. discriminate.
Defined.

Lemma markup_last_pages page :
  3 <= page -> page_slice markup_population 2 page = [].
Proof.
  intros H. unfold page_slice. rewrite skipn_all2; [apply firstn_nil|].
  cbn [List.length markup_population]. lia.
Qed.

Lemma markup_server_serves :
  serves_xml_only (R := runtime_more) (P := markup_server) markup_ready markup_population
                  server site token 2.
Proof.
  intros page [n a v objs log] Hp Hready. cbn [net] in Hready.
  destruct Hready as [[-> ->] | [[-> ->] | [Hp3 Hn4]]].
  - eexists. split.
    + unfold answers_xml. do 7 eexists.
      split; [reflexivity|]. split; [reflexivity|]. split; [reflexivity|].
      split; reflexivity.
    + right. left. split; reflexivity.
  - eexists. split.
    + unfold answers_xml. do 7 eexists.
      split; [reflexivity|]. split; [reflexivity|]. split; [reflexivity|].
      split; reflexivity.
    + right. right. cbn. lia.
  - destruct n as [|[|[|[|n]]]]; try lia.
    eexists. split.
    + unfold answers_xml. do 7 eexists.
      split; [destruct n; reflexivity|]. split; [reflexivity|]. split; [reflexivity|].
      split; [reflexivity|]. rewrite (markup_last_pages page Hp3). reflexivity.
    + right. right. cbn. lia.
Qed.

Lemma xml_needs_two_requests_per_page_and_a_short_page_witness :
  exists w' exchanges,
    list_site_users (R := runtime_more) (P := markup_server) 2 server site token 2
                    (start markup_server 0%nat)
    = (Returns [ada; bob; dee], w') /\
    wire w' = (wire (start markup_server 0%nat) ++ exchanges)%list /\
    Z.of_nat (List.length exchanges) = 2 * (Z.of_nat (List.length markup_population) / 2 + 1).
Proof.
  apply (xml_needs_two_requests_per_page_and_a_short_page
           (R := runtime_more) (P := markup_server)
           markup_ready markup_population server site token 2 (start markup_server 0%nat) 2).
  - reflexivity.
  - exact markup_server_serves.
  - left. split; reflexivity.
  - vm_compute. discriminate.
Defined.

Lemma record_that_is_no_dict_stops_the_export_witness :
  write_csv_to_s3 (R := runtime) (P := terse_server) [ada; PStr "bob"; cy] (PStr "exports")
                  (start terse_server 0%nat)
  = (Raises AttributeError, start terse_server 0%nat).
Proof.
  apply (record_that_is_no_dict_stops_the_export (R := runtime) (P := terse_server)
           [ada; PStr "bob"; cy] (PStr "exports") (start terse_server 0%nat)).
  reflexivity.
Defined.

Lemma csv_text_determines_the_rows_witness :
  [["a,b"; "c"]; [Str.dquote; Str.lf]] = [["a,b"; "c"]; [Str.dquote; Str.lf]].
Proof.
  apply (csv_text_determines_the_rows [["a,b"; "c"]; [Str.dquote; Str.lf]]
                                      [["a,b"; "c"]; [Str.dquote; Str.lf]]).
  - repeat constructor.
  - repeat constructor.
  - reflexivity.
Defined.

Lemma to_bool_ignores_case_witness :
  _to_bool (PStr "TRUE") false = _to_bool (PStr "true") false.
Proof.
  apply (to_bool_ignores_case "TRUE" "true" false). reflexivity.
Defined.

Lemma to_bool_ignores_surrounding_blanks_witness :
  _to_bool (PStr ("  " ++ "Yes" ++ Str.lf)) false = _to_bool (PStr "Yes") false.
Proof.
  apply (to_bool_ignores_surrounding_blanks "  " "Yes" Str.lf false); reflexivity.
Defined.

Lemma page_url_tells_the_page_witness : 7 = 7.
Proof.
  apply (page_url_tells_the_page (P := terse_server) (start terse_server 0%nat)
                                 server site 1000 7 7).
  reflexivity.
Defined.

Lemma settings_error_is_raised_before_any_request_witness :
  lambda_handler (R := runtime) (P := bare_platform) 5 (start bare_platform 0%nat)
  = (Raises (KeyError "TABLEAU_SECRET_NAME"), start bare_platform 0%nat) /\
  wire (start bare_platform 0%nat) = wire (start bare_platform 0%nat) /\
  net (start bare_platform 0%nat) = net (start bare_platform 0%nat) /\
  s3_objects (start bare_platform 0%nat) = s3_objects (start bare_platform 0%nat).
Proof.
  apply (settings_error_is_raised_before_any_request (R := runtime) (P := bare_platform)
           5 (start bare_platform 0%nat)).
  reflexivity.
Defined.

Lemma missing_server_key_leaves_new_globals_witness :
  lambda_handler (R := runtime_more) (P := headless_platform) 5
                 (mkWorld (P := headless_platform) 0%nat "3.19" true [] [])
  = (Raises (KeyError "SERVER"),
     mkWorld (P := headless_platform) 0%nat "3.25" false [] []).
Proof.
  apply (missing_server_key_leaves_new_globals (R := runtime_more) (P := headless_platform)
           5 (mkWorld (P := headless_platform) 0%nat "3.19" true [] [])
           "prod/tableau" "prod/s3"
           [("API_VERSION", PStr "3.25"); ("VERIFY_SSL", PStr "no");
            ("PAT_NAME", PStr "exporter"); ("PAT_SECRET", PStr "s3cr3t")]
           s3_secret);
    reflexivity.
Defined.

Lemma handler_result_describes_the_stored_table_witness :
  exists cfg w0 token site_id w1 records w2 data,
    handler_setup (R := runtime) (P := working_server) (start working_server 0%nat)
    = (Returns cfg, w0) /\
    signin (R := runtime) (str (R := runtime) (cfg_server cfg))
           (str (R := runtime) (cfg_pat_name cfg))
           (str (R := runtime) (cfg_pat_secret cfg))
           (str (R := runtime) (cfg_site_slug cfg)) w0
    = (Returns (token, site_id), w1) /\
    list_site_users (R := runtime) 5 (str (R := runtime) (cfg_server cfg)) site_id token 1000 w1
    = (Returns (map PDict records), w2) /\
    @utf8_encode runtime (csv_document (expected_table (R := runtime) records)) = Some data /\
    s3_objects (snd (lambda_handler (R := runtime) (P := working_server) 5
                                    (start working_server 0%nat)))
    = (s3_objects (start working_server 0%nat) ++
       [mkPut (cfg_bucket cfg) "tableau/tableau_server_users.csv" data
              "text/csv; charset=utf-8"])%list /\
    "ok" = "ok" /\
    PStr "exports" = cfg_bucket cfg /\
    "tableau/tableau_server_users.csv" = "tableau/tableau_server_users.csv" /\
    "3.21" = API_VERSION (snd (lambda_handler (R := runtime) (P := working_server) 5
                                              (start working_server 0%nat))) /\
    2 = Z.of_nat (List.length records) /\
    Csv.read (csv_document (expected_table (R := runtime) records))
    = expected_table (R := runtime) records /\
    Z.of_nat (List.length (Csv.read (csv_document (expected_table (R := runtime) records))))
    = 2 + 1.
Proof.
  apply (handler_result_describes_the_stored_table (R := runtime) (P := working_server)
           5 (start working_server 0%nat)
           (mkResult "ok" 2 (PStr "exports") "tableau/tableau_server_users.csv" "3.21")).
  vm_compute. reflexivity.
Defined.

Lemma secret_text_wins_over_binary_witness :
  @utf8_decode runtime [Byte.xff; Byte.xfe] = None /\
  _get_secret_json (R := runtime) (P := doubled_platform) "prod/tableau"
  = Ok tableau_secret.
Proof.
  split; [reflexivity|].
  apply (secret_text_wins_over_binary (R := runtime) (P := doubled_platform)
           "prod/tableau" (mkSecret (Some "tableau secret") (Some [Byte.xff; Byte.xfe]))
           "t"%char "ableau secret");
    reflexivity.
Defined.
